(** * Disc Sales POS: a shallow embedding of the Express server

    The server (the "Fixed Version" of server.js) keeps users, products,
    sales and sale line items in four PostgreSQL tables, answers JSON
    requests and mirrors changes to socket.io clients.  This file embeds

    - the four tables with the constraints their CREATE TABLE statements
      declare (NOT NULL, UNIQUE, REFERENCES) and their SERIAL sequences;
    - every SQL statement the handlers below issue, as a function on tables;
    - the pool and the checked-out client, with BEGIN, COMMIT and ROLLBACK
      and with connection errors on the client's calls;
    - initializeDatabase and the handlers of POST /api/register,
      POST /api/login, PUT /api/users/:id/approve, POST /api/products and
      POST /api/sales;
    - the socket.io fan-out (io.emit, socket.broadcast.emit) and the four
      socket listeners.

    Conventions.  Money is counted in cents, the scale of the DECIMAL(10,2)
    columns, so the rounding of JavaScript number arithmetic is outside the
    model.  The widths of the columns a request can fill (VARCHAR(n), the
    ten digits of DECIMAL, 32-bit INTEGER) are modelled; text is ASCII.  The
    password column holds bcrypt hashes, which are 60 characters long, and
    the SERIAL sequences are taken below their maximum.  A request body
    field that may be absent is an [option]; [None] is JavaScript's
    undefined (sent to the store as NULL).  Requests are handled one at a
    time.  console.log is left out. *)

From stdpp Require Import gmap strings list.
From Stdlib Require Import ZArith String Ascii List Sorted Bool Lia.
Import ListNotations.

Local Open Scope string_scope.
Local Open Scope list_scope.
Local Open Scope Z_scope.

(** ** Rows of the four tables *)

Record user_row := {
  u_id : Z;
  u_full_name : string;
  u_email : string;
  u_password : string;
  u_role : option string;
  u_status : option string;
  u_bio : option string;
  u_created_at : Z;
  u_last_login : option Z
}.

Record product_row := {
  p_id : Z;
  p_name : string;
  p_category : string;
  p_purchase_price : Z;
  p_selling_price : Z;
  p_stock : Z;
  p_created_at : Z;
  p_updated_at : Z
}.

Record sale_row := {
  s_id : Z;
  s_date : Z;
  s_customer : string;
  s_total : Z;
  s_user_id : option Z;
  s_created_at : Z
}.

Record sale_item_row := {
  si_id : Z;
  si_sale_id : option Z;
  si_product_id : option Z;
  si_quantity : Z;
  si_unit_price : Z;
  si_total_price : Z
}.

(** A table that was never created is [None]. *)
Record tables := {
  users : option (list user_row);
  products : option (list product_row);
  sales : option (list sale_row);
  sale_items : option (list sale_item_row)
}.

(** The last value handed out by each SERIAL sequence.  Sequences are not
    transactional: a rolled back INSERT keeps the value it drew. *)
Record sequences := {
  users_id_seq : Z;
  products_id_seq : Z;
  sales_id_seq : Z;
  sale_items_id_seq : Z
}.

Record database := {
  db_tables : tables;
  db_seqs : sequences
}.

Definition set_users (us : option (list user_row)) (t : tables) : tables :=
  {| users := us; products := products t; sales := sales t;
     sale_items := sale_items t |}.

Definition set_products (ps : option (list product_row)) (t : tables) : tables :=
  {| users := users t; products := ps; sales := sales t;
     sale_items := sale_items t |}.

Definition set_sales (ss : option (list sale_row)) (t : tables) : tables :=
  {| users := users t; products := products t; sales := ss;
     sale_items := sale_items t |}.

Definition set_sale_items (its : option (list sale_item_row)) (t : tables) : tables :=
  {| users := users t; products := products t; sales := sales t;
     sale_items := its |}.

Definition set_users_id_seq (v : Z) (s : sequences) : sequences :=
  {| users_id_seq := v; products_id_seq := products_id_seq s;
     sales_id_seq := sales_id_seq s; sale_items_id_seq := sale_items_id_seq s |}.

Definition set_products_id_seq (v : Z) (s : sequences) : sequences :=
  {| users_id_seq := users_id_seq s; products_id_seq := v;
     sales_id_seq := sales_id_seq s; sale_items_id_seq := sale_items_id_seq s |}.

Definition set_sales_id_seq (v : Z) (s : sequences) : sequences :=
  {| users_id_seq := users_id_seq s; products_id_seq := products_id_seq s;
     sales_id_seq := v; sale_items_id_seq := sale_items_id_seq s |}.

Definition set_sale_items_id_seq (v : Z) (s : sequences) : sequences :=
  {| users_id_seq := users_id_seq s; products_id_seq := products_id_seq s;
     sales_id_seq := sales_id_seq s; sale_items_id_seq := v |}.

(** ** Errors *)

Inductive error :=
| UndefinedTable (relation : string)
| DuplicateTable (relation : string)
| NotNullViolation (column : string)
| UniqueViolation (constraint : string)
| ForeignKeyViolation (constraint : string)
| StringTooLong (type : string)
| NumericOverflow
| IntegerOutOfRange
| InvalidInteger
| ConnectionError
| TypeError (msg : string).

(** [error.message] *)
Definition message (e : error) : string :=
  match e with
  | UndefinedTable r => String.append "relation does not exist: " r
  | DuplicateTable r => String.append "relation already exists: " r
  | NotNullViolation c => String.append "null value violates not-null constraint: " c
  | UniqueViolation c => String.append "duplicate key value violates unique constraint: " c
  | ForeignKeyViolation c => String.append "violates foreign key constraint: " c
  | StringTooLong ty => String.append "value too long for type " ty
  | NumericOverflow => "numeric field overflow"
  | IntegerOutOfRange => "integer out of range"
  | InvalidInteger => "invalid input syntax for type integer"
  | ConnectionError => "Connection terminated unexpectedly"
  | TypeError m => m
  end.

(** What an awaited promise settles to. *)
Inductive settled (A : Type) :=
| Resolved (a : A)
| Rejected (e : error).
Arguments Resolved {A} a.
Arguments Rejected {A} e.

(** ** SQL statements

    A statement reads and writes the tables it is run against and draws
    from the sequences.  A statement that is rejected leaves the tables as
    they were. *)

Definition statement (A : Type) : Type :=
  Z -> tables -> sequences -> settled A * tables * sequences.

Definition email_is (email : option string) (u : user_row) : bool :=
  match email with
  | Some e => String.eqb (u_email u) e
  | None => false
  end.

(** [REFERENCES]: a NULL key is not checked. *)
Definition references (key : option Z) (ids : option (list Z)) : bool :=
  match key with
  | None => true
  | Some k =>
      match ids with
      | Some l => existsb (Z.eqb k) l
      | None => false
      end
  end.

Definition table_name_if {A : Type} (tbl : option A) (name : string) : list string :=
  match tbl with
  | Some _ => [name]
  | None => []
  end.

(** CURRENT_TIMESTAMP is the clock reading in seconds, CURRENT_DATE its day. *)
Definition CURRENT_DATE (now : Z) : Z := now / 86400.

(** *** Column types

    INTEGER has 32 bits, DECIMAL(10,2) ten digits (amounts are counted in
    cents), and VARCHAR(n) takes n characters: a longer value is an error,
    unless what exceeds n is all spaces, which the store cuts off.  The store
    finds these errors while it binds and plans the statement, before it
    draws from a sequence or touches a row; NULL passes them. *)
Definition int4 (n : Z) : bool :=
  Z.leb (-2147483648) n && Z.leb n 2147483647.

Definition numeric_10_2 (cents : Z) : bool :=
  Z.leb (-9999999999) cents && Z.leb cents 9999999999.

Fixpoint all_spaces (s : string) : bool :=
  match s with
  | EmptyString => true
  | String c rest => Ascii.eqb c " "%char && all_spaces rest
  end.

Definition varchar (n : nat) (s : string) : option string :=
  if Nat.leb (String.length s) n then Some s
  else if all_spaces (substring n (Nat.sub (String.length s) n) s)
       then Some (substring 0 n s)
       else None.

(** A nullable value against its column type. *)
Definition stored {A : Type} (fit : A -> option A) (x : option A) : option (option A) :=
  match x with
  | None => Some None
  | Some a => option_map Some (fit a)
  end.

Definition in_range {A : Type} (fits : A -> bool) (x : option A) : bool :=
  match x with
  | None => true
  | Some a => fits a
  end.

(** A request value handed to an INTEGER parameter: a number or text the
    store reads as the integer [n], or anything else ('abc', 1.5, true). *)
Inductive int_text :=
| IntegerText (n : Z)
| OtherText.

Definition integer_parameter (x : int_text) : settled Z :=
  match x with
  | IntegerText n => if int4 n then Resolved n else Rejected IntegerOutOfRange
  | OtherText => Rejected InvalidInteger
  end.

(** undefined and null are sent as NULL. *)
Definition nullable_integer_parameter (x : option int_text) : settled (option Z) :=
  match x with
  | None => Resolved None
  | Some x =>
      match integer_parameter x with
      | Resolved n => Resolved (Some n)
      | Rejected e => Rejected e
      end
  end.

(** SELECT column_name FROM information_schema.columns
    WHERE table_name = 'users' *)
Definition select_users_columns : statement (list string) :=
  fun _ t s =>
    match users t with
    | None => (Resolved [], t, s)
    | Some _ =>
        (Resolved ["id"; "full_name"; "email"; "password"; "role"; "status";
                   "bio"; "created_at"; "last_login"], t, s)
    end.

(** SELECT table_name FROM information_schema.tables
    WHERE table_schema = 'public' *)
Definition select_table_names : statement (list string) :=
  fun _ t s =>
    (Resolved (table_name_if (users t) "users" ++
               table_name_if (products t) "products" ++
               table_name_if (sales t) "sales" ++
               table_name_if (sale_items t) "sale_items"), t, s).

(** CREATE TABLE users (id SERIAL PRIMARY KEY, ...) *)
Definition create_table_users : statement unit :=
  fun _ t s =>
    match users t with
    | Some _ => (Rejected (DuplicateTable "users"), t, s)
    | None => (Resolved tt, set_users (Some []) t, set_users_id_seq 0 s)
    end.

(** CREATE TABLE products (id SERIAL PRIMARY KEY, ...) *)
Definition create_table_products : statement unit :=
  fun _ t s =>
    match products t with
    | Some _ => (Rejected (DuplicateTable "products"), t, s)
    | None => (Resolved tt, set_products (Some []) t, set_products_id_seq 0 s)
    end.

(** CREATE TABLE sales (..., user_id INTEGER REFERENCES users(id), ...) *)
Definition create_table_sales : statement unit :=
  fun _ t s =>
    match sales t with
    | Some _ => (Rejected (DuplicateTable "sales"), t, s)
    | None =>
        match users t with
        | None => (Rejected (UndefinedTable "users"), t, s)
        | Some _ => (Resolved tt, set_sales (Some []) t, set_sales_id_seq 0 s)
        end
    end.

(** CREATE TABLE sale_items (...,
      sale_id INTEGER REFERENCES sales(id) ON DELETE CASCADE,
      product_id INTEGER REFERENCES products(id), ...) *)
Definition create_table_sale_items : statement unit :=
  fun _ t s =>
    match sale_items t with
    | Some _ => (Rejected (DuplicateTable "sale_items"), t, s)
    | None =>
        match sales t, products t with
        | None, _ => (Rejected (UndefinedTable "sales"), t, s)
        | _, None => (Rejected (UndefinedTable "products"), t, s)
        | Some _, Some _ =>
            (Resolved tt, set_sale_items (Some []) t, set_sale_items_id_seq 0 s)
        end
    end.

(** ALTER TABLE users ADD COLUMN IF NOT EXISTS status VARCHAR(20)
    DEFAULT 'pending': every users table of the model has the column. *)
Definition alter_users_add_status : statement unit :=
  fun _ t s =>
    match users t with
    | None => (Rejected (UndefinedTable "users"), t, s)
    | Some _ => (Resolved tt, t, s)
    end.

Definition with_status (st : option string) (u : user_row) : user_row :=
  {| u_id := u_id u; u_full_name := u_full_name u; u_email := u_email u;
     u_password := u_password u; u_role := u_role u; u_status := st;
     u_bio := u_bio u; u_created_at := u_created_at u;
     u_last_login := u_last_login u |}.

Definition with_last_login (ts : option Z) (u : user_row) : user_row :=
  {| u_id := u_id u; u_full_name := u_full_name u; u_email := u_email u;
     u_password := u_password u; u_role := u_role u; u_status := u_status u;
     u_bio := u_bio u; u_created_at := u_created_at u;
     u_last_login := ts |}.

Definition with_stock (n : Z) (p : product_row) : product_row :=
  {| p_id := p_id p; p_name := p_name p; p_category := p_category p;
     p_purchase_price := p_purchase_price p;
     p_selling_price := p_selling_price p; p_stock := n;
     p_created_at := p_created_at p; p_updated_at := p_updated_at p |}.

(** UPDATE users SET status = 'active' WHERE status IS NULL *)
Definition update_users_null_status_active : statement unit :=
  fun _ t s =>
    match users t with
    | None => (Rejected (UndefinedTable "users"), t, s)
    | Some us =>
        (Resolved tt,
         set_users (Some (map (fun u => match u_status u with
                                        | None => with_status (Some "active") u
                                        | Some _ => u
                                        end) us)) t, s)
    end.

(** SELECT * FROM users WHERE email = $1 *)
Definition select_users_by_email (email : option string) : statement (list user_row) :=
  fun _ t s =>
    match users t with
    | None => (Rejected (UndefinedTable "users"), t, s)
    | Some us => (Resolved (List.filter (email_is email) us), t, s)
    end.

(** SELECT COUNT( * ) FROM users *)
Definition select_count_users : statement Z :=
  fun _ t s =>
    match users t with
    | None => (Rejected (UndefinedTable "users"), t, s)
    | Some us => (Resolved (Z.of_nat (length us)), t, s)
    end.

(** INSERT INTO users (full_name, email, password, role, status)
    VALUES ($1, $2, $3, $4, $5) RETURNING ...
    The row is returned whole; the callers read the columns their
    RETURNING clause lists.  full_name and email are VARCHAR(100); role and
    status are always one of the handlers' short constants. *)
Definition insert_user (full_name email password role status : option string)
  : statement user_row :=
  fun now t s =>
    match users t with
    | None => (Rejected (UndefinedTable "users"), t, s)
    | Some us =>
        match stored (varchar 100) full_name, stored (varchar 100) email with
        | None, _ | _, None =>
            (Rejected (StringTooLong "character varying(100)"), t, s)
        | Some full_name, Some email =>
            let id := users_id_seq s + 1 in
            let s' := set_users_id_seq id s in
            match full_name, email, password with
            | None, _, _ => (Rejected (NotNullViolation "full_name"), t, s')
            | _, None, _ => (Rejected (NotNullViolation "email"), t, s')
            | _, _, None => (Rejected (NotNullViolation "password"), t, s')
            | Some fn, Some em, Some pw =>
                if existsb (email_is (Some em)) us
                then (Rejected (UniqueViolation "users_email_key"), t, s')
                else
                  let row := {| u_id := id; u_full_name := fn; u_email := em;
                                u_password := pw; u_role := role;
                                u_status := status; u_bio := None;
                                u_created_at := now; u_last_login := None |} in
                  (Resolved row, set_users (Some (us ++ [row])) t, s')
            end
        end
    end.

(** UPDATE users SET last_login = CURRENT_TIMESTAMP WHERE id = $1 *)
Definition update_last_login (id : Z) : statement unit :=
  fun now t s =>
    match users t with
    | None => (Rejected (UndefinedTable "users"), t, s)
    | Some us =>
        (Resolved tt,
         set_users (Some (map (fun u => if Z.eqb (u_id u) id
                                        then with_last_login (Some now) u
                                        else u) us)) t, s)
    end.

(** UPDATE users SET status = $1 WHERE id = $2
    RETURNING id, full_name, email, role, status
    The result lists the updated rows.  Here [id] is an INTEGER the store
    has read from its parameter; [update_user_status_by_text] below starts
    from the text. *)
Definition update_user_status (status : string) (id : Z) : statement (list user_row) :=
  fun _ t s =>
    match users t with
    | None => (Rejected (UndefinedTable "users"), t, s)
    | Some us =>
        (Resolved (map (with_status (Some status))
                       (List.filter (fun u => Z.eqb (u_id u) id) us)),
         set_users (Some (map (fun u => if Z.eqb (u_id u) id
                                        then with_status (Some status) u
                                        else u) us)) t, s)
    end.

(** The same statement from the text the handler passes as $2: the store
    reads it as an INTEGER first. *)
Definition update_user_status_by_text (status : string) (id : int_text)
  : statement (list user_row) :=
  fun now t s =>
    match users t with
    | None => (Rejected (UndefinedTable "users"), t, s)
    | Some _ =>
        match integer_parameter id with
        | Rejected e => (Rejected e, t, s)
        | Resolved n => update_user_status status n now t s
        end
    end.

(** INSERT INTO products (name, category, purchase_price, selling_price, stock)
    VALUES ($1, $2, $3, $4, $5) RETURNING * *)
Definition insert_product (name category : option string)
    (purchase_price selling_price : option Z) (stock : Z) : statement product_row :=
  fun now t s =>
    match products t with
    | None => (Rejected (UndefinedTable "products"), t, s)
    | Some ps =>
        if negb (int4 stock) then (Rejected IntegerOutOfRange, t, s)
        else
          match stored (varchar 100) name, stored (varchar 50) category with
          | None, _ => (Rejected (StringTooLong "character varying(100)"), t, s)
          | _, None => (Rejected (StringTooLong "character varying(50)"), t, s)
          | Some name, Some category =>
              if negb (in_range numeric_10_2 purchase_price
                       && in_range numeric_10_2 selling_price)
              then (Rejected NumericOverflow, t, s)
              else
                let id := products_id_seq s + 1 in
                let s' := set_products_id_seq id s in
                match name, category, purchase_price, selling_price with
                | None, _, _, _ => (Rejected (NotNullViolation "name"), t, s')
                | _, None, _, _ => (Rejected (NotNullViolation "category"), t, s')
                | _, _, None, _ =>
                    (Rejected (NotNullViolation "purchase_price"), t, s')
                | _, _, _, None =>
                    (Rejected (NotNullViolation "selling_price"), t, s')
                | Some n, Some c, Some pp, Some sp =>
                    let row := {| p_id := id; p_name := n; p_category := c;
                                  p_purchase_price := pp; p_selling_price := sp;
                                  p_stock := stock; p_created_at := now;
                                  p_updated_at := now |} in
                    (Resolved row, set_products (Some (ps ++ [row])) t, s')
                end
          end
    end.

(** INSERT INTO sales (date, customer, total, user_id)
    VALUES (CURRENT_DATE, $1, $2, $3) RETURNING * *)
Definition insert_sale (customer : option string) (total : Z) (user_id : option Z)
  : statement sale_row :=
  fun now t s =>
    match sales t with
    | None => (Rejected (UndefinedTable "sales"), t, s)
    | Some ss =>
        match stored (varchar 100) customer with
        | None => (Rejected (StringTooLong "character varying(100)"), t, s)
        | Some customer =>
            if negb (numeric_10_2 total) then (Rejected NumericOverflow, t, s)
            else
              let id := sales_id_seq s + 1 in
              let s' := set_sales_id_seq id s in
              match customer with
              | None => (Rejected (NotNullViolation "customer"), t, s')
              | Some c =>
                  if references user_id (option_map (map u_id) (users t))
                  then
                    let row := {| s_id := id; s_date := CURRENT_DATE now;
                                  s_customer := c; s_total := total;
                                  s_user_id := user_id; s_created_at := now |} in
                    (Resolved row, set_sales (Some (ss ++ [row])) t, s')
                  else (Rejected (ForeignKeyViolation "sales_user_id_fkey"), t, s')
              end
        end
    end.

(** INSERT INTO sale_items (sale_id, product_id, quantity, unit_price, total_price)
    VALUES ($1, $2, $3, $4, $5) *)
Definition insert_sale_item (sale_id product_id : option Z)
    (quantity unit_price total_price : Z) : statement unit :=
  fun _ t s =>
    match sale_items t with
    | None => (Rejected (UndefinedTable "sale_items"), t, s)
    | Some its =>
        if negb (in_range int4 product_id && int4 quantity)
        then (Rejected IntegerOutOfRange, t, s)
        else if negb (numeric_10_2 unit_price && numeric_10_2 total_price)
        then (Rejected NumericOverflow, t, s)
        else
        let id := sale_items_id_seq s + 1 in
        let s' := set_sale_items_id_seq id s in
        if negb (references sale_id (option_map (map s_id) (sales t)))
        then (Rejected (ForeignKeyViolation "sale_items_sale_id_fkey"), t, s')
        else if negb (references product_id (option_map (map p_id) (products t)))
        then (Rejected (ForeignKeyViolation "sale_items_product_id_fkey"), t, s')
        else
          let row := {| si_id := id; si_sale_id := sale_id;
                        si_product_id := product_id; si_quantity := quantity;
                        si_unit_price := unit_price;
                        si_total_price := total_price |} in
          (Resolved tt, set_sale_items (Some (its ++ [row])) t, s')
    end.

(** The new stock of a row the UPDATE below reaches is an INTEGER. *)
Definition stock_minus_fits (quantity : Z) (product_id : option Z) (p : product_row)
  : bool :=
  match product_id with
  | Some i => if Z.eqb (p_id p) i then int4 (p_stock p - quantity) else true
  | None => true
  end.

(** UPDATE products SET stock = stock - $1 WHERE id = $2 *)
Definition update_product_stock_minus (quantity : Z) (product_id : option Z)
  : statement unit :=
  fun _ t s =>
    match products t with
    | None => (Rejected (UndefinedTable "products"), t, s)
    | Some ps =>
        if negb (int4 quantity && in_range int4 product_id
                 && forallb (stock_minus_fits quantity product_id) ps)
        then (Rejected IntegerOutOfRange, t, s)
        else
        (Resolved tt,
         set_products
           (Some (map (fun p => match product_id with
                                | Some i => if Z.eqb (p_id p) i
                                            then with_stock (p_stock p - quantity) p
                                            else p
                                | None => p
                                end) ps)) t, s)
    end.

(** ** Requests, responses and real-time events *)

(** The payload of a bearer token, which authenticateToken puts in
    [req.user]. *)
Record jwt_payload := {
  jp_id : Z;
  jp_email : string;
  jp_role : option string;
  jp_name : string
}.

(** A signed token: what was signed, with which secret and options. *)
Record token := {
  tk_payload : jwt_payload;
  tk_secret : string;
  tk_expiresIn : string;
  tk_iat : Z
}.

Record register_body := {
  rb_full_name : option string;
  rb_email : option string;
  rb_password : option string
}.

Record login_body := {
  lb_email : option string;
  lb_password : option string
}.

Record product_body := {
  pb_name : option string;
  pb_category : option string;
  pb_purchase_price : option Z;
  pb_selling_price : option Z;
  pb_stock : option Z
}.

Record sale_item_body := {
  item_product_id : option Z;
  item_quantity : Z;
  item_unit_price : Z
}.

(** [sb_total] is a total the caller may have put in the body. *)
Record sale_body := {
  sb_customer : option string;
  sb_items : option (list sale_item_body);
  sb_total : option Z
}.

(** The user columns a response shows; [uv_created_at] is present only
    where the RETURNING clause lists it. *)
Record user_view := {
  uv_id : Z;
  uv_full_name : string;
  uv_email : string;
  uv_role : option string;
  uv_status : option string;
  uv_created_at : option Z
}.

Inductive body :=
| BError (success : option bool) (error : string)
| BRegistered (message : string) (user : user_view) (requiresApproval : bool)
| BLoggedIn (message : string) (tok : token) (user : user_view)
| BApproved (message : string) (user : user_view)
| BProduct (product : product_row)
| BSale (sale : sale_row).

Record response := {
  res_status : Z;
  res_body : body
}.

(** What a socket client announces about itself in 'authenticate': an
    object with an id and a full_name. *)
Record user_data := {
  ud_id : Z;
  ud_full_name : string
}.

(** What may arrive with 'authenticate': nothing, null, another falsy value
    (false, 0, the empty string), or a user's data.  A truthy value is taken
    to be what the client sends after a login: an object with the user's id
    and full_name. *)
Inductive authenticate_payload :=
| Undefined
| Null
| Falsy
| UserData (userData : user_data).

Coercion UserData : user_data >-> authenticate_payload.

(** userId and userName are undefined when the announced value has no
    such property. *)
Inductive payload :=
| Presence (userId : option Z) (userName : option string) (timestamp : Z)
| Relayed (data : string) (sender : option string) (timestamp : Z)
| ProductChange (type : string) (product : product_row) (user : string)
| SaleCreated (sale : sale_row) (items : list sale_item_body) (user : string).

Record event := {
  ev_name : string;
  ev_payload : payload
}.

(** ** The world a handler runs in

    [w_db] is what the store has committed.  [w_txn] is the working copy of
    the transaction open on the checked-out client, if any.  [w_faults]
    scripts the store's reachability for the calls made on a checked-out
    client (pool.connect, client.query): each call consumes one entry, and
    [true] cuts that call with a connection error before it has any effect;
    an exhausted script means the store is reachable.  A call whose reply is
    lost after the store has run it differs from a refused call only for
    COMMIT, whose effect is then final: [w_commit_reply_lost] says that the
    connection fails between the store's next COMMIT and its reply.  The
    single-statement [pool.query] calls are taken on a reachable store.
    [w_sockets] lists the connected socket ids and [w_delivered] every
    (socket id, event) delivery, oldest first.  [w_activeUsers] holds the
    entries of activeUsers whose value is truthy: the server reads the map
    with get(id)?.full_name and if (userData) only, and neither tells an
    entry with a falsy value from a missing one. *)
Record world := {
  w_now : Z;
  w_db : database;
  w_txn : option tables;
  w_faults : list bool;
  w_commit_reply_lost : bool;
  w_sockets : list string;
  w_activeUsers : gmap string user_data;
  w_delivered : list (string * event)
}.

Definition set_db (d : database) (w : world) : world :=
  {| w_now := w_now w; w_db := d; w_txn := w_txn w; w_faults := w_faults w;
     w_commit_reply_lost := w_commit_reply_lost w;
     w_sockets := w_sockets w; w_activeUsers := w_activeUsers w;
     w_delivered := w_delivered w |}.

Definition set_txn (x : option tables) (w : world) : world :=
  {| w_now := w_now w; w_db := w_db w; w_txn := x; w_faults := w_faults w;
     w_commit_reply_lost := w_commit_reply_lost w;
     w_sockets := w_sockets w; w_activeUsers := w_activeUsers w;
     w_delivered := w_delivered w |}.

Definition set_faults (f : list bool) (w : world) : world :=
  {| w_now := w_now w; w_db := w_db w; w_txn := w_txn w; w_faults := f;
     w_commit_reply_lost := w_commit_reply_lost w;
     w_sockets := w_sockets w; w_activeUsers := w_activeUsers w;
     w_delivered := w_delivered w |}.

Definition set_commit_reply_lost (b : bool) (w : world) : world :=
  {| w_now := w_now w; w_db := w_db w; w_txn := w_txn w; w_faults := w_faults w;
     w_commit_reply_lost := b;
     w_sockets := w_sockets w; w_activeUsers := w_activeUsers w;
     w_delivered := w_delivered w |}.

Definition set_sockets (l : list string) (w : world) : world :=
  {| w_now := w_now w; w_db := w_db w; w_txn := w_txn w;
     w_faults := w_faults w;
     w_commit_reply_lost := w_commit_reply_lost w; w_sockets := l;
     w_activeUsers := w_activeUsers w; w_delivered := w_delivered w |}.

Definition set_activeUsers (m : gmap string user_data) (w : world) : world :=
  {| w_now := w_now w; w_db := w_db w; w_txn := w_txn w;
     w_faults := w_faults w;
     w_commit_reply_lost := w_commit_reply_lost w; w_sockets := w_sockets w; w_activeUsers := m;
     w_delivered := w_delivered w |}.

Definition set_delivered (l : list (string * event)) (w : world) : world :=
  {| w_now := w_now w; w_db := w_db w; w_txn := w_txn w;
     w_faults := w_faults w;
     w_commit_reply_lost := w_commit_reply_lost w; w_sockets := w_sockets w;
     w_activeUsers := w_activeUsers w; w_delivered := l |}.

(** ** Asynchronous code: state and exceptions

    An async function is a function of the world that settles to a value
    or an error; what it did before throwing stays done. *)

Definition M (A : Type) : Type := world -> settled A * world.

#[export] Instance M_ret : MRet M := fun A a w => (Resolved a, w).

#[export] Instance M_bind : MBind M := fun A B f m w =>
  match m w with
  | (Resolved a, w') => f a w'
  | (Rejected e, w') => (Rejected e, w')
  end.

Definition throw {A : Type} (e : error) : M A := fun w => (Rejected e, w).

(** try { m } catch (error) { h error } *)
Definition try_catch {A : Type} (m : M A) (h : error -> M A) : M A := fun w =>
  match m w with
  | (Resolved a, w') => (Resolved a, w')
  | (Rejected e, w') => h e w'
  end.

(** m finally { f }, where f does not throw or return *)
Definition finally {A : Type} (m : M A) (f : M unit) : M A := fun w =>
  match m w with
  | (r, w') =>
      match f w' with
      | (Resolved _, w'') => (r, w'')
      | (Rejected e, w'') => (Rejected e, w'')
      end
  end.

(** for (const x of l) { body x } *)
Fixpoint for_of {A : Type} (l : list A) (body : A -> M unit) : M unit :=
  match l with
  | [] => mret tt
  | x :: rest => body x ;; for_of rest body
  end.

(** *** The pool and the checked-out client *)

Definition run_on_committed {A : Type} (q : statement A) : M A := fun w =>
  match q (w_now w) (db_tables (w_db w)) (db_seqs (w_db w)) with
  | (r, t, s) => (r, set_db {| db_tables := t; db_seqs := s |} w)
  end.

(** pool.query(text, values): one statement, committed on its own. *)
Definition pool_query {A : Type} (q : statement A) : M A := run_on_committed q.

Definition next_fault (w : world) : bool * world :=
  match w_faults w with
  | [] => (false, w)
  | down :: rest => (down, set_faults rest w)
  end.

(** A call on a checked-out client; a connection error cuts it short. *)
Definition client_call {A : Type} (m : M A) : M A := fun w =>
  match next_fault w with
  | (true, w') => (Rejected ConnectionError, w')
  | (false, w') => m w'
  end.

(** pool.connect() *)
Definition pool_connect : M unit := client_call (mret tt).

(** client.release() *)
Definition client_release : M unit := mret tt.

(** client.query(text, values): inside a transaction the statement works
    on the transaction's copy of the tables. *)
Definition client_query {A : Type} (q : statement A) : M A :=
  client_call (fun w =>
    match w_txn w with
    | None => run_on_committed q w
    | Some t =>
        match q (w_now w) t (db_seqs (w_db w)) with
        | (r, t', s) =>
            (r, set_txn (Some t')
                  (set_db {| db_tables := db_tables (w_db w); db_seqs := s |} w))
        end
    end).

(** client.query('BEGIN') *)
Definition client_query_BEGIN : M unit :=
  client_call (fun w =>
    match w_txn w with
    | None => (Resolved tt, set_txn (Some (db_tables (w_db w))) w)
    | Some _ => (Resolved tt, w)
    end).

(** client.query('COMMIT'): when the connection fails after the store has
    committed, the call throws although the transaction is final. *)
Definition client_query_COMMIT : M unit :=
  client_call (fun w =>
    let committed :=
      match w_txn w with
      | None => w
      | Some t =>
          set_txn None (set_db {| db_tables := t; db_seqs := db_seqs (w_db w) |} w)
      end in
    if w_commit_reply_lost w
    then (Rejected ConnectionError, set_commit_reply_lost false committed)
    else (Resolved tt, committed)).

(** client.query('ROLLBACK') *)
Definition client_query_ROLLBACK : M unit :=
  client_call (fun w => (Resolved tt, set_txn None w)).

(** *** socket.io *)

Definition deliver (to : list string) (e : event) : M unit := fun w =>
  (Resolved tt, set_delivered (w_delivered w ++ map (fun sid => (sid, e)) to) w).

(** io.emit(name, payload): to every connected socket. *)
Definition io_emit (name : string) (p : payload) : M unit := fun w =>
  deliver (w_sockets w) {| ev_name := name; ev_payload := p |} w.

(** socket.broadcast.emit(name, payload): to every connected socket but
    this one. *)
Definition socket_broadcast_emit (socket_id : string) (name : string) (p : payload)
  : M unit := fun w =>
  deliver (List.filter (fun sid => negb (String.eqb sid socket_id)) (w_sockets w))
          {| ev_name := name; ev_payload := p |} w.

(** new Date().toISOString() *)
Definition timestamp_now : M Z := fun w => (Resolved (w_now w), w).

(** res.json(b) and res.status(code).json(b) *)
Definition res_json (b : body) : M response :=
  mret {| res_status := 200; res_body := b |}.

Definition res_status_json (code : Z) (b : body) : M response :=
  mret {| res_status := code; res_body := b |}.

(** JavaScript's [!x] on a string or a number that may be undefined. *)
Definition falsy_string (x : option string) : bool :=
  match x with
  | None => true
  | Some s => String.eqb s ""
  end.

Definition falsy_number (x : option Z) : bool :=
  match x with
  | None => true
  | Some n => Z.eqb n 0
  end.

(** [x || 0] on a number that may be undefined *)
Definition or_zero (x : option Z) : Z :=
  match x with
  | None => 0
  | Some n => n
  end.

(** ** The server *)

Section Server.

(** bcryptjs and the signing secret are the deployment's. *)
Variable bcrypt_hash : string -> Z -> string.
Variable bcrypt_compare : string -> string -> bool.
Variable JWT_SECRET : string.

(** bcrypt.hash(data, rounds) and bcrypt.compare(data, hash) throw on
    undefined data. *)
Definition bcrypt_hash_js (data : option string) (rounds : Z) : M string :=
  match data with
  | Some d => mret (bcrypt_hash d rounds)
  | None => throw (TypeError "Illegal arguments: undefined, number")
  end.

Definition bcrypt_compare_js (data : option string) (hash : string) : M bool :=
  match data with
  | Some d => mret (bcrypt_compare d hash)
  | None => throw (TypeError "Illegal arguments: undefined, string")
  end.

(** jwt.sign(payload, secret, { expiresIn }) *)
Definition jwt_sign (p : jwt_payload) (secret : string) (expiresIn : string) : M token :=
  fun w => (Resolved {| tk_payload := p; tk_secret := secret;
                        tk_expiresIn := expiresIn; tk_iat := w_now w |}, w).

Definition returned_user (u : user_row) (with_created_at : bool) : user_view :=
  {| uv_id := u_id u; uv_full_name := u_full_name u; uv_email := u_email u;
     uv_role := u_role u; uv_status := u_status u;
     uv_created_at := if with_created_at then Some (u_created_at u) else None |}.

(** *** initializeDatabase *)

Definition initializeDatabase : M unit :=
  try_catch
    (tableCheck ← pool_query select_users_columns;
     if Nat.eqb (length tableCheck) 0 then
       pool_query create_table_users;;
       pool_query create_table_products;;
       pool_query create_table_sales;;
       pool_query create_table_sale_items;;
       hashedPassword ← bcrypt_hash_js (Some "admin123") 10;
       pool_query (insert_user (Some "Super Admin") (Some "admin@disc.com")
                     (Some hashedPassword) (Some "superadmin") (Some "active"));;
       mret tt
     else
       try_catch
         (pool_query alter_users_add_status;;
          pool_query update_users_null_status_active)
         (fun alterError => mret tt);;
       pool_query select_table_names;;
       mret tt)
    (fun error => mret tt).

(** *** POST /api/register *)

Definition register (req_body : register_body) : M response :=
  try_catch
    (let full_name := rb_full_name req_body in
     let email := rb_email req_body in
     let password := rb_password req_body in
     if falsy_string full_name || falsy_string email || falsy_string password then
       res_status_json 400 (BError None "All fields are required")
     else
       userExists ← pool_query (select_users_by_email email);
       if Nat.ltb 0 (length userExists) then
         res_status_json 400 (BError None "User already exists")
       else
         hashedPassword ← bcrypt_hash_js password 10;
         userCount ← pool_query select_count_users;
         let isFirstUser := Z.eqb userCount 0 in
         let role := if isFirstUser then "superadmin" else "cashier" in
         let status := if isFirstUser then "active" else "pending" in
         newUser ← pool_query (insert_user full_name email (Some hashedPassword)
                                 (Some role) (Some status));
         res_json (BRegistered
                     (if isFirstUser then "Super Admin created successfully!"
                      else "Registration successful! Please wait for admin approval.")
                     (returned_user newUser true)
                     (negb isFirstUser)))
    (fun error =>
       res_status_json 500
         (BError (Some false) (String.append "Registration failed: " (message error)))).

(** *** POST /api/login *)

Definition login (req_body : login_body) : M response :=
  try_catch
    (let email := lb_email req_body in
     let password := lb_password req_body in
     userResult ← pool_query (select_users_by_email email);
     match userResult with
     | [] =>
         res_status_json 400 (BError (Some false) "Invalid email or password")
     | user :: _ =>
         validPassword ← bcrypt_compare_js password (u_password user);
         if negb validPassword then
           res_status_json 400 (BError (Some false) "Invalid email or password")
         else if negb (bool_decide (u_status user = Some "active")) then
           res_status_json 400
             (BError (Some false)
                "Account is pending approval. Please contact administrator.")
         else
           pool_query (update_last_login (u_id user));;
           tok ← jwt_sign {| jp_id := u_id user; jp_email := u_email user;
                             jp_role := u_role user; jp_name := u_full_name user |}
                          JWT_SECRET "24h";
           res_json (BLoggedIn "Login successful" tok (returned_user user false))
     end)
    (fun error =>
       res_status_json 500
         (BError (Some false) (String.append "Login failed: " (message error)))).

(** *** PUT /api/users/:id/approve *)

(** ['superadmin', 'admin'].includes(role) *)
Definition is_admin_role (role : option string) : bool :=
  bool_decide (role = Some "superadmin") || bool_decide (role = Some "admin").

Definition approve (req_user : jwt_payload) (id : Z) : M response :=
  try_catch
    (if negb (is_admin_role (jp_role req_user)) then
       res_status_json 403 (BError None "Access denied. Admin only.")
     else
       result ← pool_query (update_user_status "active" id);
       match result with
       | [] => res_status_json 404 (BError (Some false) "User not found")
       | row :: _ =>
           res_json (BApproved "User approved successfully" (returned_user row false))
       end)
    (fun error => res_status_json 500 (BError (Some false) (message error))).

(** The route as it is called: [req.params.id] is the text of the path, which
    the handler passes to the store as it is.  [approve] above is this
    handler on an id the store reads as an INTEGER. *)
Definition approve_request (req_user : jwt_payload) (id : int_text) : M response :=
  try_catch
    (if negb (is_admin_role (jp_role req_user)) then
       res_status_json 403 (BError None "Access denied. Admin only.")
     else
       result ← pool_query (update_user_status_by_text "active" id);
       match result with
       | [] => res_status_json 404 (BError (Some false) "User not found")
       | row :: _ =>
           res_json (BApproved "User approved successfully" (returned_user row false))
       end)
    (fun error => res_status_json 500 (BError (Some false) (message error))).

(** *** POST /api/products *)

Definition createProduct (req_user : jwt_payload) (req_body : product_body) : M response :=
  try_catch
    (let name := pb_name req_body in
     let category := pb_category req_body in
     let purchase_price := pb_purchase_price req_body in
     let selling_price := pb_selling_price req_body in
     let stock := pb_stock req_body in
     if falsy_string name || falsy_string category ||
        falsy_number purchase_price || falsy_number selling_price then
       res_status_json 400
         (BError (Some false)
            "Name, category, purchase price, and selling price are required")
     else
       result ← pool_query (insert_product name category purchase_price
                              selling_price (or_zero stock));
       io_emit "product_updated" (ProductChange "created" result (jp_name req_user));;
       res_json (BProduct result))
    (fun error => res_status_json 500 (BError (Some false) (message error))).

(** *** POST /api/sales *)

(** items.reduce((sum, item) => sum + (item.quantity * item.unit_price), 0) *)
Definition items_total (items : list sale_item_body) : Z :=
  fold_left (fun sum item => sum + item_quantity item * item_unit_price item) items 0.

(** Reading a property of undefined throws. *)
Definition defined_items (items : option (list sale_item_body)) : M (list sale_item_body) :=
  match items with
  | Some l => mret l
  | None => throw (TypeError "Cannot read properties of undefined (reading 'reduce')")
  end.

Definition createSale (req_user : jwt_payload) (req_body : sale_body) : M response :=
  pool_connect;;
  finally
    (try_catch
       (client_query_BEGIN;;
        let customer := sb_customer req_body in
        items ← defined_items (sb_items req_body);
        let total := items_total items in
        sale ← client_query (insert_sale customer total (Some (jp_id req_user)));
        for_of items (fun item =>
          client_query (insert_sale_item (Some (s_id sale)) (item_product_id item)
                          (item_quantity item) (item_unit_price item)
                          (item_quantity item * item_unit_price item));;
          client_query (update_product_stock_minus (item_quantity item)
                          (item_product_id item)));;
        client_query_COMMIT;;
        io_emit "sale_created" (SaleCreated sale items (jp_name req_user));;
        res_json (BSale sale))
       (fun error =>
          client_query_ROLLBACK;;
          res_status_json 500 (BError (Some false) (message error))))
    client_release.

(** *** Socket listeners *)

(** A client connects: socket.io adds the socket to the connected ones. *)
Definition on_connection (socket_id : string) : M unit := fun w =>
  (Resolved tt, set_sockets (w_sockets w ++ [socket_id]) w).

(** socket.on('authenticate', (userData) => ...): the value is stored
    whatever it is; reading a property of undefined or null then throws, and
    nothing catches what a listener throws. *)
Definition on_authenticate (socket_id : string) (userData : authenticate_payload)
  : M unit :=
  (fun w => (Resolved tt,
             set_activeUsers
               (match userData with
                | UserData u => <[socket_id := u]> (w_activeUsers w)
                | _ => delete socket_id (w_activeUsers w)
                end) w));;
  match userData with
  | Undefined =>
      throw (TypeError "Cannot read properties of undefined (reading 'id')")
  | Null =>
      throw (TypeError "Cannot read properties of null (reading 'id')")
  | Falsy =>
      ts ← timestamp_now;
      socket_broadcast_emit socket_id "user_online" (Presence None None ts)
  | UserData u =>
      ts ← timestamp_now;
      socket_broadcast_emit socket_id "user_online"
        (Presence (Some (ud_id u)) (Some (ud_full_name u)) ts)
  end.

(** socket.on('product_updated', (data) => ...) *)
Definition on_product_updated (socket_id : string) (data : string) : M unit :=
  fun w =>
    (ts ← timestamp_now;
     socket_broadcast_emit socket_id "product_updated"
       (Relayed data (ud_full_name <$> w_activeUsers w !! socket_id) ts)) w.

(** socket.on('sale_created', (data) => ...) *)
Definition on_sale_created (socket_id : string) (data : string) : M unit :=
  fun w =>
    (ts ← timestamp_now;
     socket_broadcast_emit socket_id "sale_created"
       (Relayed data (ud_full_name <$> w_activeUsers w !! socket_id) ts)) w.

(** socket.on('disconnect', () => ...): the socket is no longer among
    the connected ones when the listener runs. *)
Definition on_disconnect (socket_id : string) : M unit := fun w0 =>
  let w := set_sockets
             (List.filter (fun sid => negb (String.eqb sid socket_id)) (w_sockets w0))
             w0 in
  match w_activeUsers w !! socket_id with
  | Some userData =>
      ((fun w1 => (Resolved tt,
                   set_activeUsers (delete socket_id (w_activeUsers w1)) w1));;
       ts ← timestamp_now;
       socket_broadcast_emit socket_id "user_offline"
         (Presence (Some (ud_id userData)) (Some (ud_full_name userData)) ts)) w
  | None => (Resolved tt, w)
  end.

End Server.

(** ** Definitions the statements below use *)

(** What a login response hands to the caller as a token, if anything. *)
Definition issued_token (r : settled response) : option token :=
  match r with
  | Resolved {| res_body := BLoggedIn _ tok _ |} => Some tok
  | _ => None
  end.

(** The request's line items bought this many units of product [pid]. *)
Definition sold (pid : Z) (items : list sale_item_body) : Z :=
  fold_right Z.add 0
    (map (fun item => if bool_decide (item_product_id item = Some pid)
                      then item_quantity item else 0) items).

(** The sale_items rows of a request's lines, numbered after [seq]. *)
Fixpoint line_rows (sale_id : Z) (seq : Z) (items : list sale_item_body)
  : list sale_item_row :=
  match items with
  | [] => []
  | item :: rest =>
      {| si_id := seq + 1; si_sale_id := Some sale_id;
         si_product_id := item_product_id item;
         si_quantity := item_quantity item;
         si_unit_price := item_unit_price item;
         si_total_price := item_quantity item * item_unit_price item |}
      :: line_rows sale_id (seq + 1) rest
  end.

(** One row after UPDATE users SET status = 'active' WHERE id = [id]. *)
Definition approved (id : Z) (u : user_row) : user_row :=
  if Z.eqb (u_id u) id then with_status (Some "active") u else u.

(** The sale row a request is recorded as. *)
Definition recorded_sale (caller : jwt_payload) (customer : string)
    (items : list sale_item_body) (w : world) : sale_row :=
  {| s_id := sales_id_seq (db_seqs (w_db w)) + 1;
     s_date := CURRENT_DATE (w_now w); s_customer := customer;
     s_total := items_total items; s_user_id := Some (jp_id caller);
     s_created_at := w_now w |}.

(** The body of createSale's loop and its try block, named for the proofs. *)
Definition sale_line (sale : sale_row) (item : sale_item_body) : M unit :=
  client_query (insert_sale_item (Some (s_id sale)) (item_product_id item)
                  (item_quantity item) (item_unit_price item)
                  (item_quantity item * item_unit_price item));;
  client_query (update_product_stock_minus (item_quantity item)
                  (item_product_id item)).

Definition sale_transaction (req_user : jwt_payload) (req_body : sale_body) : M response :=
  client_query_BEGIN;;
  items ← defined_items (sb_items req_body);
  sale ← client_query (insert_sale (sb_customer req_body) (items_total items)
                         (Some (jp_id req_user)));
  for_of items (sale_line sale);;
  client_query_COMMIT;;
  io_emit "sale_created" (SaleCreated sale items (jp_name req_user));;
  res_json (BSale sale).

(** One line's stock update, and all of a request's. *)
Definition decrement_line (item : sale_item_body) (p : product_row) : product_row :=
  match item_product_id item with
  | Some i => if Z.eqb (p_id p) i then with_stock (p_stock p - item_quantity item) p
              else p
  | None => p
  end.

Definition decrement (items : list sale_item_body) (p : product_row) : product_row :=
  with_stock (p_stock p - sold (p_id p) items) p.



(** From [w] to [w'] only the open transaction and the sequences may have
    changed, and some of the fault script was used up. *)
Definition same_committed (w w' : world) : Prop :=
  db_tables (w_db w') = db_tables (w_db w) /\
  w_delivered w' = w_delivered w /\
  w_sockets w' = w_sockets w /\
  w_activeUsers w' = w_activeUsers w /\
  w_now w' = w_now w /\
  w_commit_reply_lost w' = w_commit_reply_lost w /\
  exists used, w_faults w = used ++ w_faults w'.

(** The tables a request's sale leaves when all of it is stored. *)
Definition with_sale (sale : sale_row) (items : list sale_item_body)
    (ss : list sale_row) (item_seq : Z) (t : tables) : tables :=
  {| users := users t;
     products := option_map (map (decrement items)) (products t);
     sales := Some (ss ++ [sale]);
     sale_items :=
       option_map (fun its => its ++ line_rows (s_id sale) item_seq items)
                  (sale_items t) |}.

(** ** A small shop to run the handlers on *)

Definition demo_hash (data : string) (rounds : Z) : string :=
  String.append "$2a$" data.

Definition demo_compare (data hash : string) : bool :=
  String.eqb (demo_hash data 10) hash.

Definition no_tables : tables :=
  {| users := None; products := None; sales := None; sale_items := None |}.

Definition alice : user_row :=
  {| u_id := 1; u_full_name := "Alice"; u_email := "a@x.com";
     u_password := "$2a$pw"; u_role := Some "superadmin";
     u_status := Some "active"; u_bio := None; u_created_at := 100;
     u_last_login := None |}.

Definition bob : user_row :=
  {| u_id := 2; u_full_name := "Bob"; u_email := "b@x.com";
     u_password := "$2a$pw"; u_role := Some "cashier";
     u_status := Some "pending"; u_bio := None; u_created_at := 200;
     u_last_login := None |}.

Definition cd_a : product_row :=
  {| p_id := 1; p_name := "CD-A"; p_category := "music";
     p_purchase_price := 500; p_selling_price := 1000; p_stock := 20;
     p_created_at := 300; p_updated_at := 300 |}.

Definition world_of (t : tables) (s : sequences) (faults : list bool) : world :=
  {| w_now := 86400000; w_db := {| db_tables := t; db_seqs := s |};
     w_txn := None; w_faults := faults; w_commit_reply_lost := false;
     w_sockets := ["sock-A"; "sock-B"];
     w_activeUsers := {[ "sock-A" := {| ud_id := 1; ud_full_name := "Alice" |} ]};
     w_delivered := [] |}.

Definition zero_seqs : sequences :=
  {| users_id_seq := 0; products_id_seq := 0; sales_id_seq := 0;
     sale_items_id_seq := 0 |}.


Definition shop_tables : tables :=
  {| users := Some [alice; bob]; products := Some [cd_a]; sales := Some [];
     sale_items := Some [] |}.

Definition shop_seqs : sequences :=
  {| users_id_seq := 2; products_id_seq := 1; sales_id_seq := 0;
     sale_items_id_seq := 0 |}.

Definition shop : world := world_of shop_tables shop_seqs [].

Definition alice_token : jwt_payload :=
  {| jp_id := 1; jp_email := "a@x.com"; jp_role := Some "superadmin";
     jp_name := "Alice" |}.

Definition bob_token : jwt_payload :=
  {| jp_id := 2; jp_email := "b@x.com"; jp_role := Some "cashier";
     jp_name := "Bob" |}.

Definition line (pid quantity unit_price : Z) : sale_item_body :=
  {| item_product_id := Some pid; item_quantity := quantity;
     item_unit_price := unit_price |}.

Definition alice_registration : register_body :=
  {| rb_full_name := Some "Alice"; rb_email := Some "a@x.com";
     rb_password := Some "pw" |}.

Definition alice_registered : user_row :=
  {| u_id := 1; u_full_name := "Alice"; u_email := "a@x.com";
     u_password := "$2a$pw"; u_role := Some "superadmin";
     u_status := Some "active"; u_bio := None; u_created_at := 86400000;
     u_last_login := None |}.

Definition free_sample : product_body :=
  {| pb_name := Some "Sampler"; pb_category := Some "music";
     pb_purchase_price := Some 0; pb_selling_price := Some 1000;
     pb_stock := Some 5 |}.

(** Carl buys three CD-A; the body also carries a total of the caller's. *)
Definition one_line_sale : sale_body :=
  {| sb_customer := Some "Carl"; sb_items := Some [line 1 3 1000];
     sb_total := Some 1 |}.

(** The same product on two lines. *)
Definition two_lines_same_product : sale_body :=
  {| sb_customer := Some "Carl"; sb_items := Some [line 1 1 1000; line 1 2 1000];
     sb_total := None |}.

(** The second line references a product that does not exist. *)
Definition unknown_product_sale : sale_body :=
  {| sb_customer := Some "Carl"; sb_items := Some [line 1 3 1000; line 7 1 500];
     sb_total := None |}.

(** The shop while the store refuses connections. *)
Definition shop_store_down : world := world_of shop_tables shop_seqs [true].

(** A database that has a products table but no users table. *)
Definition products_only : world :=
  world_of {| users := None; products := Some []; sales := None;
              sale_items := None |} zero_seqs [].

Definition fresh_database : world := world_of no_tables zero_seqs [].

(** What those requests leave behind in the shop. *)
Definition sale_1_of_one_line : sale_row :=
  {| s_id := 1; s_date := 1000; s_customer := "Carl"; s_total := 3000;
     s_user_id := Some 1; s_created_at := 86400000 |}.

Definition sale_1_created : event :=
  {| ev_name := "sale_created";
     ev_payload := SaleCreated sale_1_of_one_line [line 1 3 1000] "Alice" |}.

Definition shop_after_one_line : world :=
  set_delivered [("sock-A", sale_1_created); ("sock-B", sale_1_created)]
    (world_of {| users := Some [alice; bob];
                 products := Some [with_stock 17 cd_a];
                 sales := Some [sale_1_of_one_line];
                 sale_items :=
                   Some [ {| si_id := 1; si_sale_id := Some 1;
                             si_product_id := Some 1; si_quantity := 3;
                             si_unit_price := 1000; si_total_price := 3000 |} ] |}
              {| users_id_seq := 2; products_id_seq := 1; sales_id_seq := 1;
                 sale_items_id_seq := 1 |} []).

Definition sale_1_of_two_lines : sale_row :=
  {| s_id := 1; s_date := 1000; s_customer := "Carl"; s_total := 3000;
     s_user_id := Some 1; s_created_at := 86400000 |}.

Definition shop_after_two_lines : world :=
  set_delivered
    [ ("sock-A", {| ev_name := "sale_created";
                    ev_payload := SaleCreated sale_1_of_two_lines
                                    [line 1 1 1000; line 1 2 1000] "Alice" |});
      ("sock-B", {| ev_name := "sale_created";
                    ev_payload := SaleCreated sale_1_of_two_lines
                                    [line 1 1 1000; line 1 2 1000] "Alice" |}) ]
    (world_of {| users := Some [alice; bob];
                 products := Some [with_stock 17 cd_a];
                 sales := Some [sale_1_of_two_lines];
                 sale_items :=
                   Some [ {| si_id := 1; si_sale_id := Some 1;
                             si_product_id := Some 1; si_quantity := 1;
                             si_unit_price := 1000; si_total_price := 1000 |};
                          {| si_id := 2; si_sale_id := Some 1;
                             si_product_id := Some 1; si_quantity := 2;
                             si_unit_price := 1000; si_total_price := 2000 |} ] |}
              {| users_id_seq := 2; products_id_seq := 1; sales_id_seq := 1;
                 sale_items_id_seq := 2 |} []).


(** * The rest of the server

    The routes the sections above leave out: the bearer-token middleware,
    the listings, the stock update and the dashboard. *)

(** ** More SQL statements *)

(** ORDER BY, by insertion: rows with equal keys keep their table order
    (the store leaves their order open). *)
Fixpoint insert_by {A : Type} (before : A -> A -> bool) (x : A) (l : list A) : list A :=
  match l with
  | [] => [x]
  | y :: rest => if before x y then x :: y :: rest else y :: insert_by before x rest
  end.

Definition order_by {A : Type} (before : A -> A -> bool) (l : list A) : list A :=
  fold_right (insert_by before) [] l.

(** created_at DESC *)
Definition user_newer (u v : user_row) : bool := Z.leb (u_created_at v) (u_created_at u).

(** SELECT id, full_name, email, role, status, created_at, last_login
    FROM users ORDER BY created_at DESC *)
Definition select_users_newest_first : statement (list user_row) :=
  fun _ t s =>
    match users t with
    | None => (Rejected (UndefinedTable "users"), t, s)
    | Some us => (Resolved (order_by user_newer us), t, s)
    end.

(** SELECT id, full_name, email, role, status, created_at FROM users
    WHERE status = $1 ORDER BY created_at DESC *)
Definition select_users_with_status (status : string) : statement (list user_row) :=
  fun _ t s =>
    match users t with
    | None => (Rejected (UndefinedTable "users"), t, s)
    | Some us =>
        (Resolved (order_by user_newer
                     (List.filter (fun u => bool_decide (u_status u = Some status)) us)),
         t, s)
    end.

Definition with_stock_at (n now : Z) (p : product_row) : product_row :=
  {| p_id := p_id p; p_name := p_name p; p_category := p_category p;
     p_purchase_price := p_purchase_price p;
     p_selling_price := p_selling_price p; p_stock := n;
     p_created_at := p_created_at p; p_updated_at := now |}.

(** UPDATE products SET stock = $1, updated_at = CURRENT_TIMESTAMP
    WHERE id = $2 RETURNING *
    The store reads both parameters as INTEGERs first.  A NULL stock
    violates NOT NULL as soon as a row is to be updated. *)
Definition update_product_stock (stock : option int_text) (id : int_text)
  : statement (list product_row) :=
  fun now t s =>
    match products t with
    | None => (Rejected (UndefinedTable "products"), t, s)
    | Some ps =>
        match nullable_integer_parameter stock, integer_parameter id with
        | Rejected e, _ | _, Rejected e => (Rejected e, t, s)
        | Resolved stock, Resolved id =>
            match List.filter (fun p => Z.eqb (p_id p) id) ps, stock with
            | [], _ => (Resolved [], t, s)
            | _ :: _, None => (Rejected (NotNullViolation "stock"), t, s)
            | hit, Some n =>
                (Resolved (map (with_stock_at n now) hit),
                 set_products (Some (map (fun p => if Z.eqb (p_id p) id
                                                   then with_stock_at n now p
                                                   else p) ps)) t, s)
            end
        end
    end.

(** A sale with the name of the user who recorded it. *)
Record sale_listing := {
  sl_sale : sale_row;
  sl_user_name : option string
}.

Definition sale_newer (x y : sale_listing) : bool :=
  Z.leb (s_created_at (sl_sale y)) (s_created_at (sl_sale x)).

(** sales s LEFT JOIN users u ON s.user_id = u.id *)
Definition left_join_user (us : list user_row) (s : sale_row) : list sale_listing :=
  match List.filter (fun u => bool_decide (s_user_id s = Some (u_id u))) us with
  | [] => [ {| sl_sale := s; sl_user_name := None |} ]
  | hit => map (fun u => {| sl_sale := s; sl_user_name := Some (u_full_name u) |}) hit
  end.

(** SELECT s.*, u.full_name as user_name FROM sales s
    LEFT JOIN users u ON s.user_id = u.id ORDER BY s.created_at DESC *)
Definition select_sales_with_user : statement (list sale_listing) :=
  fun _ t s =>
    match sales t, users t with
    | None, _ => (Rejected (UndefinedTable "sales"), t, s)
    | _, None => (Rejected (UndefinedTable "users"), t, s)
    | Some ss, Some us =>
        (Resolved (order_by sale_newer (flat_map (left_join_user us) ss)), t, s)
    end.

(** SELECT COALESCE(SUM(total), 0) as total FROM sales WHERE date = $1 *)
Definition select_sum_sales_on (date : Z) : statement Z :=
  fun _ t s =>
    match sales t with
    | None => (Rejected (UndefinedTable "sales"), t, s)
    | Some ss =>
        (Resolved (fold_right Z.add 0
                     (map s_total (List.filter (fun x => Z.eqb (s_date x) date) ss))),
         t, s)
    end.

(** SELECT COUNT( * ) as count FROM products *)
Definition select_count_products : statement Z :=
  fun _ t s =>
    match products t with
    | None => (Rejected (UndefinedTable "products"), t, s)
    | Some ps => (Resolved (Z.of_nat (length ps)), t, s)
    end.

(** SELECT COUNT( * ) as count FROM products WHERE stock < 10 *)
Definition select_count_low_stock : statement Z :=
  fun _ t s =>
    match products t with
    | None => (Rejected (UndefinedTable "products"), t, s)
    | Some ps =>
        (Resolved (Z.of_nat (length (List.filter (fun p => Z.ltb (p_stock p) 10) ps))),
         t, s)
    end.

(** SELECT COUNT( * ) as count FROM users WHERE status = $1 *)
Definition select_count_users_with_status (status : string) : statement Z :=
  fun _ t s =>
    match users t with
    | None => (Rejected (UndefinedTable "users"), t, s)
    | Some us =>
        (Resolved (Z.of_nat (length (List.filter
                     (fun u => bool_decide (u_status u = Some status)) us))),
         t, s)
    end.

(** ** More requests and responses *)

(** The columns GET /api/users shows. *)
Record user_listing := {
  ul_id : Z;
  ul_full_name : string;
  ul_email : string;
  ul_role : option string;
  ul_status : option string;
  ul_created_at : Z;
  ul_last_login : option Z
}.

Definition listed_user (u : user_row) : user_listing :=
  {| ul_id := u_id u; ul_full_name := u_full_name u; ul_email := u_email u;
     ul_role := u_role u; ul_status := u_status u;
     ul_created_at := u_created_at u; ul_last_login := u_last_login u |}.

Record dashboard_stats := {
  todaySales : Z;
  totalProducts : Z;
  lowStock : Z;
  totalUsers : Z;
  pendingUsers : Z
}.

Inductive listing :=
| LError (success : option bool) (error : string)
| LUsers (users : list user_listing)
| LPending (users : list user_view)
| LProducts (products : list product_row)
| LSales (sales : list sale_listing)
| LStats (stats : dashboard_stats).

Record listing_response := {
  lr_status : Z;
  lr_body : listing
}.

(** ** More of the server *)

(** s.split(sep) for a one-character separator *)
Fixpoint split_on (sep : ascii) (s : string) : list string :=
  match s with
  | EmptyString => [EmptyString]
  | String c rest =>
      if Ascii.eqb c sep then EmptyString :: split_on sep rest
      else match split_on sep rest with
           | word :: words => String c word :: words
           | [] => [String c EmptyString]
           end
  end.

(** authHeader && authHeader.split(' ')[1] *)
Definition bearer_token (authHeader : option string) : option string :=
  match authHeader with
  | None => None
  | Some h => if String.eqb h "" then Some ""
              else nth_error (split_on " "%char h) 1
  end.

(** new Date().toISOString().split('T')[0], as a day number; the server
    and the store read one clock. *)
Definition today : M Z := fun w => (Resolved (CURRENT_DATE (w_now w)), w).

Section Routes.

(** jwt.verify(token, secret) at a given time: the payload of a token that
    verifies, nothing for one that does not.  The signing secret is the
    deployment's. *)
Variable jwt_verify : string -> string -> Z -> option jwt_payload.
Variable JWT_SECRET : string.

(** *** authenticateToken

    [next] is the rest of the route; a refusal is the left summand. *)
Definition authenticateToken {R : Type} (authorization : option string)
    (next : jwt_payload -> M R) : M (response + R) :=
  let authHeader := authorization in
  let token := bearer_token authHeader in
  if falsy_string token then
    mret (inl {| res_status := 401;
                 res_body := BError None "Access token required" |})
  else
    fun w =>
      match jwt_verify (default "" token) JWT_SECRET (w_now w) with
      | None =>
          (Resolved (inl {| res_status := 403;
                            res_body := BError None "Invalid or expired token" |}), w)
      | Some user => (r ← next user; mret (inr r)) w
      end.

End Routes.

(** *** GET /api/users *)

Definition getUsers (req_user : jwt_payload) : M listing_response :=
  try_catch
    (result ← pool_query select_users_newest_first;
     mret {| lr_status := 200; lr_body := LUsers (map listed_user result) |})
    (fun error =>
       mret {| lr_status := 500; lr_body := LError (Some false) (message error) |}).

(** *** GET /api/users/pending *)

Definition getPendingUsers (req_user : jwt_payload) : M listing_response :=
  try_catch
    (if negb (is_admin_role (jp_role req_user)) then
       mret {| lr_status := 403;
               lr_body := LError None "Access denied. Admin only." |}
     else
       result ← pool_query (select_users_with_status "pending");
       mret {| lr_status := 200;
               lr_body := LPending (map (fun u => returned_user u true) result) |})
    (fun error =>
       mret {| lr_status := 500; lr_body := LError (Some false) (message error) |}).

(** *** GET /api/products *)

Section Collation.

(** The order of the database's collation on names. *)
Variable name_before : string -> string -> bool.



End Collation.

(** *** PUT /api/products/:id/stock

    [id] is the text of the path and [stock] the value of the body, absent
    when the body has none or null. *)

Definition updateStock (req_user : jwt_payload) (id : int_text) (stock : option int_text)
  : M response :=
  try_catch
    (result ← pool_query (update_product_stock stock id);
     match result with
     | [] => res_status_json 404 (BError (Some false) "Product not found")
     | row :: _ =>
         io_emit "product_updated" (ProductChange "stock_updated" row (jp_name req_user));;
         res_json (BProduct row)
     end)
    (fun error => res_status_json 500 (BError (Some false) (message error))).

(** *** GET /api/sales *)

Definition getSales (req_user : jwt_payload) : M listing_response :=
  try_catch
    (result ← pool_query select_sales_with_user;
     mret {| lr_status := 200; lr_body := LSales result |})
    (fun error =>
       mret {| lr_status := 500; lr_body := LError (Some false) (message error) |}).

(** *** GET /api/dashboard/stats *)

Definition getDashboardStats (req_user : jwt_payload) : M listing_response :=
  try_catch
    (day ← today;
     todaySales ← pool_query (select_sum_sales_on day);
     totalProducts ← pool_query select_count_products;
     lowStock ← pool_query select_count_low_stock;
     totalUsers ← pool_query (select_count_users_with_status "active");
     pendingUsers ← pool_query (select_count_users_with_status "pending");
     mret {| lr_status := 200;
             lr_body := LStats {| todaySales := todaySales;
                                  totalProducts := totalProducts;
                                  lowStock := lowStock;
                                  totalUsers := totalUsers;
                                  pendingUsers := pendingUsers |} |})
    (fun error =>
       mret {| lr_status := 500; lr_body := LError (Some false) (message error) |}).

(** ** Definitions the statements below use *)

(** The header value holds a space. *)
Fixpoint has_space (s : string) : bool :=
  match s with
  | EmptyString => false
  | String c rest => Ascii.eqb c " "%char || has_space rest
  end.

(** One row after UPDATE users SET status = 'active' WHERE status IS NULL. *)
Definition null_status_activated (u : user_row) : user_row :=
  match u_status u with
  | None => with_status (Some "active") u
  | Some _ => u
  end.

(** A request field that JavaScript's [!x] takes as missing. *)
Definition absent (x : option string) : Prop := x = None \/ x = Some "".

(** ** More of the small shop *)

(** A toy verifier: one token string, good for a day after 86400000. *)
Definition demo_verify (token secret : string) (now : Z) : option jwt_payload :=
  if String.eqb token "alice.jwt" && String.eqb secret "s3cret"
     && Z.ltb now (86400000 + 86400)
  then Some alice_token else None.

Definition carol_registration : register_body :=
  {| rb_full_name := Some "Carol"; rb_email := Some "c@x.com";
     rb_password := Some "pw3" |}.

Definition carol_registered : user_row :=
  {| u_id := 3; u_full_name := "Carol"; u_email := "c@x.com";
     u_password := "$2a$pw3"; u_role := Some "cashier";
     u_status := Some "pending"; u_bio := None; u_created_at := 86400000;
     u_last_login := None |}.

Definition shop_with_carol : world :=
  world_of (set_users (Some [alice; bob; carol_registered]) shop_tables)
           (set_users_id_seq 3 shop_seqs) [].




(** The shop when the connection fails between the store's next COMMIT
    and its reply, and what a sale of three CD-A leaves there. *)
Definition shop_reply_lost : world := set_commit_reply_lost true shop.

Definition shop_after_lost_reply : world := set_delivered [] shop_after_one_line.

(** * Properties *)

(** Unfolds the plumbing of asynchronous code, leaving the statements. *)
Ltac unfold_M :=
  unfold res_json, res_status_json, bcrypt_hash_js, bcrypt_compare_js, jwt_sign,
    pool_query, run_on_committed, try_catch, finally, throw,
    mbind, M_bind, mret, M_ret in *.

(** Splits on every test the run of a handler went through. *)
Ltac run_cases := repeat (case_match; simplify_eq/=).

(** ** Column types *)



Lemma set_db_same (w : world) :
  set_db {| db_tables := db_tables (w_db w); db_seqs := db_seqs (w_db w) |} w = w.
Proof. destruct w as [? [] ? ? ? ? ?]; reflexivity. Qed.

Lemma set_users_same (t : tables) : set_users (users t) t = t.
Proof. destruct t; reflexivity. Qed.

(** ** Registration *)

Lemma count_zero_nil {A : Type} (l : list A) :
  (Z.of_nat (length l) =? 0) = true -> l = [].
Proof. destruct l; [reflexivity | simpl; lia]. Qed.



Lemma present_truthy (s : string) : s <> "" -> falsy_string (Some s) = false.
Proof. intros H. simpl. apply String.eqb_neq. exact H. Qed.





(** Once the users table holds a row, a registration creates no account
    or a pending cashier. *)
Lemma register_after_the_first
    (bcrypt_hash : string -> Z -> string) (b : register_body)
    (w w' : world) (r : settled response) (us : list user_row) :
  users (db_tables (w_db w)) = Some us -> us <> [] ->
  register bcrypt_hash b w = (r, w') ->
  (users (db_tables (w_db w')) = Some us /\
   forall resp, r = Resolved resp -> res_status resp <> 200) \/
  (exists row msg,
     users (db_tables (w_db w')) = Some (us ++ [row]) /\
     r = Resolved {| res_status := 200;
                     res_body := BRegistered msg (returned_user row true) true |} /\
     u_role row = Some "cashier" /\ u_status row = Some "pending").
Proof.
  intros Hus Hne. unfold register. unfold_M.
  unfold select_users_by_email, select_count_users, insert_user.
  intros H. run_cases.
  all: try (left; split; [first [reflexivity | congruence]
                         | intros resp Hr; inversion Hr; subst; simpl; lia]).
  - match goal with Hc : (_ =? 0) = true |- _ => apply count_zero_nil in Hc end.
    contradiction.
  - right. eexists _, _. repeat split.
Qed.

(** ** Login *)

Lemma filter_head_In {A : Type} (f : A -> bool) (l : list A) (x : A) (rest : list A) :
  List.filter f l = x :: rest -> In x l /\ f x = true.
Proof.
  intros H. apply filter_In. rewrite H. left. reflexivity.
Qed.

(** C5. Whenever a login call hands out a token, the supplied email is
    that of a stored user (the first row the email selects), the supplied
    password matches that user's stored hash and the user's status is
    active; the call then stamps last_login on that user's row, and the
    token carries the user's id, email, role and full name, signed with
    the server's secret for 24 hours.  So no token goes to a pending or
    blocked account or to a wrong password. *)
Theorem login_token_only_for_active_user
    (bcrypt_compare : string -> string -> bool) (JWT_SECRET : string)
    (b : login_body) (w w' : world) (r : settled response) (tok : token) :
  login bcrypt_compare JWT_SECRET b w = (r, w') ->
  issued_token r = Some tok ->
  exists us user rest email password,
    users (db_tables (w_db w)) = Some us /\
    lb_email b = Some email /\ lb_password b = Some password /\
    List.filter (email_is (Some email)) us = user :: rest /\
    In user us /\ u_email user = email /\
    bcrypt_compare password (u_password user) = true /\
    u_status user = Some "active" /\
    users (db_tables (w_db w')) =
      Some (map (fun u => if Z.eqb (u_id u) (u_id user)
                          then with_last_login (Some (w_now w)) u else u) us) /\
    In (with_last_login (Some (w_now w)) user) (default [] (users (db_tables (w_db w')))) /\
    tok = {| tk_payload := {| jp_id := u_id user; jp_email := u_email user;
                              jp_role := u_role user;
                              jp_name := u_full_name user |};
             tk_secret := JWT_SECRET; tk_expiresIn := "24h";
             tk_iat := w_now w |} /\
    r = Resolved {| res_status := 200;
                    res_body := BLoggedIn "Login successful" tok
                                  (returned_user user false) |}.
Proof.
  unfold login. unfold_M.
  unfold select_users_by_email, update_last_login.
  intros H Htok. run_cases.
  match goal with Hf : List.filter _ _ = _ :: _ |- _ =>
    pose proof (filter_head_In _ _ _ _ Hf) as [Hin Hem] end.
  destruct (lb_email b) as [email|]; simpl in Hem; [|discriminate].
  apply String.eqb_eq in Hem.
  match goal with Hs : negb (bool_decide _) = false |- _ =>
    apply negb_false_iff, bool_decide_eq_true in Hs end.
  match goal with Hv : negb _ = false |- _ => apply negb_false_iff in Hv end.
  eexists _, _, _, _, _.
  repeat (split; [first [reflexivity | eassumption]|]).
  split.
  { apply in_map_iff. eexists. split; [|eassumption].
    rewrite Z.eqb_refl. reflexivity. }
  split; reflexivity.
Qed.

Lemma login_token_only_for_active_user_witness :
  login demo_compare "s3cret"
    {| lb_email := Some "a@x.com"; lb_password := Some "pw" |} shop
  = (fst (login demo_compare "s3cret"
            {| lb_email := Some "a@x.com"; lb_password := Some "pw" |} shop),
     world_of (set_users (Some [with_last_login (Some 86400000) alice; bob])
                 shop_tables) shop_seqs [])
  /\ issued_token
       (fst (login demo_compare "s3cret"
               {| lb_email := Some "a@x.com"; lb_password := Some "pw" |} shop))
     = Some {| tk_payload := alice_token; tk_secret := "s3cret";
               tk_expiresIn := "24h"; tk_iat := 86400000 |}
  /\ exists us user rest email password,
    users (db_tables (w_db shop)) = Some us /\
    Some "a@x.com" = Some email /\ Some "pw" = Some password /\
    List.filter (email_is (Some email)) us = user :: rest /\
    In user us /\ u_email user = email /\
    demo_compare password (u_password user) = true /\
    u_status user = Some "active" /\
    users (db_tables (w_db
      (world_of (set_users (Some [with_last_login (Some 86400000) alice; bob])
                   shop_tables) shop_seqs []))) =
      Some (map (fun u => if Z.eqb (u_id u) (u_id user)
                          then with_last_login (Some (w_now shop)) u else u) us) /\
    In (with_last_login (Some (w_now shop)) user)
       (default [] (users (db_tables (w_db
          (world_of (set_users (Some [with_last_login (Some 86400000) alice; bob])
                       shop_tables) shop_seqs []))))) /\
    {| tk_payload := alice_token; tk_secret := "s3cret";
       tk_expiresIn := "24h"; tk_iat := 86400000 |}
    = {| tk_payload := {| jp_id := u_id user; jp_email := u_email user;
                          jp_role := u_role user;
                          jp_name := u_full_name user |};
         tk_secret := "s3cret"; tk_expiresIn := "24h";
         tk_iat := w_now shop |} /\
    fst (login demo_compare "s3cret"
           {| lb_email := Some "a@x.com"; lb_password := Some "pw" |} shop)
    = Resolved {| res_status := 200;
                  res_body := BLoggedIn "Login successful"
                    {| tk_payload := alice_token; tk_secret := "s3cret";
                       tk_expiresIn := "24h"; tk_iat := 86400000 |}
                    (returned_user user false) |}.
Proof.
  split; [reflexivity|]. split; [reflexivity|].
  apply (login_token_only_for_active_user demo_compare "s3cret"
           {| lb_email := Some "a@x.com"; lb_password := Some "pw" |} shop);
    reflexivity.
Defined.

(** A pending account with the right password gets no token. *)
Example login_pending_refused :
  fst (login demo_compare "s3cret"
         {| lb_email := Some "b@x.com"; lb_password := Some "pw" |} shop)
  = Resolved {| res_status := 400;
                res_body := BError (Some false)
                  "Account is pending approval. Please contact administrator." |}.
Proof. reflexivity. Qed.

(** C6. The two failure causes of a login are not always
    indistinguishable.  A login with an email that selects no stored user is
    answered 400 with { success: false, error: 'Invalid email or password' }.
    A login with an email that selects a user gets the same response when
    its password is a string that does not match the stored hash; when the
    request holds no password, bcrypt.compare throws and the response is a
    500, so the caller learns that the email is stored.  Neither login
    changes anything. *)
Theorem login_failure_causes
    (bcrypt_compare : string -> string -> bool) (JWT_SECRET : string)
    (b1 b2 : login_body) (w1 w2 : world) (us1 us2 rest : list user_row)
    (user : user_row) :
  users (db_tables (w_db w1)) = Some us1 ->
  List.filter (email_is (lb_email b1)) us1 = [] ->
  users (db_tables (w_db w2)) = Some us2 ->
  List.filter (email_is (lb_email b2)) us2 = user :: rest ->
  login bcrypt_compare JWT_SECRET b1 w1 =
    (Resolved {| res_status := 400;
                 res_body := BError (Some false) "Invalid email or password" |},
     w1) /\
  (forall password,
     lb_password b2 = Some password ->
     bcrypt_compare password (u_password user) = false ->
     fst (login bcrypt_compare JWT_SECRET b2 w2) =
       fst (login bcrypt_compare JWT_SECRET b1 w1) /\
     snd (login bcrypt_compare JWT_SECRET b2 w2) = w2) /\
  (lb_password b2 = None ->
   login bcrypt_compare JWT_SECRET b2 w2 =
     (Resolved {| res_status := 500;
                  res_body := BError (Some false)
                    "Login failed: Illegal arguments: undefined, string" |}, w2) /\
   fst (login bcrypt_compare JWT_SECRET b2 w2) <>
     fst (login bcrypt_compare JWT_SECRET b1 w1)).
Proof.
  intros Hu1 Hf1 Hu2 Hf2.
  assert (H1 : login bcrypt_compare JWT_SECRET b1 w1 =
               (Resolved {| res_status := 400;
                            res_body := BError (Some false)
                                          "Invalid email or password" |}, w1)).
  { unfold login. unfold_M. unfold select_users_by_email.
    rewrite Hu1, Hf1. simpl. rewrite set_db_same. reflexivity. }
  rewrite H1. split; [reflexivity|]. split.
  - intros password Hpw Hbad. unfold login. unfold_M. unfold select_users_by_email.
    rewrite Hu2, Hf2, Hpw, Hbad. simpl. rewrite set_db_same. split; reflexivity.
  - intros Hpw.
    assert (H2 : login bcrypt_compare JWT_SECRET b2 w2 =
                 (Resolved {| res_status := 500;
                              res_body := BError (Some false)
                                "Login failed: Illegal arguments: undefined, string" |},
                  w2)).
    { unfold login. unfold_M. unfold select_users_by_email.
      rewrite Hu2, Hf2, Hpw. simpl. rewrite set_db_same. reflexivity. }
    rewrite H2. split; [reflexivity | discriminate].
Qed.

Lemma login_failure_causes_witness :
  (users (db_tables (w_db shop)) = Some [alice; bob] /\
   List.filter (email_is (Some "nobody@x.com")) [alice; bob] = [] /\
   List.filter (email_is (Some "a@x.com")) [alice; bob] = [alice]) /\
  login demo_compare "s3cret"
        {| lb_email := Some "nobody@x.com"; lb_password := None |} shop =
    (Resolved {| res_status := 400;
                 res_body := BError (Some false) "Invalid email or password" |},
     shop) /\
  login demo_compare "s3cret"
        {| lb_email := Some "a@x.com"; lb_password := None |} shop =
    (Resolved {| res_status := 500;
                 res_body := BError (Some false)
                   "Login failed: Illegal arguments: undefined, string" |}, shop) /\
  fst (login demo_compare "s3cret"
         {| lb_email := Some "a@x.com"; lb_password := None |} shop) <>
  fst (login demo_compare "s3cret"
         {| lb_email := Some "nobody@x.com"; lb_password := None |} shop).
Proof.
  split; [repeat split|].
  pose proof (login_failure_causes demo_compare "s3cret"
                {| lb_email := Some "nobody@x.com"; lb_password := None |}
                {| lb_email := Some "a@x.com"; lb_password := None |}
                shop shop [alice; bob] [alice; bob] [] alice
                eq_refl eq_refl eq_refl eq_refl) as (H1 & _ & H2).
  destruct (H2 eq_refl) as (H3 & H4).
  split; [exact H1|]. split; [exact H3 | exact H4].
Defined.

(** ** Approval *)

Lemma approved_id (id : Z) (u : user_row) : u_id (approved id u) = u_id u.
Proof. unfold approved. destruct (Z.eqb (u_id u) id); reflexivity. Qed.

Lemma approved_twice (id : Z) (u : user_row) :
  approved id (approved id u) = approved id u.
Proof.
  unfold approved. destruct (Z.eqb (u_id u) id) eqn:E; simpl; rewrite E; reflexivity.
Qed.

Lemma approved_nobody (id : Z) (us : list user_row) :
  (forall u, In u us -> u_id u <> id) -> map (approved id) us = us.
Proof.
  induction us as [|u us IH]; intros H; simpl; [reflexivity|].
  rewrite IH by (intros; apply H; right; assumption).
  unfold approved. destruct (Z.eqb_spec (u_id u) id) as [E|_]; [|reflexivity].
  exfalso. apply (H u); [left; reflexivity | exact E].
Qed.

Lemma approved_active (id : Z) (us : list user_row) :
  (forall u, In u us -> u_id u = id -> u_status u = Some "active") ->
  map (approved id) us = us.
Proof.
  induction us as [|u us IH]; intros H; simpl; [reflexivity|].
  rewrite IH by (intros; apply H; [right|]; assumption).
  unfold approved. destruct (Z.eqb_spec (u_id u) id) as [E|_]; [|reflexivity].
  pose proof (H u (or_introl eq_refl) E) as Hs.
  destruct u; simpl in *; subst; reflexivity.
Qed.

Lemma filter_nobody (id : Z) (us : list user_row) :
  (forall u, In u us -> u_id u <> id) ->
  List.filter (fun u => Z.eqb (u_id u) id) us = [].
Proof.
  induction us as [|u us IH]; intros H; simpl; [reflexivity|].
  destruct (Z.eqb_spec (u_id u) id) as [E|_].
  - exfalso. apply (H u); [left; reflexivity | exact E].
  - apply IH. intros; apply H; right; assumption.
Qed.

Lemma filter_approved (id : Z) (us : list user_row) :
  List.filter (fun u => Z.eqb (u_id u) id) (map (approved id) us) =
  map (with_status (Some "active")) (List.filter (fun u => Z.eqb (u_id u) id) us).
Proof.
  induction us as [|u us IH]; simpl; [reflexivity|].
  rewrite approved_id. destruct (Z.eqb (u_id u) id) eqn:E; simpl; [|exact IH].
  rewrite IH. unfold approved. rewrite E. reflexivity.
Qed.

(** What approve does, step by step. *)
Lemma approve_run (caller : jwt_payload) (id : Z) (w : world) :
  approve caller id w =
  if negb (is_admin_role (jp_role caller)) then
    (Resolved {| res_status := 403;
                 res_body := BError None "Access denied. Admin only." |}, w)
  else
    match users (db_tables (w_db w)) with
    | None =>
        (Resolved {| res_status := 500;
                     res_body := BError (Some false)
                                   (message (UndefinedTable "users")) |}, w)
    | Some us =>
        (match List.filter (fun u => Z.eqb (u_id u) id) us with
         | [] => Resolved {| res_status := 404;
                             res_body := BError (Some false) "User not found" |}
         | u :: _ =>
             Resolved {| res_status := 200;
                         res_body := BApproved "User approved successfully"
                           (returned_user (with_status (Some "active") u) false) |}
         end,
         set_db {| db_tables := set_users (Some (map (approved id) us))
                                  (db_tables (w_db w));
                   db_seqs := db_seqs (w_db w) |} w)
    end.
Proof.
  unfold approve. unfold_M. unfold update_user_status.
  destruct (negb (is_admin_role (jp_role caller))); [reflexivity|].
  destruct (users (db_tables (w_db w))) as [us|]; simpl.
  - destruct (List.filter (fun u => Z.eqb (u_id u) id) us); reflexivity.
  - rewrite set_db_same. reflexivity.
Qed.

Lemma is_admin_role_iff (role : option string) :
  is_admin_role role = true <-> role = Some "superadmin" \/ role = Some "admin".
Proof.
  unfold is_admin_role. rewrite orb_true_iff, !bool_decide_eq_true. reflexivity.
Qed.

(** The route on a path id the store reads as the INTEGER [n] is [approve]
    on [n]. *)
Lemma approve_request_integer (caller : jwt_payload) (id : int_text) (n : Z) (w : world) :
  integer_parameter id = Resolved n ->
  approve_request caller id w = approve caller n w.
Proof.
  intros Hid. unfold approve_request, approve. unfold_M.
  unfold update_user_status_by_text. rewrite Hid.
  destruct (negb (is_admin_role (jp_role caller))); [reflexivity|].
  unfold update_user_status.
  destruct (users (db_tables (w_db w))); reflexivity.
Qed.

(** The route on a path id the store does not read as an INTEGER. *)
Lemma approve_request_not_integer
    (caller : jwt_payload) (id : int_text) (e : error) (w : world) :
  integer_parameter id = Rejected e ->
  approve_request caller id w =
  if negb (is_admin_role (jp_role caller)) then
    (Resolved {| res_status := 403;
                 res_body := BError None "Access denied. Admin only." |}, w)
  else
    match users (db_tables (w_db w)) with
    | None =>
        (Resolved {| res_status := 500;
                     res_body := BError (Some false)
                                   (message (UndefinedTable "users")) |}, w)
    | Some _ =>
        (Resolved {| res_status := 500;
                     res_body := BError (Some false) (message e) |}, w)
    end.
Proof.
  intros Hid. unfold approve_request. unfold_M.
  unfold update_user_status_by_text. rewrite Hid.
  destruct (negb (is_admin_role (jp_role caller))); [reflexivity|].
  destruct (users (db_tables (w_db w))); simpl; rewrite set_db_same; reflexivity.
Qed.

(** C9. The approve route answers 403, touching nothing, to a caller
    whose role is neither superadmin nor admin.  For a superadmin or admin
    caller and a path id that is an INTEGER, it answers 404, touching
    nothing, when no user has the id, and 200 with the user, now active,
    when one has; when the users with that id are already active the store
    is left exactly as it was.  A path id that is not an INTEGER (not a
    whole number, or beyond 32 bits) is answered 500, touching nothing,
    although no user has it.  Approving twice gives the answer and the
    store of approving once. *)
Theorem approve_restricted_and_idempotent
    (caller : jwt_payload) (id : int_text) (w : world) :
  (jp_role caller <> Some "superadmin" -> jp_role caller <> Some "admin" ->
   approve_request caller id w =
     (Resolved {| res_status := 403;
                  res_body := BError None "Access denied. Admin only." |}, w)) /\
  (jp_role caller = Some "superadmin" \/ jp_role caller = Some "admin" ->
   forall us, users (db_tables (w_db w)) = Some us ->
     (forall e, integer_parameter id = Rejected e ->
        approve_request caller id w =
          (Resolved {| res_status := 500;
                       res_body := BError (Some false) (message e) |}, w)) /\
     (forall n, integer_parameter id = Resolved n ->
        ((forall u, In u us -> u_id u <> n) ->
         approve_request caller id w =
           (Resolved {| res_status := 404;
                        res_body := BError (Some false) "User not found" |}, w)) /\
        (forall u rest,
           List.filter (fun u => Z.eqb (u_id u) n) us = u :: rest ->
           fst (approve_request caller id w) =
             Resolved {| res_status := 200;
                         res_body := BApproved "User approved successfully"
                           (returned_user (with_status (Some "active") u) false) |} /\
           users (db_tables (w_db (snd (approve_request caller id w)))) =
             Some (map (approved n) us)) /\
        ((forall u, In u us -> u_id u = n -> u_status u = Some "active") ->
         snd (approve_request caller id w) = w))) /\
  approve_request caller id (snd (approve_request caller id w)) =
    approve_request caller id w.
Proof.
  destruct (integer_parameter id) as [n|e] eqn:Hid.
  - rewrite !(approve_request_integer _ _ _ _ Hid), approve_run.
    split; [|split].
    + intros H1 H2.
      destruct (is_admin_role (jp_role caller)) eqn:E; [|reflexivity].
      apply is_admin_role_iff in E. tauto.
    + intros Hrole us Hus. apply is_admin_role_iff in Hrole.
      rewrite Hrole, Hus. simpl. split; [discriminate|].
      intros n' Hn'. injection Hn' as <-. split; [|split].
      * intros Hno. rewrite filter_nobody, approved_nobody by assumption.
        rewrite <- Hus, set_users_same, set_db_same. reflexivity.
      * intros u rest Hf. rewrite Hf. split; reflexivity.
      * intros Hact. rewrite approved_active by assumption.
        rewrite <- Hus, set_users_same, set_db_same. reflexivity.
    + rewrite approve_run.
      destruct (negb (is_admin_role (jp_role caller))); [reflexivity|].
      destruct (users (db_tables (w_db w))) as [us|] eqn:Hus; simpl;
        [|rewrite Hus; reflexivity].
      rewrite filter_approved, map_map.
      rewrite (map_ext _ _ (approved_twice n)).
      destruct (List.filter (fun u => Z.eqb (u_id u) n) us) as [|u rest]; reflexivity.
  - rewrite !(approve_request_not_integer _ _ _ _ Hid).
    split; [|split].
    + intros H1 H2.
      destruct (is_admin_role (jp_role caller)) eqn:E; [|reflexivity].
      apply is_admin_role_iff in E. tauto.
    + intros Hrole us Hus. apply is_admin_role_iff in Hrole.
      rewrite Hrole, Hus. simpl. split; [|discriminate].
      intros e' He'. injection He' as <-. reflexivity.
    + destruct (negb (is_admin_role (jp_role caller))); [reflexivity|].
      destruct (users (db_tables (w_db w))) eqn:Hus; simpl; rewrite Hus; reflexivity.
Qed.

Lemma approve_restricted_and_idempotent_witness :
  approve_request bob_token (IntegerText 2) shop =
    (Resolved {| res_status := 403;
                 res_body := BError None "Access denied. Admin only." |}, shop) /\
  approve_request alice_token OtherText shop =
    (Resolved {| res_status := 500;
                 res_body := BError (Some false) (message InvalidInteger) |}, shop) /\
  approve_request alice_token (IntegerText 7) shop =
    (Resolved {| res_status := 404;
                 res_body := BError (Some false) "User not found" |}, shop) /\
  (fst (approve_request alice_token (IntegerText 2) shop) =
     Resolved {| res_status := 200;
                 res_body := BApproved "User approved successfully"
                   (returned_user (with_status (Some "active") bob) false) |} /\
   users (db_tables (w_db (snd (approve_request alice_token (IntegerText 2) shop)))) =
     Some (map (approved 2) [alice; bob])) /\
  snd (approve_request alice_token (IntegerText 1) shop) = shop.
Proof.
  split; [|split; [|split; [|split]]].
  - apply (approve_restricted_and_idempotent bob_token (IntegerText 2) shop);
      discriminate.
  - apply (approve_restricted_and_idempotent alice_token OtherText shop)
      with (us := [alice; bob]).
    + left; reflexivity.
    + reflexivity.
    + reflexivity.
  - apply (approve_restricted_and_idempotent alice_token (IntegerText 7) shop)
      with (us := [alice; bob]) (n := 7).
    + left; reflexivity.
    + reflexivity.
    + reflexivity.
    + simpl. intros u [<-|[<-|[]]]; simpl; lia.
  - apply (approve_restricted_and_idempotent alice_token (IntegerText 2) shop)
      with (us := [alice; bob]) (n := 2) (rest := []).
    + left; reflexivity.
    + reflexivity.
    + reflexivity.
    + reflexivity.
  - apply (approve_restricted_and_idempotent alice_token (IntegerText 1) shop)
      with (us := [alice; bob]) (n := 1).
    + left; reflexivity.
    + reflexivity.
    + reflexivity.
    + simpl. intros u [<-|[<-|[]]]; simpl; [reflexivity | lia].
Defined.

(** C9 as stated fails: no user has the id 2147483648, and the answer to
    an admin is a 500, not the 404. *)
Lemma approve_absent_id_counterexample :
  ~ (forall (caller : jwt_payload) (id : int_text) (w : world) (us : list user_row),
       jp_role caller = Some "superadmin" \/ jp_role caller = Some "admin" ->
       users (db_tables (w_db w)) = Some us ->
       (forall u, In u us -> IntegerText (u_id u) <> id) ->
       approve_request caller id w =
         (Resolved {| res_status := 404;
                      res_body := BError (Some false) "User not found" |}, w)).
Proof.
  intros claim.
  specialize (claim alice_token (IntegerText 2147483648) shop [alice; bob]
                (or_introl eq_refl) eq_refl).
  assert (Hrun : approve_request alice_token (IntegerText 2147483648) shop =
                 (Resolved {| res_status := 500;
                              res_body := BError (Some false)
                                            "integer out of range" |}, shop))
    by (vm_compute; reflexivity).
  rewrite Hrun in claim.
  assert (Hno : forall u, In u [alice; bob] ->
                          IntegerText (u_id u) <> IntegerText 2147483648)
    by (intros u [<-|[<-|[]]]; discriminate).
  specialize (claim Hno). discriminate.
Qed.

(** ** Products *)

(** What createProduct does, step by step. *)
Lemma createProduct_run (caller : jwt_payload) (b : product_body) (w : world) :
  createProduct caller b w =
  if falsy_string (pb_name b) || falsy_string (pb_category b) ||
     falsy_number (pb_purchase_price b) || falsy_number (pb_selling_price b)
  then
    (Resolved {| res_status := 400;
                 res_body := BError (Some false)
                   "Name, category, purchase price, and selling price are required" |},
     w)
  else
    match pb_name b, pb_category b, pb_purchase_price b, pb_selling_price b,
          products (db_tables (w_db w)) with
    | Some n, Some c, Some pp, Some sp, Some ps =>
        if negb (int4 (or_zero (pb_stock b))) then
          (Resolved {| res_status := 500;
                       res_body := BError (Some false) (message IntegerOutOfRange) |},
           w)
        else
          match varchar 100 n, varchar 50 c with
          | None, _ =>
              (Resolved {| res_status := 500;
                           res_body := BError (Some false)
                             (message (StringTooLong "character varying(100)")) |},
               w)
          | _, None =>
              (Resolved {| res_status := 500;
                           res_body := BError (Some false)
                             (message (StringTooLong "character varying(50)")) |},
               w)
          | Some n, Some c =>
              if negb (numeric_10_2 pp && numeric_10_2 sp) then
                (Resolved {| res_status := 500;
                             res_body := BError (Some false)
                                           (message NumericOverflow) |}, w)
              else
                let row := {| p_id := products_id_seq (db_seqs (w_db w)) + 1;
                              p_name := n; p_category := c; p_purchase_price := pp;
                              p_selling_price := sp;
                              p_stock := or_zero (pb_stock b);
                              p_created_at := w_now w; p_updated_at := w_now w |} in
                (Resolved {| res_status := 200; res_body := BProduct row |},
                 set_delivered
                   (w_delivered w ++
                    map (fun sid => (sid, {| ev_name := "product_updated";
                                             ev_payload := ProductChange "created" row
                                                             (jp_name caller) |}))
                        (w_sockets w))
                   (set_db {| db_tables := set_products (Some (ps ++ [row]))
                                             (db_tables (w_db w));
                              db_seqs := set_products_id_seq
                                           (products_id_seq (db_seqs (w_db w)) + 1)
                                           (db_seqs (w_db w)) |} w))
          end
    | _, _, _, _, _ =>
        (Resolved {| res_status := 500;
                     res_body := BError (Some false)
                                   (message (UndefinedTable "products")) |}, w)
    end.
Proof.
  unfold createProduct. unfold_M. unfold insert_product, io_emit, deliver.
  destruct (pb_name b) as [n|], (pb_category b) as [c|],
    (pb_purchase_price b) as [pp|], (pb_selling_price b) as [sp|];
    simpl; try reflexivity; rewrite ?orb_true_r; try reflexivity.
  destruct (_ || _); [reflexivity|].
  destruct (products (db_tables (w_db w))); simpl; [|rewrite set_db_same; reflexivity].
  destruct (int4 (or_zero (pb_stock b))); simpl; [|rewrite set_db_same; reflexivity].
  destruct (varchar 100 n); simpl; [|rewrite set_db_same; reflexivity].
  destruct (varchar 50 c); simpl; [|rewrite set_db_same; reflexivity].
  destruct (numeric_10_2 pp && numeric_10_2 sp); simpl;
    [reflexivity | rewrite set_db_same; reflexivity].
Qed.

(** C8, where the code departs from it.  A product whose purchase price
    or selling price is the number 0 is answered 400 "... are required"
    and nothing is stored, although all four fields were supplied. *)
Theorem createProduct_rejects_zero_price
    (caller : jwt_payload) (b : product_body) (w : world) :
  pb_purchase_price b = Some 0 \/ pb_selling_price b = Some 0 ->
  createProduct caller b w =
    (Resolved {| res_status := 400;
                 res_body := BError (Some false)
                   "Name, category, purchase price, and selling price are required" |},
     w).
Proof.
  intros H. rewrite createProduct_run.
  destruct H as [H|H]; rewrite H; simpl; rewrite ?orb_true_r; reflexivity.
Qed.

Lemma createProduct_rejects_zero_price_witness :
  (pb_purchase_price free_sample = Some 0 \/ pb_selling_price free_sample = Some 0) /\
  createProduct alice_token free_sample shop =
    (Resolved {| res_status := 400;
                 res_body := BError (Some false)
                   "Name, category, purchase price, and selling price are required" |},
     shop).
Proof.
  split; [left; reflexivity|].
  apply (createProduct_rejects_zero_price alice_token free_sample shop).
  left; reflexivity.
Defined.

(** ** Sales *)

Lemma createSale_blocks (caller : jwt_payload) (b : sale_body) :
  createSale caller b =
  (pool_connect;;
   finally
     (try_catch (sale_transaction caller b)
        (fun error =>
           client_query_ROLLBACK;;
           res_status_json 500 (BError (Some false) (message error))))
     client_release).
Proof. reflexivity. Qed.

Lemma same_committed_refl (w : world) : same_committed w w.
Proof. repeat split. exists []. reflexivity. Qed.

Lemma same_committed_trans (w1 w2 w3 : world) :
  same_committed w1 w2 -> same_committed w2 w3 -> same_committed w1 w3.
Proof.
  unfold same_committed. intros (?&?&?&?&?&?&u1&Hu1) (?&?&?&?&?&?&u2&Hu2).
  repeat split; try congruence.
  exists (u1 ++ u2). rewrite <- app_assoc, <- Hu2. exact Hu1.
Qed.

(** Closes [same_committed] between the two ends of a few client calls. *)
Ltac close_same_committed :=
  unfold same_committed; simpl;
  repeat (split; [first [reflexivity | congruence]|]);
  first [ exists []; simpl; congruence
        | eexists [_]; simpl; eassumption
        | eexists [_; _]; simpl; eassumption ].

(** One line inside an open transaction: the committed tables stay as
    they are, and when the line goes through the working copy has one
    more sale_items row and the line's stock update. *)
Lemma sale_line_inv (sale : sale_row) (item : sale_item_body)
    (w w1 : world) (t : tables) (r : settled unit) :
  w_txn w = Some t ->
  sale_line sale item w = (r, w1) ->
  same_committed w w1 /\
  exists t1, w_txn w1 = Some t1 /\
    (r = Resolved tt ->
     exists its ps,
       sale_items t = Some its /\ products t = Some ps /\
       references (item_product_id item) (Some (map p_id ps)) = true /\
       sale_items_id_seq (db_seqs (w_db w1)) = sale_items_id_seq (db_seqs (w_db w)) + 1 /\
       t1 = {| users := users t;
               products := Some (map (decrement_line item) ps);
               sales := sales t;
               sale_items :=
                 Some (its ++ line_rows (s_id sale)
                                 (sale_items_id_seq (db_seqs (w_db w))) [item]) |}).
Proof.
  intros Ht. unfold sale_line, client_query, client_call, next_fault.
  unfold_M. unfold insert_sale_item, update_product_stock_minus.
  intros H.
  run_cases.
  all: try congruence.
  all: split; [close_same_committed|].
  all: eexists; split; [first [eassumption | reflexivity]|].
  all: try discriminate.
  all: intros _;
    match goal with
    | Hp : products ?x = Some _, Hm : option_map _ (products ?x) = Some _ |- _ =>
        rewrite Hp in Hm; simpl in Hm; inversion Hm; subst; clear Hm
    | _ => idtac
    end.
  all: eexists _, _; split; [eassumption|]; split; [eassumption|].
  all: split; [first [reflexivity | apply negb_false_iff; assumption]|].
  all: split; [reflexivity|].
  all: unfold set_products, set_sale_items, decrement_line; simpl.
  all: match goal with Hi : item_product_id _ = _ |- _ => rewrite Hi end.
  all: reflexivity.
Qed.

Lemma with_stock_same (p : product_row) : with_stock (p_stock p) p = p.
Proof. destruct p; reflexivity. Qed.

Lemma decrement_nil (ps : list product_row) : map (decrement []) ps = ps.
Proof.
  rewrite <- (map_id ps) at 2. apply map_ext. intros p.
  unfold decrement. simpl. rewrite Z.sub_0_r. apply with_stock_same.
Qed.

Lemma sold_cons (pid : Z) (item : sale_item_body) (rest : list sale_item_body) :
  sold pid (item :: rest) =
  (if bool_decide (item_product_id item = Some pid) then item_quantity item else 0)
  + sold pid rest.
Proof. reflexivity. Qed.

Lemma decrement_cons (item : sale_item_body) (rest : list sale_item_body)
    (p : product_row) :
  decrement rest (decrement_line item p) = decrement (item :: rest) p.
Proof.
  unfold decrement, decrement_line. rewrite sold_cons.
  destruct (item_product_id item) as [i|] eqn:Hi.
  - destruct (Z.eqb_spec (p_id p) i) as [E|E].
    + subst i. rewrite bool_decide_eq_true_2 by reflexivity.
      unfold with_stock; simpl. f_equal. lia.
    + rewrite bool_decide_eq_false_2 by congruence.
      unfold with_stock; simpl. f_equal.
  - rewrite bool_decide_eq_false_2 by discriminate.
    unfold with_stock; simpl. f_equal.
Qed.

Lemma decrement_line_id (item : sale_item_body) (ps : list product_row) :
  map p_id (map (decrement_line item) ps) = map p_id ps.
Proof.
  rewrite map_map. apply map_ext. intros p. unfold decrement_line.
  destruct (item_product_id item); [|reflexivity].
  destruct (Z.eqb (p_id p) z); reflexivity.
Qed.

(** The loop over the lines inside an open transaction. *)
Lemma sale_lines_inv (sale : sale_row) (items : list sale_item_body) :
  forall (w w' : world) (t : tables) (r : settled unit),
  w_txn w = Some t ->
  for_of items (sale_line sale) w = (r, w') ->
  same_committed w w' /\
  exists t', w_txn w' = Some t' /\
    (r = Resolved tt ->
     users t' = users t /\ sales t' = sales t /\
     products t' = option_map (map (decrement items)) (products t) /\
     sale_items t' =
       option_map (fun its => its ++ line_rows (s_id sale)
                                       (sale_items_id_seq (db_seqs (w_db w))) items)
                  (sale_items t) /\
     Forall (fun item => references (item_product_id item)
                           (option_map (map p_id) (products t)) = true) items /\
     (items <> [] -> exists its ps, sale_items t = Some its /\ products t = Some ps)).
Proof.
  induction items as [|item rest IH]; intros w w' t r Ht H.
  - simpl in H. unfold_M. simplify_eq. split; [apply same_committed_refl|].
    exists t. split; [assumption|]. intros _.
    split; [reflexivity|]. split; [reflexivity|].
    split; [destruct (products t); simpl; [rewrite decrement_nil|]; reflexivity|].
    split; [destruct (sale_items t); simpl; [rewrite app_nil_r|]; reflexivity|].
    split; [constructor | congruence].
  - simpl in H. unfold mbind, M_bind in H.
    destruct (sale_line sale item w) as [r1 w1] eqn:H1.
    destruct (sale_line_inv _ _ _ _ _ _ Ht H1) as (Hsame1 & t1 & Ht1 & Hok1).
    destruct r1 as [[]|e].
    + destruct (IH _ _ _ _ Ht1 H) as (Hsame & t' & Ht' & Hok).
      split; [eapply same_committed_trans; eassumption|].
      exists t'. split; [assumption|]. intros Hr.
      destruct (Hok1 eq_refl) as (its & ps & Hits & Hps & Href & Hseq & ->).
      destruct (Hok Hr) as (Hu & Hs & Hp & Hi & Hall & _); simpl in *.
      rewrite Hps, Hits; simpl.
      split; [assumption|]. split; [assumption|].
      split; [rewrite Hp; f_equal; rewrite map_map; apply map_ext;
              intros p; apply decrement_cons|].
      split; [rewrite Hi, Hseq, <- app_assoc; reflexivity|].
      split; [|eauto].
      constructor; [assumption|].
      rewrite decrement_line_id in Hall. assumption.
    + simplify_eq. split; [assumption|].
      exists t1. split; [assumption|]. discriminate.
Qed.

Lemma bind_inv {A B : Type} (m : M A) (k : A -> M B) (w w' : world) (r : settled B) :
  (m ≫= k) w = (r, w') ->
  (exists a w1, m w = (Resolved a, w1) /\ k a w1 = (r, w')) \/
  (exists e, m w = (Rejected e, w') /\ r = Rejected e).
Proof.
  unfold mbind, M_bind. destruct (m w) as [[a|e] w1]; intros H.
  - left. eauto.
  - right. simplify_eq. eauto.
Qed.

Lemma BEGIN_inv (w w' : world) (r : settled unit) :
  w_txn w = None ->
  client_query_BEGIN w = (r, w') ->
  same_committed w w' /\ w_db w' = w_db w /\
  ((exists e, r = Rejected e) \/
   (r = Resolved tt /\ w_txn w' = Some (db_tables (w_db w)))).
Proof.
  intros Ht. unfold client_query_BEGIN, client_call, next_fault. intros H.
  run_cases; try congruence.
  all: split; [close_same_committed|]; split; [reflexivity|]; eauto.
Qed.

Lemma insert_sale_inv (customer : option string) (total : Z) (user_id : option Z)
    (w w' : world) (t : tables) (r : settled sale_row) :
  w_txn w = Some t ->
  client_query (insert_sale customer total user_id) w = (r, w') ->
  same_committed w w' /\
  exists t', w_txn w' = Some t' /\
    forall sale, r = Resolved sale ->
      exists given c ss,
        customer = Some given /\ varchar 100 given = Some c /\
        sales t = Some ss /\
        sale = {| s_id := sales_id_seq (db_seqs (w_db w)) + 1;
                  s_date := CURRENT_DATE (w_now w); s_customer := c;
                  s_total := total; s_user_id := user_id;
                  s_created_at := w_now w |} /\
        t' = set_sales (Some (ss ++ [sale])) t /\
        sale_items_id_seq (db_seqs (w_db w')) = sale_items_id_seq (db_seqs (w_db w)).
Proof.
  intros Ht. unfold client_query, client_call, next_fault. unfold_M.
  unfold insert_sale, stored. intros H.
  destruct customer as [given|]; simpl in H;
    [destruct (varchar 100 given) as [c|] eqn:Hfit; simpl in H|].
  all: run_cases; try congruence.
  all: split; [close_same_committed|].
  all: eexists; split; [first [reflexivity | simpl; eassumption]|].
  all: intros sale Hs; inversion Hs; subst.
  all: eexists _, _, _; repeat split; eassumption.
Qed.

Lemma COMMIT_inv (w w' : world) (t : tables) (r : settled unit) :
  w_txn w = Some t ->
  client_query_COMMIT w = (r, w') ->
  (r = Resolved tt /\ db_tables (w_db w') = t /\ w_txn w' = None /\
   w_delivered w' = w_delivered w /\ w_sockets w' = w_sockets w) \/
  (exists e, r = Rejected e /\ same_committed w w') \/
  (r = Rejected ConnectionError /\ w_commit_reply_lost w = true /\
   db_tables (w_db w') = t /\ w_txn w' = None /\
   w_delivered w' = w_delivered w /\ w_sockets w' = w_sockets w).
Proof.
  intros Ht. unfold client_query_COMMIT, client_call, next_fault. intros H.
  run_cases; try congruence.
  all: first [ left; repeat split; reflexivity
             | right; left; eexists; split; [reflexivity | close_same_committed]
             | right; right; simpl in *; repeat split; congruence ].
Qed.

(** The try block of createSale, started with no transaction open: either
    it commits the whole sale, or it throws with the committed tables
    untouched and nothing announced.  When it has committed it announces the
    sale and answers, unless the reply to COMMIT was lost: then it throws
    with the sale stored. *)
Lemma sale_transaction_inv (caller : jwt_payload) (b : sale_body)
    (w w1 : world) (r : settled response) :
  w_txn w = None ->
  sale_transaction caller b w = (r, w1) ->
  (exists items customer ss,
     sb_items b = Some items /\
     (exists given, sb_customer b = Some given /\ varchar 100 given = Some customer) /\
     sales (db_tables (w_db w)) = Some ss /\
     db_tables (w_db w1) =
       {| users := users (db_tables (w_db w));
          products := option_map (map (decrement items))
                        (products (db_tables (w_db w)));
          sales := Some (ss ++ [recorded_sale caller customer items w]);
          sale_items :=
            option_map (fun its =>
                          its ++ line_rows (sales_id_seq (db_seqs (w_db w)) + 1)
                                   (sale_items_id_seq (db_seqs (w_db w))) items)
                       (sale_items (db_tables (w_db w))) |} /\
     w_txn w1 = None /\
     Forall (fun item => references (item_product_id item)
                           (option_map (map p_id) (products (db_tables (w_db w))))
                         = true) items /\
     (items <> [] ->
      exists its ps, sale_items (db_tables (w_db w)) = Some its /\
                     products (db_tables (w_db w)) = Some ps) /\
     ((r = Resolved {| res_status := 200;
                       res_body := BSale (recorded_sale caller customer items w) |} /\
       w_delivered w1 =
         w_delivered w ++
         map (fun sid => (sid, {| ev_name := "sale_created";
                                  ev_payload :=
                                    SaleCreated (recorded_sale caller customer items w)
                                      items (jp_name caller) |}))
             (w_sockets w)) \/
      (r = Rejected ConnectionError /\ w_commit_reply_lost w = true /\
       w_delivered w1 = w_delivered w))) \/
  (exists e, r = Rejected e /\ same_committed w w1).
Proof.
  intros Ht H. unfold sale_transaction in H.
  apply bind_inv in H as [([] & wa & Hbegin & H)|(e & Hbegin & ->)];
    destruct (BEGIN_inv _ _ _ Ht Hbegin) as (Sa & Hdb & [[e' He']|[He' Hta]]);
    simplify_eq; try (right; eauto; fail).
  apply bind_inv in H as [(items & wb & Hitems & H)|(e & Hitems & ->)];
    unfold defined_items in Hitems; destruct (sb_items b) as [items'|] eqn:Eitems;
    unfold_M; simplify_eq; try (right; eauto; fail).
  apply bind_inv in H as [(sale & wc & Hsale & H)|(e & Hsale & ->)];
    destruct (insert_sale_inv _ _ _ _ _ _ _ Hta Hsale) as (Sc & tc & Htc & Hc);
    [|right; eexists; split; [reflexivity|];
      eapply same_committed_trans; eassumption].
  destruct (Hc sale eq_refl) as (given & c & ss & Eg & Efit & Ess & Esale & -> & Eseq).
  apply bind_inv in H as [([] & wd & Hloop & H)|(e & Hloop & ->)];
    destruct (sale_lines_inv _ _ _ _ _ _ Htc Hloop) as (Sd & td & Htd & Hd);
    [|right; eexists; split; [reflexivity|];
      eapply same_committed_trans; [eassumption|];
      eapply same_committed_trans; eassumption].
  destruct (Hd eq_refl) as (Hu & Hs & Hp & Hi & Hall & Hne). simpl in *.
  assert (Sad : same_committed w wd)
    by (eapply same_committed_trans; [eassumption|];
        eapply same_committed_trans; eassumption).
  assert (Hstored : forall we,
             db_tables (w_db we) = td ->
             db_tables (w_db we) =
               {| users := users (db_tables (w_db w));
                  products := option_map (map (decrement items))
                                (products (db_tables (w_db w)));
                  sales := Some (ss ++ [recorded_sale caller c items w]);
                  sale_items :=
                    option_map (fun its =>
                                  its ++ line_rows (sales_id_seq (db_seqs (w_db w)) + 1)
                                           (sale_items_id_seq (db_seqs (w_db w))) items)
                               (sale_items (db_tables (w_db w))) |}).
  { intros we Hte. destruct Sa as (_ & _ & _ & _ & Ha5 & _).
    unfold recorded_sale. rewrite Hte. destruct td as [u p s0 i]. simpl in *.
    subst. rewrite Eseq, ?Hdb, ?Ha5. reflexivity. }
  apply bind_inv in H as [([] & we & Hcommit & H)|(e & Hcommit & ->)];
    destruct (COMMIT_inv _ _ _ _ Htd Hcommit)
      as [(He' & Hte & Htxn & Hdel & Hsock)
         |[(e' & He' & Se)|(He' & Hlost & Hte & Htxn & Hdel & Hsock)]];
    simplify_eq;
    try (right; eexists; split; [reflexivity|];
         eapply same_committed_trans; eassumption).
  - left. exists items, c, ss.
    destruct Sa as (Ha1 & Ha2 & Ha3 & Ha4 & Ha5 & _).
    destruct Sad as (Hd1 & Hd2 & Hd3 & Hd4 & Hd5 & _).
    split; [reflexivity|]. split; [eauto|].
    split; [first [assumption | rewrite <- Hdb; assumption]|].
    split; [apply Hstored; reflexivity|]. split; [assumption|].
    rewrite ?Hdb in *. split; [assumption|]. split; [assumption|].
    left. unfold io_emit, deliver in *. unfold_M. simplify_eq. simpl.
    unfold recorded_sale. rewrite ?Ha5, ?Hdb, Hdel, Hsock, Hd2, Hd3.
    split; reflexivity.
  - left. exists items, c, ss.
    destruct Sad as (Hd1 & Hd2 & Hd3 & Hd4 & Hd5 & Hd6 & _).
    split; [reflexivity|]. split; [eauto|].
    split; [first [assumption | rewrite <- Hdb; assumption]|].
    split; [apply Hstored; reflexivity|]. split; [assumption|].
    rewrite ?Hdb in *. split; [assumption|]. split; [assumption|].
    right. split; [reflexivity|]. split; congruence.
Qed.

Lemma pool_connect_inv (w w0 : world) (r : settled unit) :
  pool_connect w = (r, w0) ->
  same_committed w w0 /\ w_db w0 = w_db w /\ w_txn w0 = w_txn w /\
  ((r = Rejected ConnectionError /\ w_faults w = true :: w_faults w0) \/
   r = Resolved tt).
Proof.
  unfold pool_connect, client_call, next_fault. unfold_M. intros H.
  run_cases; try congruence.
  all: split; [close_same_committed|]; repeat split; auto.
Qed.

Lemma ROLLBACK_inv (w w' : world) (r : settled unit) :
  client_query_ROLLBACK w = (r, w') ->
  same_committed w w' /\
  ((r = Rejected ConnectionError /\ In true (w_faults w)) \/
   (r = Resolved tt /\ w_txn w' = None)).
Proof.
  unfold client_query_ROLLBACK, client_call, next_fault. intros H.
  run_cases; try congruence.
  all: split; [close_same_committed|].
  all: simpl; auto.
Qed.

Lemma finally_release {A : Type} (m : M A) (w : world) :
  finally m client_release w = m w.
Proof. unfold finally, client_release. unfold_M. destruct (m w); reflexivity. Qed.

Lemma same_committed_faults (w w' : world) :
  same_committed w w' -> In true (w_faults w') -> In true (w_faults w).
Proof.
  intros (_ & _ & _ & _ & _ & _ & used & ->) H. apply in_or_app. right. exact H.
Qed.

(** Every run of createSale that starts with no transaction open: the
    sale is stored, announced and answered 200; or nothing is stored and
    nothing announced; or the store committed the sale and the reply to
    COMMIT was lost, so that the sale is stored but neither announced nor
    answered 200. *)
Lemma createSale_inv (caller : jwt_payload) (b : sale_body)
    (w w' : world) (r : settled response) :
  w_txn w = None ->
  createSale caller b w = (r, w') ->
  (exists items customer ss,
     sb_items b = Some items /\
     (exists given, sb_customer b = Some given /\ varchar 100 given = Some customer) /\
     sales (db_tables (w_db w)) = Some ss /\
     r = Resolved {| res_status := 200;
                     res_body := BSale (recorded_sale caller customer items w) |} /\
     db_tables (w_db w') =
       {| users := users (db_tables (w_db w));
          products := option_map (map (decrement items))
                        (products (db_tables (w_db w)));
          sales := Some (ss ++ [recorded_sale caller customer items w]);
          sale_items :=
            option_map (fun its =>
                          its ++ line_rows (sales_id_seq (db_seqs (w_db w)) + 1)
                                   (sale_items_id_seq (db_seqs (w_db w))) items)
                       (sale_items (db_tables (w_db w))) |} /\
     w_delivered w' =
       w_delivered w ++
       map (fun sid => (sid, {| ev_name := "sale_created";
                                ev_payload :=
                                  SaleCreated (recorded_sale caller customer items w)
                                    items (jp_name caller) |}))
           (w_sockets w) /\
     w_txn w' = None /\
     Forall (fun item => references (item_product_id item)
                           (option_map (map p_id) (products (db_tables (w_db w))))
                         = true) items /\
     (items <> [] ->
      exists its ps, sale_items (db_tables (w_db w)) = Some its /\
                     products (db_tables (w_db w)) = Some ps)) \/
  (db_tables (w_db w') = db_tables (w_db w) /\
   w_delivered w' = w_delivered w /\
   ((r = Rejected ConnectionError /\ In true (w_faults w)) \/
    (exists msg, r = Resolved {| res_status := 500;
                                 res_body := BError (Some false) msg |} /\
                 w_txn w' = None))) \/
  (w_commit_reply_lost w = true /\
   w_delivered w' = w_delivered w /\
   (r = Rejected ConnectionError \/
    r = Resolved {| res_status := 500;
                    res_body := BError (Some false) (message ConnectionError) |}) /\
   exists items customer ss,
     sb_items b = Some items /\
     (exists given, sb_customer b = Some given /\ varchar 100 given = Some customer) /\
     sales (db_tables (w_db w)) = Some ss /\
     db_tables (w_db w') =
       {| users := users (db_tables (w_db w));
          products := option_map (map (decrement items))
                        (products (db_tables (w_db w)));
          sales := Some (ss ++ [recorded_sale caller customer items w]);
          sale_items :=
            option_map (fun its =>
                          its ++ line_rows (sales_id_seq (db_seqs (w_db w)) + 1)
                                   (sale_items_id_seq (db_seqs (w_db w))) items)
                       (sale_items (db_tables (w_db w))) |} /\
     Forall (fun item => references (item_product_id item)
                           (option_map (map p_id) (products (db_tables (w_db w))))
                         = true) items).
Proof.
  intros Ht H. rewrite createSale_blocks in H.
  apply bind_inv in H as [([] & w0 & Hconn & H)|(e & Hconn & ->)];
    destruct (pool_connect_inv _ _ _ Hconn) as (S0 & Hdb0 & Ht0 & Hr0).
  2:{ right. left. destruct S0 as (? & ? & _).
      destruct Hr0 as [[He Hf]|?]; [|discriminate]. simplify_eq.
      repeat split; try assumption. left. split; [reflexivity|].
      rewrite Hf. left. reflexivity. }
  rewrite finally_release in H. unfold try_catch in H.
  destruct (sale_transaction caller b w0) as [resp w1] eqn:Htx;
    rewrite Ht in Ht0;
    destruct (sale_transaction_inv _ _ _ _ _ Ht0 Htx)
      as [(items & c & ss & Hi & Hc & Hss & Htab & Htxn & Hall & Hne & Hend)
         |(e' & He' & S1)].
  - assert (Hrec : recorded_sale caller c items w0 = recorded_sale caller c items w).
    { destruct S0 as (_ & _ & _ & _ & Hn0 & _).
      unfold recorded_sale. rewrite Hdb0, Hn0. reflexivity. }
    rewrite Hrec, Hdb0 in *.
    destruct S0 as (_ & Hd0 & Hs0 & _ & _ & Hl0 & _).
    destruct Hend as [[-> Hdel]|(-> & Hlost & Hdel)].
    + left. simplify_eq. exists items, c, ss.
      rewrite Hd0, Hs0 in Hdel. repeat split; assumption.
    + right. right. rewrite Hl0 in Hlost. rewrite Hd0 in Hdel.
      apply bind_inv in H as [([] & w2 & Hrb & H)|(e & Hrb & ->)];
        destruct (ROLLBACK_inv _ _ _ Hrb) as (S2 & _).
      * unfold_M. simplify_eq.
        destruct S2 as (Ht2 & Hd2 & _).
        split; [assumption|]. split; [congruence|]. split; [right; reflexivity|].
        exists items, c, ss. rewrite Ht2. repeat split; assumption.
      * destruct S2 as (Ht2 & Hd2 & _).
        assert (e = ConnectionError) as ->.
        { unfold client_query_ROLLBACK, client_call, next_fault in Hrb.
          revert Hrb. run_cases; congruence. }
        split; [assumption|]. split; [congruence|]. split; [left; reflexivity|].
        exists items, c, ss. rewrite Ht2. repeat split; assumption.
  - right. left. subst resp.
    apply bind_inv in H as [([] & w2 & Hrb & H)|(e & Hrb & ->)];
      destruct (ROLLBACK_inv _ _ _ Hrb) as (S2 & Hr2).
    + unfold_M. simplify_eq.
      destruct Hr2 as [[? _]|[_ Htx2]]; [discriminate|].
      pose proof (same_committed_trans _ _ _ S0 (same_committed_trans _ _ _ S1 S2))
        as (? & ? & _).
      repeat split; try assumption. right. eauto.
    + destruct Hr2 as [[He Hf]|[? _]]; [|discriminate]. simplify_eq.
      pose proof (same_committed_trans _ _ _ S0 (same_committed_trans _ _ _ S1 S2))
        as (? & ? & _).
      repeat split; try assumption. left. split; [reflexivity|].
      eapply same_committed_faults;
        [eapply same_committed_trans; eassumption | assumption].
Qed.

(** X22. createSale never stores part of a sale: after a call the
    committed tables are either as they were, or hold the whole sale (its
    row with the request's customer, every line and every stock change).  A call that is not answered
    200 sends no event; it leaves the tables as they were unless the reply
    to COMMIT was lost after the store had committed, and while the store
    stays reachable it is answered 500. *)
Theorem createSale_all_or_nothing (caller : jwt_payload) (b : sale_body)
    (w w' : world) (r : settled response) :
  w_txn w = None ->
  createSale caller b w = (r, w') ->
  (db_tables (w_db w') = db_tables (w_db w) \/
   exists items customer ss,
     sb_items b = Some items /\
     (exists given, sb_customer b = Some given /\ varchar 100 given = Some customer) /\
     sales (db_tables (w_db w)) = Some ss /\
     db_tables (w_db w') =
       with_sale (recorded_sale caller customer items w) items ss
                 (sale_items_id_seq (db_seqs (w_db w))) (db_tables (w_db w))) /\
  ((forall resp, r = Resolved resp -> res_status resp <> 200) ->
   w_delivered w' = w_delivered w /\
   (w_commit_reply_lost w = false ->
    db_tables (w_db w') = db_tables (w_db w) /\
    (~ In true (w_faults w) ->
     exists msg, r = Resolved {| res_status := 500;
                                 res_body := BError (Some false) msg |}))).
Proof.
  intros Ht H.
  destruct (createSale_inv _ _ _ _ _ Ht H)
    as [(items & c & ss & Hi & Hc & Hss & Hr & Htab & _)
       |[(Htab & Hdel & Hr)
        |(Hlost & Hdel & Hr & items & c & ss & Hi & Hc & Hss & Htab & _)]].
  - split; [right; exists items, c, ss; repeat split; assumption|].
    intros Hfail. exfalso. apply (Hfail _ Hr). reflexivity.
  - split; [left; assumption|]. intros _.
    split; [assumption|]. intros _. split; [assumption|]. intros Hup.
    destruct Hr as [[_ Hf]|(msg & Hr & _)]; [contradiction | eauto].
  - split; [right; exists items, c, ss; repeat split; assumption|].
    intros _. split; [assumption|]. intros Hkept. congruence.
Qed.

Lemma references_In (k : Z) (ids : list Z) :
  references (Some k) (Some ids) = true -> In k ids.
Proof.
  simpl. intros H. apply existsb_exists in H as (x & Hx & E).
  apply Z.eqb_eq in E. subst. assumption.
Qed.

(** X23. A line that references a product that does not exist makes the
    whole request fail: the answer is not a 200 and the tables are as they
    were, the lines before it included. *)
Lemma createSale_unknown_product_fails (caller : jwt_payload) (b : sale_body)
    (w w' : world) (r : settled response)
    (items : list sale_item_body) (item : sale_item_body) (P : Z)
    (ps : list product_row) :
  w_txn w = None ->
  createSale caller b w = (r, w') ->
  sb_items b = Some items -> In item items -> item_product_id item = Some P ->
  products (db_tables (w_db w)) = Some ps -> ~ In P (map p_id ps) ->
  (forall resp, r = Resolved resp -> res_status resp <> 200) /\
  db_tables (w_db w') = db_tables (w_db w).
Proof.
  intros Ht H Hi Hin HP Hps Hno.
  destruct (createSale_inv _ _ _ _ _ Ht H)
    as [(items' & c & ss & Hi' & _ & _ & _ & _ & _ & _ & Hall & _)
       |[(Htab & _ & Hr)
        |(_ & _ & _ & items' & c & ss & Hi' & _ & _ & _ & Hall)]].
  - exfalso. rewrite Hi in Hi'. simplify_eq.
    rewrite Forall_forall in Hall. specialize (Hall _ Hin).
    rewrite HP, Hps in Hall. apply Hno, references_In, Hall.
  - split; [|assumption]. intros resp ->.
    destruct Hr as [[? _]|(msg & Hr & _)]; simplify_eq. simpl. lia.
  - exfalso. rewrite Hi in Hi'. simplify_eq.
    rewrite Forall_forall in Hall. specialize (Hall _ Hin).
    rewrite HP, Hps in Hall. apply Hno, references_In, Hall.
Qed.

Example createSale_unknown_product_rolled_back :
  createSale alice_token unknown_product_sale shop =
    (Resolved {| res_status := 500;
                 res_body := BError (Some false)
                   (message (ForeignKeyViolation "sale_items_product_id_fkey")) |},
     world_of shop_tables
       {| users_id_seq := 2; products_id_seq := 1; sales_id_seq := 1;
          sale_items_id_seq := 2 |} []).
Proof. vm_compute. reflexivity. Qed.

(** C1, where the code departs from it.  When the store refuses the
    connection, pool.connect() throws before the try block is entered: the
    handler rejects without sending any response, so the caller gets no
    500.  (Nothing is stored in that case either.) *)
Theorem createSale_connect_failure_unanswered
    (caller : jwt_payload) (b : sale_body) (w : world) (rest : list bool) :
  w_faults w = true :: rest ->
  createSale caller b w = (Rejected ConnectionError, set_faults rest w).
Proof.
  intros H. rewrite createSale_blocks.
  unfold pool_connect, client_call, next_fault. unfold_M.
  rewrite H. reflexivity.
Qed.

Lemma createSale_connect_failure_unanswered_witness :
  w_faults shop_store_down = [true] /\
  createSale alice_token one_line_sale shop_store_down =
    (Rejected ConnectionError, shop).
Proof.
  split; [reflexivity|].
  apply (createSale_connect_failure_unanswered alice_token one_line_sale
           shop_store_down []).
  reflexivity.
Defined.




Example one_line_sale_total : s_total sale_1_of_one_line = 3000.
Proof. reflexivity. Qed.

Lemma line_rows_In (sale_id : Z) (items : list sale_item_body) (item : sale_item_body) :
  forall seq, In item items ->
  exists n, In {| si_id := n; si_sale_id := Some sale_id;
                  si_product_id := item_product_id item;
                  si_quantity := item_quantity item;
                  si_unit_price := item_unit_price item;
                  si_total_price := item_quantity item * item_unit_price item |}
               (line_rows sale_id seq items).
Proof.
  induction items as [|x rest IH]; intros seq Hin; [contradiction|].
  destruct Hin as [->|Hin]; simpl.
  - eexists. left. reflexivity.
  - destruct (IH (seq + 1) Hin) as (n & Hn). eauto.
Qed.

(** A product referenced by one line only was sold that line's quantity:
    for such a line (P, Q) the stock of P goes down by Q. *)
Lemma sold_only_line (P : Z) (before after : list sale_item_body)
    (item : sale_item_body) :
  item_product_id item = Some P ->
  (forall other, In other (before ++ after) -> item_product_id other <> Some P) ->
  sold P (before ++ item :: after) = item_quantity item.
Proof.
  intros HP Hothers. induction before as [|x before IH]; simpl in *.
  - rewrite sold_cons, bool_decide_eq_true_2 by assumption.
    assert (sold P after = 0) as ->; [|lia].
    induction after as [|y after IH]; [reflexivity|].
    rewrite sold_cons, bool_decide_eq_false_2
      by (apply Hothers; left; reflexivity).
    rewrite IH; [reflexivity|]. intros; apply Hothers; right; assumption.
  - rewrite sold_cons, bool_decide_eq_false_2
      by (apply Hothers; left; reflexivity).
    rewrite IH; [reflexivity|]. intros; apply Hothers; right; assumption.
Qed.

(** C3, as the code has it.  After a createSale call that answers 200
    (the client it checked out had no transaction open), every product row
    has its stock lowered by the total quantity of the request's lines that
    reference it, [sold], and is otherwise unchanged; every line has a new
    sale_items row holding the sale's id, the line's product, quantity and
    unit_price, and quantity times unit_price as total; and every product a
    line references exists. *)
Theorem createSale_stock_and_line_snapshots
    (caller : jwt_payload) (b : sale_body) (w w' : world) (resp : response) :
  w_txn w = None ->
  createSale caller b w = (Resolved resp, w') ->
  res_status resp = 200 ->
  exists items sale,
    sb_items b = Some items /\ res_body resp = BSale sale /\
    (forall ps, products (db_tables (w_db w)) = Some ps ->
       products (db_tables (w_db w')) =
         Some (map (fun p => with_stock (p_stock p - sold (p_id p) items) p) ps)) /\
    (forall its, sale_items (db_tables (w_db w)) = Some its ->
       sale_items (db_tables (w_db w')) =
         Some (its ++ line_rows (s_id sale)
                        (sale_items_id_seq (db_seqs (w_db w))) items)) /\
    (forall item, In item items ->
       (exists n its',
          sale_items (db_tables (w_db w')) = Some its' /\
          In {| si_id := n; si_sale_id := Some (s_id sale);
                si_product_id := item_product_id item;
                si_quantity := item_quantity item;
                si_unit_price := item_unit_price item;
                si_total_price := item_quantity item * item_unit_price item |}
             its') /\
       (forall P, item_product_id item = Some P ->
          exists ps p, products (db_tables (w_db w)) = Some ps /\
                       In p ps /\ p_id p = P)).
Proof.
  intros Ht H Hst.
  destruct (createSale_inv _ _ _ _ _ Ht H)
    as [(items & c & ss & Hi & Hc & Hss & Hr & Htab & _ & _ & Hall & Hne)
       |[(_ & _ & Hr)|(_ & _ & Hr & _)]].
  2:{ exfalso. destruct Hr as [[? _]|(msg & Hr & _)]; simplify_eq. }
  2:{ exfalso. destruct Hr as [?|?]; simplify_eq. }
  simplify_eq. exists items, (recorded_sale caller c items w).
  rewrite Htab. simpl.
  split; [assumption|]. split; [reflexivity|].
  split; [intros ps ->; reflexivity|].
  split; [intros its ->; reflexivity|].
  intros item Hin.
  destruct Hne as (its & ps & Hits & Hps); [intros ->; contradiction|].
  rewrite Hits, Hps in *. simpl. split.
  - destruct (line_rows_In (sales_id_seq (db_seqs (w_db w)) + 1) items item
                (sale_items_id_seq (db_seqs (w_db w))) Hin) as (n & Hn).
    exists n. eexists. split; [reflexivity|]. apply in_or_app. right. exact Hn.
  - intros P HP. rewrite Forall_forall in Hall. specialize (Hall _ Hin).
    rewrite HP in Hall. apply references_In, in_map_iff in Hall
      as (p & Hp & Hpin).
    exists ps, p. auto.
Qed.

Lemma createSale_stock_and_line_snapshots_witness :
  (w_txn shop = None /\
   createSale alice_token two_lines_same_product shop =
     (Resolved {| res_status := 200; res_body := BSale sale_1_of_two_lines |},
      shop_after_two_lines)) /\
  products (db_tables (w_db shop_after_two_lines)) = Some [with_stock 17 cd_a] /\
  sale_items (db_tables (w_db shop_after_two_lines))
    = Some [ {| si_id := 1; si_sale_id := Some 1; si_product_id := Some 1;
                si_quantity := 1; si_unit_price := 1000; si_total_price := 1000 |};
             {| si_id := 2; si_sale_id := Some 1; si_product_id := Some 1;
                si_quantity := 2; si_unit_price := 1000; si_total_price := 2000 |} ].
Proof.
  assert (Hrun : createSale alice_token two_lines_same_product shop =
                 (Resolved {| res_status := 200;
                              res_body := BSale sale_1_of_two_lines |},
                  shop_after_two_lines))
    by (vm_compute; reflexivity).
  split; [split; [reflexivity | exact Hrun]|].
  destruct (createSale_stock_and_line_snapshots alice_token two_lines_same_product
              shop shop_after_two_lines _ eq_refl Hrun eq_refl)
    as (items & sale & Hi & Hs & Hp & Hl & _).
  injection Hi as <-. injection Hs as <-.
  split.
  - exact (Hp [cd_a] eq_refl).
  - exact (Hl [] eq_refl).
Defined.

(** C3 as stated fails when a product is on two lines: the sale of one
    and of two CD-A lowers the stock from 20 to 17, which is 20 - 1 for
    neither and 20 - 2 for neither. *)
Lemma stock_minus_line_quantity_counterexample :
  ~ (forall (caller : jwt_payload) (b : sale_body) (w w' : world) (resp : response)
            (items : list sale_item_body) (item : sale_item_body) (P : Z)
            (ps ps' : list product_row) (p p' : product_row),
       w_txn w = None ->
       createSale caller b w = (Resolved resp, w') ->
       res_status resp = 200 ->
       sb_items b = Some items -> In item items -> item_product_id item = Some P ->
       products (db_tables (w_db w)) = Some ps -> In p ps -> p_id p = P ->
       products (db_tables (w_db w')) = Some ps' -> In p' ps' -> p_id p' = P ->
       p_stock p' = p_stock p - item_quantity item).
Proof.
  intros claim.
  assert (Hrun : createSale alice_token two_lines_same_product shop =
                 (Resolved {| res_status := 200;
                              res_body := BSale sale_1_of_two_lines |},
                  shop_after_two_lines))
    by (vm_compute; reflexivity).
  specialize (claim alice_token two_lines_same_product shop shop_after_two_lines
                _ [line 1 1 1000; line 1 2 1000] (line 1 1 1000) 1
                [cd_a] [with_stock 17 cd_a] cd_a (with_stock 17 cd_a)
                eq_refl Hrun eq_refl eq_refl (or_introl eq_refl) eq_refl
                eq_refl (or_introl eq_refl) eq_refl
                eq_refl (or_introl eq_refl) eq_refl).
  simpl in claim. lia.
Qed.

(** ** Real-time events *)

(** C7, as the code has it.  After a createSale call that answers 200
    (the client it checked out had no transaction open), the sale_created
    event, carrying the sale, the request's items and the caller's name, has
    been delivered once to every connected socket, in connection order,
    whoever made the sale. *)
Theorem createSale_event_to_every_socket
    (caller : jwt_payload) (b : sale_body) (w w' : world) (resp : response) :
  w_txn w = None ->
  createSale caller b w = (Resolved resp, w') ->
  res_status resp = 200 ->
  exists items sale,
    sb_items b = Some items /\ res_body resp = BSale sale /\
    w_delivered w' =
      w_delivered w ++
      map (fun sid => (sid, {| ev_name := "sale_created";
                               ev_payload := SaleCreated sale items (jp_name caller) |}))
          (w_sockets w) /\
    forall sid, In sid (w_sockets w) ->
      In (sid, {| ev_name := "sale_created";
                  ev_payload := SaleCreated sale items (jp_name caller) |})
         (w_delivered w').
Proof.
  intros Ht H Hst.
  destruct (createSale_inv _ _ _ _ _ Ht H)
    as [(items & c & ss & Hi & Hc & Hss & Hr & _ & Hdel & _)
       |[(_ & _ & Hr)|(_ & _ & Hr & _)]].
  2:{ exfalso. destruct Hr as [[? _]|(msg & Hr & _)]; simplify_eq. }
  2:{ exfalso. destruct Hr as [?|?]; simplify_eq. }
  simplify_eq. exists items, (recorded_sale caller c items w).
  split; [assumption|]. split; [reflexivity|]. split; [assumption|].
  intros sid Hsid. rewrite Hdel. apply in_or_app. right.
  apply in_map_iff. exists sid. auto.
Qed.

Lemma createSale_event_to_every_socket_witness :
  (w_txn shop = None /\
   createSale alice_token one_line_sale shop =
     (Resolved {| res_status := 200; res_body := BSale sale_1_of_one_line |},
      shop_after_one_line)) /\
  w_delivered shop_after_one_line =
    [ ("sock-A", sale_1_created); ("sock-B", sale_1_created) ].
Proof.
  assert (Hrun : createSale alice_token one_line_sale shop =
                 (Resolved {| res_status := 200;
                              res_body := BSale sale_1_of_one_line |},
                  shop_after_one_line))
    by (vm_compute; reflexivity).
  split; [split; [reflexivity | exact Hrun]|].
  destruct (createSale_event_to_every_socket alice_token one_line_sale shop
              shop_after_one_line _ eq_refl Hrun eq_refl)
    as (items & sale & Hi & Hs & Hd & _).
  injection Hi as <-. injection Hs as <-. exact Hd.
Defined.

(** C7 as stated fails: the socket on which the seller is authenticated
    is sent the seller's own sale_created event. *)
Lemma sale_created_echo_counterexample :
  ~ (forall (caller : jwt_payload) (b : sale_body) (w w' : world) (resp : response)
            (sid : string) (ud : user_data) (e : event),
       w_txn w = None ->
       createSale caller b w = (Resolved resp, w') ->
       res_status resp = 200 ->
       In sid (w_sockets w) ->
       w_activeUsers w !! sid = Some ud -> ud_id ud = jp_id caller ->
       ev_name e = "sale_created" ->
       In (sid, e) (w_delivered w') -> In (sid, e) (w_delivered w)).
Proof.
  intros claim.
  assert (Hrun : createSale alice_token one_line_sale shop =
                 (Resolved {| res_status := 200;
                              res_body := BSale sale_1_of_one_line |},
                  shop_after_one_line))
    by (vm_compute; reflexivity).
  apply (claim alice_token one_line_sale shop shop_after_one_line _
           "sock-A" {| ud_id := 1; ud_full_name := "Alice" |} sale_1_created
           eq_refl Hrun eq_refl (or_introl eq_refl)
           (lookup_singleton_eq _ _) eq_refl eq_refl (or_introl eq_refl)).
Qed.

(** The relay of a client's own 'sale_created' message is what skips the
    sender: it goes to every connected socket but the sending one. *)
Lemma on_sale_created_skips_sender (socket_id data : string) (w : world) :
  exists e,
    on_sale_created socket_id data w =
      (Resolved tt,
       set_delivered
         (w_delivered w ++
          map (fun sid => (sid, e))
              (List.filter (fun sid => negb (String.eqb sid socket_id)) (w_sockets w)))
         w) /\
    ev_name e = "sale_created" /\
    ~ In (socket_id, e)
         (map (fun sid => (sid, e))
              (List.filter (fun sid => negb (String.eqb sid socket_id)) (w_sockets w))).
Proof.
  eexists. split; [reflexivity|]. split; [reflexivity|].
  intros Hin. apply in_map_iff in Hin as (sid & E & Hf).
  apply filter_In in Hf as (_ & Hne). injection E as ->.
  rewrite String.eqb_refl in Hne. discriminate.
Qed.

(** The presence registry: a socket that announced itself is remembered
    until it disconnects. *)
Lemma on_authenticate_remembers (socket_id : string) (userData : user_data)
    (w : world) :
  w_activeUsers (snd (on_authenticate socket_id userData w)) !! socket_id
  = Some userData.
Proof. simpl. apply lookup_insert_eq. Qed.

Lemma on_disconnect_forgets (socket_id : string) (w : world) :
  w_activeUsers (snd (on_disconnect socket_id w)) !! socket_id = None /\
  ~ In socket_id (w_sockets (snd (on_disconnect socket_id w))).
Proof.
  unfold on_disconnect. simpl.
  destruct (w_activeUsers w !! socket_id) as [userData|] eqn:E; simpl.
  - split; [apply lookup_delete_eq|].
    intros Hin. apply filter_In in Hin as (_ & Hne).
    rewrite String.eqb_refl in Hne. discriminate.
  - split; [exact E|].
    intros Hin. apply filter_In in Hin as (_ & Hne).
    rewrite String.eqb_refl in Hne. discriminate.
Qed.

(** ** Database initialisation *)

(** C10, as the code has it.  Run against a database that has none of the
    four tables, initializeDatabase creates them and inserts the account
    'Super Admin' (admin@disc.com) with role superadmin and status active,
    as user 1.  The users table is then not empty, so every registration
    that follows creates a cashier with status pending and
    requiresApproval true. *)
Theorem initializeDatabase_seeds_admin
    (bcrypt_hash : string -> Z -> string) (w : world) :
  db_tables (w_db w) = no_tables ->
  exists w1 admin,
    initializeDatabase bcrypt_hash w = (Resolved tt, w1) /\
    admin = {| u_id := 1; u_full_name := "Super Admin";
               u_email := "admin@disc.com";
               u_password := bcrypt_hash "admin123" 10;
               u_role := Some "superadmin"; u_status := Some "active";
               u_bio := None; u_created_at := w_now w;
               u_last_login := None |} /\
    db_tables (w_db w1) =
      {| users := Some [admin]; products := Some []; sales := Some [];
         sale_items := Some [] |} /\
    forall b r w2,
      register bcrypt_hash b w1 = (r, w2) ->
      (users (db_tables (w_db w2)) = Some [admin] /\
       forall resp, r = Resolved resp -> res_status resp <> 200) \/
      (exists row msg,
         users (db_tables (w_db w2)) = Some [admin; row] /\
         r = Resolved {| res_status := 200;
                         res_body := BRegistered msg (returned_user row true) true |} /\
         u_role row = Some "cashier" /\ u_status row = Some "pending").
Proof.
  intros Hfresh. eexists _, _.
  split.
  { unfold initializeDatabase. unfold_M.
    unfold select_users_columns, create_table_users, create_table_products,
      create_table_sales, create_table_sale_items, insert_user.
    rewrite Hfresh. simpl. reflexivity. }
  split; [reflexivity|]. split; [reflexivity|].
  intros b r w2 Hreg.
  eapply register_after_the_first in Hreg;
    [exact Hreg | reflexivity | discriminate].
Qed.

Lemma initializeDatabase_seeds_admin_witness :
  db_tables (w_db fresh_database) = no_tables /\
  initializeDatabase demo_hash fresh_database =
    (Resolved tt,
     world_of {| users := Some [ {| u_id := 1; u_full_name := "Super Admin";
                                    u_email := "admin@disc.com";
                                    u_password := "$2a$admin123";
                                    u_role := Some "superadmin";
                                    u_status := Some "active"; u_bio := None;
                                    u_created_at := 86400000;
                                    u_last_login := None |} ];
                 products := Some []; sales := Some []; sale_items := Some [] |}
              (set_users_id_seq 1 zero_seqs) []) /\
  fst (register demo_hash alice_registration
         (snd (initializeDatabase demo_hash fresh_database))) =
    Resolved {| res_status := 200;
                res_body := BRegistered
                  "Registration successful! Please wait for admin approval."
                  {| uv_id := 2; uv_full_name := "Alice"; uv_email := "a@x.com";
                     uv_role := Some "cashier"; uv_status := Some "pending";
                     uv_created_at := Some 86400000 |} true |}.
Proof.
  split; [reflexivity|].
  destruct (initializeDatabase_seeds_admin demo_hash fresh_database eq_refl)
    as (w1 & admin & Hinit & Hadmin & Htab & Hreg).
  split; vm_compute; reflexivity.
Defined.

(** C10 as stated fails for a database that lacks the users table but has
    a products table: CREATE TABLE products throws, the error is swallowed,
    no account is inserted, and the first registration becomes the
    superadmin. *)
Lemma initializeDatabase_counterexample :
  ~ (forall (bcrypt_hash : string -> Z -> string) (w : world),
       users (db_tables (w_db w)) = None ->
       exists admin,
         users (db_tables (w_db (snd (initializeDatabase bcrypt_hash w))))
           = Some [admin] /\
         u_role admin = Some "superadmin" /\ u_status admin = Some "active") /\
  ~ (forall (bcrypt_hash : string -> Z -> string) (w w2 : world)
            (b : register_body) (msg : string) (row : user_row) (ra : bool),
       users (db_tables (w_db w)) = None ->
       register bcrypt_hash b (snd (initializeDatabase bcrypt_hash w)) =
         (Resolved {| res_status := 200;
                      res_body := BRegistered msg (returned_user row true) ra |}, w2) ->
       u_role row = Some "cashier" /\ u_status row = Some "pending").
Proof.
  split.
  - intros claim.
    destruct (claim demo_hash products_only eq_refl) as (admin & Hus & _).
    vm_compute in Hus. discriminate Hus.
  - intros claim.
    assert (Hrun : register demo_hash alice_registration
                     (snd (initializeDatabase demo_hash products_only)) =
                   (Resolved {| res_status := 200;
                                res_body := BRegistered
                                  "Super Admin created successfully!"
                                  (returned_user alice_registered true) false |},
                    snd (register demo_hash alice_registration
                           (snd (initializeDatabase demo_hash products_only)))))
      by (vm_compute; reflexivity).
    destruct (claim demo_hash products_only _ alice_registration _ _ _
                eq_refl Hrun) as [Hrole _].
    discriminate Hrole.
Qed.

(** ** Valid requests go through *)

(** An active user who gives the right password is handed a token. *)
Lemma login_succeeds (bcrypt_compare : string -> string -> bool)
    (JWT_SECRET : string) (b : login_body) (w : world)
    (email password : string) (us rest : list user_row) (user : user_row) :
  lb_email b = Some email -> lb_password b = Some password ->
  users (db_tables (w_db w)) = Some us ->
  List.filter (email_is (Some email)) us = user :: rest ->
  bcrypt_compare password (u_password user) = true ->
  u_status user = Some "active" ->
  exists tok w',
    login bcrypt_compare JWT_SECRET b w =
      (Resolved {| res_status := 200;
                   res_body := BLoggedIn "Login successful" tok
                                 (returned_user user false) |}, w') /\
    issued_token (fst (login bcrypt_compare JWT_SECRET b w)) = Some tok.
Proof.
  intros Hem Hpw Hus Hf Hok Hact.
  destruct (login bcrypt_compare JWT_SECRET b w) as [r w'] eqn:Hrun.
  revert Hrun. unfold login. unfold_M.
  unfold select_users_by_email, update_last_login.
  rewrite Hem, Hpw, Hus. simpl. rewrite Hf, Hok, Hact. simpl. rewrite Hus.
  simpl. intros Hrun. simplify_eq.
  eexists _, _. split; reflexivity.
Qed.








(** * More properties *)

(** ** ORDER BY *)

Lemma insert_by_perm {A : Type} (before : A -> A -> bool) (x : A) (l : list A) :
  Permutation (insert_by before x l) (x :: l).
Proof.
  induction l as [|y l IH]; simpl; [reflexivity|].
  destruct (before x y); [reflexivity|].
  rewrite IH. apply perm_swap.
Qed.

Lemma order_by_perm {A : Type} (before : A -> A -> bool) (l : list A) :
  Permutation (order_by before l) l.
Proof.
  induction l as [|x l IH]; simpl; [reflexivity|].
  rewrite insert_by_perm. constructor. exact IH.
Qed.

Lemma order_by_In {A : Type} (before : A -> A -> bool) (l : list A) (x : A) :
  In x (order_by before l) <-> In x l.
Proof.
  split; apply Permutation_in; [|symmetry]; apply order_by_perm.
Qed.

Lemma insert_by_sorted {A : Type} (before : A -> A -> bool) (x : A) (l : list A) :
  (forall a b, before a b = false -> before b a = true) ->
  Sorted (fun a b => before a b = true) l ->
  Sorted (fun a b => before a b = true) (insert_by before x l).
Proof.
  intros Htotal Hs. induction Hs as [|y l Hs IH Hd]; simpl.
  - repeat constructor.
  - destruct (before x y) eqn:E.
    + constructor; [constructor; assumption|]. constructor. exact E.
    + constructor; [exact IH|].
      destruct Hd as [|z l Hz]; simpl.
      * constructor. apply Htotal, E.
      * destruct (before x z); constructor; [apply Htotal, E | exact Hz].
Qed.

Lemma order_by_sorted {A : Type} (before : A -> A -> bool) (l : list A) :
  (forall a b, before a b = false -> before b a = true) ->
  Sorted (fun a b => before a b = true) (order_by before l).
Proof.
  intros Htotal. induction l as [|x l IH]; simpl; [constructor|].
  apply insert_by_sorted; assumption.
Qed.

(** ** The bearer token *)

Lemma split_on_no_space (s : string) :
  has_space s = false -> split_on " "%char s = [s].
Proof.
  induction s as [|c s IH]; simpl; [reflexivity|].
  intros H. apply orb_false_iff in H as [Hc Hs].
  rewrite Hc, (IH Hs). reflexivity.
Qed.

Lemma split_on_space (a b : string) :
  has_space a = false ->
  split_on " "%char (String.append a (String " "%char b)) = a :: split_on " "%char b.
Proof.
  induction a as [|c a IH]; simpl; [reflexivity|].
  intros H. apply orb_false_iff in H as [Hc Ha].
  rewrite Hc, (IH Ha). reflexivity.
Qed.

Lemma append_not_empty (a : string) (c : ascii) (b : string) :
  String.eqb (String.append a (String c b)) "" = false.
Proof. destruct a; reflexivity. Qed.

(** The second word of "<word> <token>" and of "<word> <token> <rest>". *)
Lemma bearer_token_second_word (word tok : string) (rest : option string) :
  has_space word = false -> has_space tok = false ->
  bearer_token
    (Some (String.append word
             (String " "%char
                (match rest with
                 | None => tok
                 | Some r => String.append tok (String " "%char r)
                 end))))
  = Some tok.
Proof.
  intros Hw Ht. unfold bearer_token.
  rewrite append_not_empty, (split_on_space _ _ Hw).
  destruct rest as [r|]; simpl.
  - rewrite (split_on_space _ _ Ht). reflexivity.
  - rewrite (split_on_no_space _ Ht). reflexivity.
Qed.

(** X1. A request with no Authorization header, or with a header value
    that holds no space (a bare token, a bare "Bearer", the empty string),
    is answered 401 "Access token required": the rest of the route is not
    run and nothing changes. *)
Theorem authenticateToken_without_token
    (jwt_verify : string -> string -> Z -> option jwt_payload) (JWT_SECRET : string)
    (R : Type) (authorization : option string) (next : jwt_payload -> M R) (w : world) :
  authorization = None \/
  (exists h, authorization = Some h /\ has_space h = false) ->
  authenticateToken jwt_verify JWT_SECRET authorization next w =
    (Resolved (inl {| res_status := 401;
                      res_body := BError None "Access token required" |}), w).
Proof.
  intros [->|(h & -> & Hh)]; [reflexivity|].
  unfold authenticateToken, bearer_token.
  destruct (String.eqb h "") eqn:E; [reflexivity|].
  rewrite (split_on_no_space _ Hh). reflexivity.
Qed.

Lemma authenticateToken_without_token_witness :
  (Some "alice.jwt" = None \/
   (exists h, Some "alice.jwt" = Some h /\ has_space h = false)) /\
  authenticateToken demo_verify "s3cret" (Some "alice.jwt")
    (fun user => approve user 2) shop =
    (Resolved (inl {| res_status := 401;
                      res_body := BError None "Access token required" |}), shop).
Proof.
  assert (H : Some "alice.jwt" = None \/
              (exists h, Some "alice.jwt" = Some h /\ has_space h = false))
    by (right; exists "alice.jwt"; split; reflexivity).
  split; [exact H|].
  exact (authenticateToken_without_token demo_verify "s3cret" response
           (Some "alice.jwt") (fun user => approve user 2) shop H).
Defined.

(** X2. For a header "<word> <token>" or "<word> <token> <rest>", where
    word and token hold no space and the token is not empty, the word is
    not looked at (it need not be "Bearer") and the rest is ignored: when
    jwt.verify refuses the token the answer is 403 "Invalid or expired
    token" and nothing changes; when it accepts, the rest of the route runs
    with the verified payload as req.user and its outcome is the
    request's. *)
Theorem authenticateToken_second_word_decides
    (jwt_verify : string -> string -> Z -> option jwt_payload) (JWT_SECRET : string)
    (R : Type) (word tok : string) (rest : option string)
    (next : jwt_payload -> M R) (w : world) :
  has_space word = false -> has_space tok = false -> tok <> "" ->
  authenticateToken jwt_verify JWT_SECRET
    (Some (String.append word
             (String " "%char
                (match rest with
                 | None => tok
                 | Some r => String.append tok (String " "%char r)
                 end))))
    next w =
  match jwt_verify tok JWT_SECRET (w_now w) with
  | None =>
      (Resolved (inl {| res_status := 403;
                        res_body := BError None "Invalid or expired token" |}), w)
  | Some user =>
      match next user w with
      | (Resolved r, w') => (Resolved (inr r), w')
      | (Rejected e, w') => (Rejected e, w')
      end
  end.
Proof.
  intros Hw Ht Hne. unfold authenticateToken.
  rewrite (bearer_token_second_word _ _ _ Hw Ht). simpl.
  apply String.eqb_neq in Hne. rewrite Hne.
  destruct (jwt_verify tok JWT_SECRET (w_now w)); [|reflexivity].
  unfold mbind, M_bind, mret, M_ret.
  destruct (next j w) as [[r|e] w']; reflexivity.
Qed.

Lemma authenticateToken_second_word_decides_witness :
  (has_space "Basic" = false /\ has_space "alice.jwt" = false /\
   "alice.jwt" <> "") /\
  authenticateToken demo_verify "s3cret" (Some "Basic alice.jwt and more")
    (fun user => approve user 2) shop =
  match approve alice_token 2 shop with
  | (Resolved r, w') => (Resolved (inr r), w')
  | (Rejected e, w') => (Rejected e, w')
  end.
Proof.
  assert (Hne : "alice.jwt" <> "") by discriminate.
  split; [repeat split; exact Hne|].
  exact (authenticateToken_second_word_decides demo_verify "s3cret" response
           "Basic" "alice.jwt" (Some "and more") (fun user => approve user 2) shop
           eq_refl eq_refl Hne).
Defined.

(** ** Listing the pending users *)

Lemma user_newer_total (a b : user_row) :
  user_newer a b = false -> user_newer b a = true.
Proof. unfold user_newer. rewrite Z.leb_gt, Z.leb_le. lia. Qed.

(** What getPendingUsers does, step by step. *)
Lemma getPendingUsers_run (caller : jwt_payload) (w : world) :
  getPendingUsers caller w =
  if negb (is_admin_role (jp_role caller)) then
    (Resolved {| lr_status := 403;
                 lr_body := LError None "Access denied. Admin only." |}, w)
  else
    match users (db_tables (w_db w)) with
    | None =>
        (Resolved {| lr_status := 500;
                     lr_body := LError (Some false)
                                  (message (UndefinedTable "users")) |}, w)
    | Some us =>
        (Resolved {| lr_status := 200;
                     lr_body :=
                       LPending
                         (map (fun u => returned_user u true)
                            (order_by user_newer
                               (List.filter
                                  (fun u => bool_decide (u_status u = Some "pending"))
                                  us))) |}, w)
    end.
Proof.
  unfold getPendingUsers. unfold_M. unfold select_users_with_status.
  destruct (negb (is_admin_role (jp_role caller))); [reflexivity|].
  destruct (users (db_tables (w_db w))); simpl; rewrite set_db_same; reflexivity.
Qed.

(** X3. GET /api/users/pending answers 403 to a caller whose role is
    neither superadmin nor admin.  To a superadmin or admin it answers 200
    with the users whose status is 'pending', each of them once and no
    others, the most recently created first.  In both cases nothing
    changes. *)
Theorem getPendingUsers_lists_the_pending (caller : jwt_payload) (w : world) :
  (jp_role caller <> Some "superadmin" -> jp_role caller <> Some "admin" ->
   getPendingUsers caller w =
     (Resolved {| lr_status := 403;
                  lr_body := LError None "Access denied. Admin only." |}, w)) /\
  (jp_role caller = Some "superadmin" \/ jp_role caller = Some "admin" ->
   forall us, users (db_tables (w_db w)) = Some us ->
   exists rows,
     getPendingUsers caller w =
       (Resolved {| lr_status := 200;
                    lr_body := LPending (map (fun u => returned_user u true) rows) |},
        w) /\
     Permutation rows
       (List.filter (fun u => bool_decide (u_status u = Some "pending")) us) /\
     Sorted (fun a b => u_created_at b <= u_created_at a) rows).
Proof.
  rewrite getPendingUsers_run. split.
  - intros H1 H2.
    destruct (is_admin_role (jp_role caller)) eqn:E; [|reflexivity].
    apply is_admin_role_iff in E. tauto.
  - intros Hrole us Hus. apply is_admin_role_iff in Hrole.
    rewrite Hrole, Hus. simpl. eexists. split; [reflexivity|].
    split; [apply order_by_perm|].
    eapply Sorted_ind with (P := fun l => Sorted _ l);
      [constructor | | apply (order_by_sorted user_newer _ user_newer_total)].
    intros a l _ IH Hd. constructor; [exact IH|].
    destruct Hd as [|b l Hb]; constructor.
    unfold user_newer in Hb. apply Z.leb_le in Hb. exact Hb.
Qed.

Lemma getPendingUsers_lists_the_pending_witness :
  getPendingUsers bob_token shop =
    (Resolved {| lr_status := 403;
                 lr_body := LError None "Access denied. Admin only." |}, shop) /\
  exists rows,
    getPendingUsers alice_token shop =
      (Resolved {| lr_status := 200;
                   lr_body := LPending (map (fun u => returned_user u true) rows) |},
       shop) /\
    Permutation rows
      (List.filter (fun u => bool_decide (u_status u = Some "pending")) [alice; bob]) /\
    Sorted (fun a b => u_created_at b <= u_created_at a) rows.
Proof.
  split.
  - apply (getPendingUsers_lists_the_pending bob_token shop); discriminate.
  - apply (getPendingUsers_lists_the_pending alice_token shop).
    + left; reflexivity.
    + reflexivity.
Defined.

Lemma pending_after_approved (id : Z) (us : list user_row) :
  List.filter (fun u => bool_decide (u_status u = Some "pending"))
              (map (approved id) us) =
  List.filter (fun u => bool_decide (u_status u = Some "pending")
                        && negb (Z.eqb (u_id u) id)) us.
Proof.
  induction us as [|u us IH]; simpl; [reflexivity|].
  rewrite IH. unfold approved.
  destruct (Z.eqb (u_id u) id); simpl.
  - rewrite andb_false_r. reflexivity.
  - rewrite andb_true_r. reflexivity.
Qed.

(** X4. After a superadmin or admin has approved user [id], the pending
    listing shows the users that were pending before, except those with
    that id: an approved user is never still listed, and nobody else
    drops out. *)
Theorem approve_then_not_pending
    (caller lister : jwt_payload) (id : Z) (w w' : world) (r : settled response)
    (us : list user_row) :
  is_admin_role (jp_role caller) = true ->
  is_admin_role (jp_role lister) = true ->
  users (db_tables (w_db w)) = Some us ->
  approve caller id w = (r, w') ->
  exists rows,
    getPendingUsers lister w' =
      (Resolved {| lr_status := 200;
                   lr_body := LPending (map (fun u => returned_user u true) rows) |},
       w') /\
    Permutation rows
      (List.filter (fun u => bool_decide (u_status u = Some "pending")
                             && negb (Z.eqb (u_id u) id)) us) /\
    (forall u, In u rows -> u_id u <> id).
Proof.
  intros Hc Hl Hus. rewrite approve_run, Hc, Hus. simpl. intros H.
  apply (f_equal snd) in H. simpl in H. subst w'.
  rewrite getPendingUsers_run, Hl. simpl. rewrite pending_after_approved.
  eexists. split; [reflexivity|]. split; [apply order_by_perm|].
  intros u Hin. apply order_by_In, filter_In in Hin as (_ & Hu).
  apply andb_true_iff in Hu as (_ & Hne). apply negb_true_iff, Z.eqb_neq in Hne.
  exact Hne.
Qed.

Lemma approve_then_not_pending_witness :
  getPendingUsers alice_token shop =
    (Resolved {| lr_status := 200;
                 lr_body := LPending [returned_user bob true] |}, shop) /\
  exists rows,
    getPendingUsers alice_token (snd (approve alice_token 2 shop)) =
      (Resolved {| lr_status := 200;
                   lr_body := LPending (map (fun u => returned_user u true) rows) |},
       snd (approve alice_token 2 shop)) /\
    Permutation rows
      (List.filter (fun u => bool_decide (u_status u = Some "pending")
                             && negb (Z.eqb (u_id u) 2)) [alice; bob]) /\
    (forall u, In u rows -> u_id u <> 2).
Proof.
  split; [vm_compute; reflexivity|].
  apply (approve_then_not_pending alice_token alice_token 2 shop
           (snd (approve alice_token 2 shop)) (fst (approve alice_token 2 shop))
           [alice; bob]); reflexivity.
Defined.

(** X5. A registration that is not the first one puts the new account on
    the pending listing: whenever register answers 200 on a users table
    that already holds a row, the account it returns is among those an
    admin is then shown by GET /api/users/pending. *)
Theorem register_then_pending
    (bcrypt_hash : string -> Z -> string) (b : register_body) (lister : jwt_payload)
    (w w' : world) (resp : response) (us : list user_row) :
  users (db_tables (w_db w)) = Some us -> us <> [] ->
  is_admin_role (jp_role lister) = true ->
  register bcrypt_hash b w = (Resolved resp, w') -> res_status resp = 200 ->
  exists msg account listed,
    res_body resp = BRegistered msg account true /\
    getPendingUsers lister w' =
      (Resolved {| lr_status := 200; lr_body := LPending listed |}, w') /\
    In account listed.
Proof.
  intros Hus Hne Hl Hreg Hst.
  destruct (register_after_the_first _ _ _ _ _ _ Hus Hne Hreg)
    as [[_ Hno]|(row & msg & Hus' & Hr & _ & Hpending)].
  { exfalso. apply (Hno resp eq_refl Hst). }
  injection Hr as ->. exists msg, (returned_user row true). eexists.
  split; [reflexivity|].
  rewrite getPendingUsers_run, Hl, Hus'. simpl. split; [reflexivity|].
  apply (in_map (fun u => returned_user u true)).
  apply order_by_In, filter_In. split.
  - apply in_or_app. right. left. reflexivity.
  - apply bool_decide_eq_true. exact Hpending.
Qed.

Lemma register_then_pending_witness :
  (users (db_tables (w_db shop)) = Some [alice; bob] /\
   is_admin_role (jp_role alice_token) = true /\
   register demo_hash carol_registration shop =
     (Resolved {| res_status := 200;
                  res_body := BRegistered
                    "Registration successful! Please wait for admin approval."
                    (returned_user carol_registered true) true |},
      shop_with_carol)) /\
  exists msg account listed,
    BRegistered "Registration successful! Please wait for admin approval."
      (returned_user carol_registered true) true
    = BRegistered msg account true /\
    getPendingUsers alice_token shop_with_carol =
      (Resolved {| lr_status := 200; lr_body := LPending listed |}, shop_with_carol) /\
    In account listed.
Proof.
  assert (Hrun : register demo_hash carol_registration shop =
                 (Resolved {| res_status := 200;
                              res_body := BRegistered
                                "Registration successful! Please wait for admin approval."
                                (returned_user carol_registered true) true |},
                  shop_with_carol))
    by (vm_compute; reflexivity).
  assert (Hne : [alice; bob] <> []) by discriminate.
  split; [repeat split; exact Hrun|].
  exact (register_then_pending demo_hash carol_registration alice_token shop
           shop_with_carol _ [alice; bob] eq_refl Hne eq_refl Hrun eq_refl).
Defined.

(** ** Setting the stock *)

(** What updateStock does, step by step. *)
Lemma updateStock_run (caller : jwt_payload) (id : int_text) (stock : option int_text)
    (w : world) :
  updateStock caller id stock w =
  match products (db_tables (w_db w)) with
  | None =>
      (Resolved {| res_status := 500;
                   res_body := BError (Some false)
                                 (message (UndefinedTable "products")) |}, w)
  | Some ps =>
      match nullable_integer_parameter stock, integer_parameter id with
      | Rejected e, _ | _, Rejected e =>
          (Resolved {| res_status := 500;
                       res_body := BError (Some false) (message e) |}, w)
      | Resolved stock, Resolved id =>
          match List.filter (fun p => Z.eqb (p_id p) id) ps, stock with
          | [], _ =>
              (Resolved {| res_status := 404;
                           res_body := BError (Some false) "Product not found" |}, w)
          | _ :: _, None =>
              (Resolved {| res_status := 500;
                           res_body := BError (Some false)
                                         (message (NotNullViolation "stock")) |}, w)
          | p :: _, Some n =>
              (Resolved {| res_status := 200;
                           res_body := BProduct (with_stock_at n (w_now w) p) |},
               set_delivered
                 (w_delivered w ++
                  map (fun sid => (sid, {| ev_name := "product_updated";
                                           ev_payload :=
                                             ProductChange "stock_updated"
                                               (with_stock_at n (w_now w) p)
                                               (jp_name caller) |}))
                      (w_sockets w))
                 (set_db {| db_tables :=
                              set_products
                                (Some (map (fun q => if Z.eqb (p_id q) id
                                                     then with_stock_at n (w_now w) q
                                                     else q) ps))
                                (db_tables (w_db w));
                            db_seqs := db_seqs (w_db w) |} w))
          end
      end
  end.
Proof.
  unfold updateStock. unfold_M. unfold update_product_stock, io_emit, deliver.
  destruct (products (db_tables (w_db w))) as [ps|]; simpl;
    [|rewrite set_db_same; reflexivity].
  destruct (nullable_integer_parameter stock) as [st|e]; simpl;
    [|rewrite set_db_same; reflexivity].
  destruct (integer_parameter id) as [i|e]; simpl;
    [|rewrite set_db_same; reflexivity].
  destruct (List.filter (fun p => Z.eqb (p_id p) i) ps) as [|p hit]; simpl;
    [rewrite set_db_same; destruct st; reflexivity|].
  destruct st as [n|]; simpl; [reflexivity|].
  rewrite set_db_same. reflexivity.
Qed.

Lemma filter_no_product (id : Z) (ps : list product_row) :
  (forall p, In p ps -> p_id p <> id) ->
  List.filter (fun p => Z.eqb (p_id p) id) ps = [].
Proof.
  induction ps as [|p ps IH]; intros H; simpl; [reflexivity|].
  destruct (Z.eqb_spec (p_id p) id) as [E|_].
  - exfalso. apply (H p); [left; reflexivity | exact E].
  - apply IH. intros; apply H; right; assumption.
Qed.

(** X6. PUT /api/products/:id/stock changes nothing and sends no event
    when it refuses.  It answers 500 when the id of the path or the stock of
    the body is not an INTEGER (not a whole number, or beyond 32 bits),
    whether a product has the id or not; 404 "Product not found" when the id
    is an INTEGER no product has and the stock is an INTEGER or absent; and
    500 when a product has the id and the body holds no stock. *)
Theorem updateStock_refusals
    (caller : jwt_payload) (id : int_text) (stock : option int_text) (w : world)
    (ps : list product_row) :
  products (db_tables (w_db w)) = Some ps ->
  ((forall i, integer_parameter id <> Resolved i) \/
   (forall n, nullable_integer_parameter stock <> Resolved n) ->
   exists msg,
     updateStock caller id stock w =
       (Resolved {| res_status := 500; res_body := BError (Some false) msg |}, w)) /\
  (forall i n,
     integer_parameter id = Resolved i ->
     nullable_integer_parameter stock = Resolved n ->
     (forall p, In p ps -> p_id p <> i) ->
     updateStock caller id stock w =
       (Resolved {| res_status := 404;
                    res_body := BError (Some false) "Product not found" |}, w)) /\
  (forall i p,
     integer_parameter id = Resolved i -> In p ps -> p_id p = i -> stock = None ->
     updateStock caller id stock w =
       (Resolved {| res_status := 500;
                    res_body := BError (Some false)
                                  (message (NotNullViolation "stock")) |}, w)).
Proof.
  intros Hps. rewrite updateStock_run, Hps. split; [|split].
  - intros [Hid|Hstock].
    + destruct (nullable_integer_parameter stock) as [n|e];
        destruct (integer_parameter id) as [i|e'];
        try (eexists; reflexivity).
      exfalso. apply (Hid i). reflexivity.
    + destruct (nullable_integer_parameter stock) as [n|e];
        [exfalso; apply (Hstock n); reflexivity|].
      eexists. reflexivity.
  - intros i n -> -> Hno. rewrite (filter_no_product _ _ Hno). reflexivity.
  - intros i p -> Hin Hid ->. simpl.
    destruct (List.filter (fun p => Z.eqb (p_id p) i) ps) as [|q hit] eqn:E;
      [|reflexivity].
    exfalso. assert (Hf : In p (List.filter (fun p => Z.eqb (p_id p) i) ps))
      by (apply filter_In; split; [assumption | apply Z.eqb_eq; assumption]).
    rewrite E in Hf. contradiction.
Qed.

Lemma updateStock_refusals_witness :
  products (db_tables (w_db shop)) = Some [cd_a] /\
  (exists msg,
     updateStock alice_token (IntegerText 7) (Some (IntegerText 2147483648)) shop =
       (Resolved {| res_status := 500; res_body := BError (Some false) msg |},
        shop)) /\
  updateStock alice_token (IntegerText 7) (Some (IntegerText 5)) shop =
    (Resolved {| res_status := 404;
                 res_body := BError (Some false) "Product not found" |}, shop) /\
  updateStock alice_token (IntegerText 1) None shop =
    (Resolved {| res_status := 500;
                 res_body := BError (Some false)
                               (message (NotNullViolation "stock")) |}, shop).
Proof.
  split; [reflexivity|]. split; [|split].
  - apply (updateStock_refusals alice_token (IntegerText 7)
             (Some (IntegerText 2147483648)) shop [cd_a] eq_refl).
    right. intros n. discriminate.
  - apply (updateStock_refusals alice_token (IntegerText 7) (Some (IntegerText 5))
             shop [cd_a] eq_refl) with (i := 7) (n := Some 5).
    + reflexivity.
    + reflexivity.
    + intros p [<-|[]]. discriminate.
  - apply (updateStock_refusals alice_token (IntegerText 1) None shop [cd_a] eq_refl)
      with (i := 1) (p := cd_a).
    + reflexivity.
    + left; reflexivity.
    + reflexivity.
    + reflexivity.
Defined.

(** X7. When the id of the path is an INTEGER a product has and the
    body holds a stock that is an INTEGER, the answer is 200 with that
    product; afterwards every product with that id has the given stock
    (the value itself, whatever the stock was) and the request's time as
    updated_at, every other product is as it was, and one product_updated
    event of type stock_updated has gone to every connected socket. *)
Theorem updateStock_sets_the_stock
    (caller : jwt_payload) (id stock : int_text) (i n : Z) (w : world)
    (ps hit : list product_row) (p : product_row) :
  integer_parameter id = Resolved i ->
  integer_parameter stock = Resolved n ->
  products (db_tables (w_db w)) = Some ps ->
  List.filter (fun q => Z.eqb (p_id q) i) ps = p :: hit ->
  exists w',
    updateStock caller id (Some stock) w =
      (Resolved {| res_status := 200;
                   res_body := BProduct (with_stock_at n (w_now w) p) |}, w') /\
    products (db_tables (w_db w')) =
      Some (map (fun q => if Z.eqb (p_id q) i
                          then with_stock_at n (w_now w) q else q) ps) /\
    users (db_tables (w_db w')) = users (db_tables (w_db w)) /\
    sales (db_tables (w_db w')) = sales (db_tables (w_db w)) /\
    sale_items (db_tables (w_db w')) = sale_items (db_tables (w_db w)) /\
    w_delivered w' =
      w_delivered w ++
      map (fun sid => (sid, {| ev_name := "product_updated";
                               ev_payload :=
                                 ProductChange "stock_updated"
                                   (with_stock_at n (w_now w) p) (jp_name caller) |}))
          (w_sockets w).
Proof.
  intros Hid Hstock Hps Hf. rewrite updateStock_run, Hps. simpl.
  rewrite Hstock, Hid, Hf.
  eexists. split; [reflexivity|]. repeat split.
Qed.

Lemma updateStock_sets_the_stock_witness :
  (integer_parameter (IntegerText 1) = Resolved 1 /\
   integer_parameter (IntegerText 5) = Resolved 5 /\
   products (db_tables (w_db shop)) = Some [cd_a] /\
   List.filter (fun q => Z.eqb (p_id q) 1) [cd_a] = [cd_a]) /\
  exists w',
    updateStock alice_token (IntegerText 1) (Some (IntegerText 5)) shop =
      (Resolved {| res_status := 200;
                   res_body := BProduct (with_stock_at 5 (w_now shop) cd_a) |}, w') /\
    products (db_tables (w_db w')) =
      Some (map (fun q => if Z.eqb (p_id q) 1
                          then with_stock_at 5 (w_now shop) q else q) [cd_a]) /\
    users (db_tables (w_db w')) = users (db_tables (w_db shop)) /\
    sales (db_tables (w_db w')) = sales (db_tables (w_db shop)) /\
    sale_items (db_tables (w_db w')) = sale_items (db_tables (w_db shop)) /\
    w_delivered w' =
      w_delivered shop ++
      map (fun sid => (sid, {| ev_name := "product_updated";
                               ev_payload :=
                                 ProductChange "stock_updated"
                                   (with_stock_at 5 (w_now shop) cd_a)
                                   (jp_name alice_token) |}))
          (w_sockets shop).
Proof.
  split; [repeat split; reflexivity|].
  exact (updateStock_sets_the_stock alice_token (IntegerText 1) (IntegerText 5) 1 5
           shop [cd_a] [] cd_a eq_refl eq_refl eq_refl eq_refl).
Defined.

Lemma filter_with_stock_at (id n now : Z) (ps : list product_row) :
  List.filter (fun q => Z.eqb (p_id q) id)
    (map (fun q => if Z.eqb (p_id q) id then with_stock_at n now q else q) ps) =
  map (with_stock_at n now) (List.filter (fun q => Z.eqb (p_id q) id) ps).
Proof.
  induction ps as [|q ps IH]; simpl; [reflexivity|].
  destruct (Z.eqb (p_id q) id) eqn:E; simpl; rewrite E, IH; reflexivity.
Qed.

(** X8. The stock is set, not added to: of two updates of the same
    product, the second decides when its stock is an INTEGER.  The tables
    after an update with any stock and then one to [n2] are the tables after
    the update to [n2] alone. *)
Theorem updateStock_last_write_wins
    (caller1 caller2 : jwt_payload) (id : int_text) (stock1 : option int_text)
    (stock2 : int_text) (n2 : Z) (w : world) :
  integer_parameter stock2 = Resolved n2 ->
  db_tables (w_db (snd (updateStock caller2 id (Some stock2)
                          (snd (updateStock caller1 id stock1 w))))) =
  db_tables (w_db (snd (updateStock caller2 id (Some stock2) w))).
Proof.
  intros H2.
  rewrite (updateStock_run caller1), (updateStock_run caller2 id (Some stock2) w).
  destruct (products (db_tables (w_db w))) as [ps|] eqn:Hps; simpl.
  2:{ rewrite updateStock_run, Hps. reflexivity. }
  rewrite H2.
  destruct (integer_parameter id) as [i|e] eqn:Hid.
  2:{ destruct (nullable_integer_parameter stock1); simpl;
        rewrite updateStock_run, Hps; simpl; rewrite H2, Hid; reflexivity. }
  destruct (nullable_integer_parameter stock1) as [st|e]; simpl.
  2:{ rewrite updateStock_run, Hps. simpl. rewrite H2, Hid. reflexivity. }
  destruct (List.filter (fun p => Z.eqb (p_id p) i) ps) as [|p hit] eqn:Hf; simpl.
  { rewrite updateStock_run, Hps. simpl. rewrite H2, Hid, Hf. reflexivity. }
  destruct st as [n1|]; simpl.
  2:{ rewrite updateStock_run, Hps. simpl. rewrite H2, Hid, Hf. reflexivity. }
  rewrite updateStock_run. simpl. rewrite H2, Hid, filter_with_stock_at, Hf. simpl.
  unfold set_products. simpl. f_equal. f_equal.
  rewrite map_map. apply map_ext. intros q.
  destruct (Z.eqb (p_id q) i) eqn:E; simpl; rewrite E; reflexivity.
Qed.

Lemma updateStock_last_write_wins_witness :
  integer_parameter (IntegerText 5) = Resolved 5 /\
  db_tables (w_db (snd (updateStock bob_token (IntegerText 1) (Some (IntegerText 5))
                          (snd (updateStock alice_token (IntegerText 1)
                                  (Some (IntegerText 9)) shop))))) =
  db_tables (w_db (snd (updateStock bob_token (IntegerText 1)
                          (Some (IntegerText 5)) shop))).
Proof.
  split; [reflexivity|].
  exact (updateStock_last_write_wins alice_token bob_token (IntegerText 1)
           (Some (IntegerText 9)) (IntegerText 5) 5 shop eq_refl).
Defined.

(** ** The dashboard *)

(** What getDashboardStats does, step by step. *)
Lemma getDashboardStats_run (caller : jwt_payload) (w : world) :
  getDashboardStats caller w =
  match sales (db_tables (w_db w)), products (db_tables (w_db w)),
        users (db_tables (w_db w)) with
  | None, _, _ =>
      (Resolved {| lr_status := 500;
                   lr_body := LError (Some false) (message (UndefinedTable "sales")) |},
       w)
  | Some _, None, _ =>
      (Resolved {| lr_status := 500;
                   lr_body := LError (Some false)
                                (message (UndefinedTable "products")) |}, w)
  | Some _, Some _, None =>
      (Resolved {| lr_status := 500;
                   lr_body := LError (Some false) (message (UndefinedTable "users")) |},
       w)
  | Some ss, Some ps, Some us =>
      (Resolved
         {| lr_status := 200;
            lr_body :=
              LStats
                {| todaySales :=
                     fold_right Z.add 0
                       (map s_total
                          (List.filter
                             (fun x => Z.eqb (s_date x) (CURRENT_DATE (w_now w))) ss));
                   totalProducts := Z.of_nat (length ps);
                   lowStock :=
                     Z.of_nat (length (List.filter (fun p => Z.ltb (p_stock p) 10) ps));
                   totalUsers :=
                     Z.of_nat (length (List.filter
                       (fun u => bool_decide (u_status u = Some "active")) us));
                   pendingUsers :=
                     Z.of_nat (length (List.filter
                       (fun u => bool_decide (u_status u = Some "pending")) us)) |} |},
       w)
  end.
Proof.
  unfold getDashboardStats, today. unfold_M.
  unfold select_sum_sales_on, select_count_products, select_count_low_stock,
    select_count_users_with_status.
  destruct (sales (db_tables (w_db w))) as [ss|] eqn:Hs; simpl;
    rewrite ?set_db_same; simpl; rewrite ?Hs; [|reflexivity].
  destruct (products (db_tables (w_db w))) as [ps|] eqn:Hp; simpl;
    rewrite ?set_db_same; simpl; rewrite ?Hp; simpl;
    rewrite ?set_db_same; simpl; [|reflexivity].
  destruct (users (db_tables (w_db w))) as [us|] eqn:Hu; simpl;
    rewrite ?set_db_same; simpl; rewrite ?Hu; simpl;
    rewrite ?set_db_same; reflexivity.
Qed.

Lemma filter_length_le {A : Type} (f : A -> bool) (l : list A) :
  (length (List.filter f l) <= length l)%nat.
Proof.
  induction l as [|x l IH]; simpl; [lia|]. destruct (f x); simpl; lia.
Qed.

Lemma filter_disjoint_length {A : Type} (f g : A -> bool) (l : list A) :
  (forall x, f x = true -> g x = false) ->
  (length (List.filter f l) + length (List.filter g l) <= length l)%nat.
Proof.
  intros H. induction l as [|x l IH]; simpl; [lia|].
  destruct (f x) eqn:Ef; [rewrite (H x Ef); simpl; lia|].
  destruct (g x); simpl; lia.
Qed.

(** X9. GET /api/dashboard/stats always answers and changes nothing; the
    answer is 500 when the sales, products or users table is missing.  In a
    200 answer lowStock is at most totalProducts, and totalUsers (which
    counts the active users only) and pendingUsers together are at most the
    number of rows of the users table. *)
Theorem getDashboardStats_reads_and_counts (caller : jwt_payload) (w : world) :
  exists resp,
    getDashboardStats caller w = (Resolved resp, w) /\
    (lr_status resp = 200 \/ lr_status resp = 500) /\
    (lr_status resp = 200 <->
     is_Some (sales (db_tables (w_db w))) /\
     is_Some (products (db_tables (w_db w))) /\
     is_Some (users (db_tables (w_db w)))) /\
    (forall st us,
       lr_body resp = LStats st -> users (db_tables (w_db w)) = Some us ->
       0 <= lowStock st <= totalProducts st /\
       0 <= totalUsers st /\ 0 <= pendingUsers st /\
       totalUsers st + pendingUsers st <= Z.of_nat (length us)).
Proof.
  rewrite getDashboardStats_run.
  destruct (sales (db_tables (w_db w))) as [ss|];
    [destruct (products (db_tables (w_db w))) as [ps|];
     [destruct (users (db_tables (w_db w))) as [us|]|]|];
    eexists; (split; [reflexivity|]); simpl.
  2-4: split; [right; reflexivity|]; split;
       [split; [discriminate | intros (H1 & H2 & H3);
                               first [destruct H1 as [? H1]; discriminate
                                     | destruct H2 as [? H2]; discriminate
                                     | destruct H3 as [? H3]; discriminate]]
       | intros st us' H; discriminate].
  split; [left; reflexivity|]. split.
  - split; [intros _; repeat split; eexists; reflexivity | reflexivity].
  - intros st us' Hst Hus. simplify_eq. simpl.
    pose proof (filter_length_le (fun p => Z.ltb (p_stock p) 10) ps).
    pose proof (filter_disjoint_length
                  (fun u : user_row => bool_decide (u_status u = Some "active"))
                  (fun u : user_row => bool_decide (u_status u = Some "pending")) us')
      as Hd.
    assert (Hdis : forall u : user_row,
               bool_decide (u_status u = Some "active") = true ->
               bool_decide (u_status u = Some "pending") = false).
    { intros u Hu. apply bool_decide_eq_true in Hu. rewrite Hu.
      apply bool_decide_eq_false. discriminate. }
    specialize (Hd Hdis). lia.
Qed.

Lemma getDashboardStats_reads_and_counts_witness :
  exists resp,
    getDashboardStats bob_token shop = (Resolved resp, shop) /\
    (lr_status resp = 200 \/ lr_status resp = 500) /\
    (lr_status resp = 200 <->
     is_Some (sales (db_tables (w_db shop))) /\
     is_Some (products (db_tables (w_db shop))) /\
     is_Some (users (db_tables (w_db shop)))) /\
    (forall st us,
       lr_body resp = LStats st -> users (db_tables (w_db shop)) = Some us ->
       0 <= lowStock st <= totalProducts st /\
       0 <= totalUsers st /\ 0 <= pendingUsers st /\
       totalUsers st + pendingUsers st <= Z.of_nat (length us)).
Proof. exact (getDashboardStats_reads_and_counts bob_token shop). Defined.

Lemma sum_totals_app (f : sale_row -> bool) (ss : list sale_row) (s : sale_row) :
  fold_right Z.add 0 (map s_total (List.filter f (ss ++ [s]))) =
  fold_right Z.add 0 (map s_total (List.filter f ss)) +
  (if f s then s_total s else 0).
Proof.
  induction ss as [|x ss IH]; simpl.
  - destruct (f s); simpl; lia.
  - destruct (f x); simpl; rewrite IH; lia.
Qed.

(** X10. A sale shows in the dashboard of its day.  After a createSale
    call answered 200, on any later state of the same day that holds the
    tables the sale left, todaySales is what it was before the sale plus
    the sale's total (the total the server computed), and totalProducts,
    totalUsers and pendingUsers are what they were. *)
Theorem createSale_then_dashboard
    (caller viewer : jwt_payload) (b : sale_body) (w w' later : world)
    (sale : sale_row) (st : dashboard_stats) :
  w_txn w = None ->
  createSale caller b w =
    (Resolved {| res_status := 200; res_body := BSale sale |}, w') ->
  getDashboardStats viewer w =
    (Resolved {| lr_status := 200; lr_body := LStats st |}, w) ->
  db_tables (w_db later) = db_tables (w_db w') ->
  CURRENT_DATE (w_now later) = CURRENT_DATE (w_now w) ->
  exists st',
    getDashboardStats viewer later =
      (Resolved {| lr_status := 200; lr_body := LStats st' |}, later) /\
    todaySales st' = todaySales st + s_total sale /\
    totalProducts st' = totalProducts st /\
    totalUsers st' = totalUsers st /\
    pendingUsers st' = pendingUsers st.
Proof.
  intros Ht Hsale Hst Hlater Hday.
  destruct (createSale_inv _ _ _ _ _ Ht Hsale)
    as [(items & c & ss & _ & _ & Hss & Hr & Htab & _)
       |[(_ & _ & [[? _]|(msg & ? & _)])|(_ & _ & [?|?] & _)]];
    [|discriminate..].
  injection Hr as ->.
  rewrite getDashboardStats_run, Hss in Hst.
  destruct (products (db_tables (w_db w))) as [ps|] eqn:Hps; [|discriminate].
  destruct (users (db_tables (w_db w))) as [us|] eqn:Hus; [|discriminate].
  injection Hst as <-.
  rewrite getDashboardStats_run, Hlater, Htab. simpl.
  eexists. split; [reflexivity|]. simpl.
  rewrite sum_totals_app, Hday. simpl. rewrite Z.eqb_refl.
  rewrite length_map. repeat split; reflexivity.
Qed.

Lemma createSale_then_dashboard_witness :
  (w_txn shop = None /\
   createSale alice_token one_line_sale shop =
     (Resolved {| res_status := 200; res_body := BSale sale_1_of_one_line |},
      shop_after_one_line) /\
   getDashboardStats bob_token shop =
     (Resolved {| lr_status := 200;
                  lr_body := LStats {| todaySales := 0; totalProducts := 1;
                                       lowStock := 0; totalUsers := 1;
                                       pendingUsers := 1 |} |}, shop)) /\
  exists st',
    getDashboardStats bob_token shop_after_one_line =
      (Resolved {| lr_status := 200; lr_body := LStats st' |}, shop_after_one_line) /\
    todaySales st' = 0 + s_total sale_1_of_one_line /\
    totalProducts st' = 1 /\ totalUsers st' = 1 /\ pendingUsers st' = 1.
Proof.
  assert (Hrun : createSale alice_token one_line_sale shop =
                 (Resolved {| res_status := 200;
                              res_body := BSale sale_1_of_one_line |},
                  shop_after_one_line))
    by (vm_compute; reflexivity).
  assert (Hst : getDashboardStats bob_token shop =
                (Resolved {| lr_status := 200;
                             lr_body := LStats {| todaySales := 0; totalProducts := 1;
                                                  lowStock := 0; totalUsers := 1;
                                                  pendingUsers := 1 |} |}, shop))
    by (vm_compute; reflexivity).
  split; [split; [reflexivity | split; [exact Hrun | exact Hst]]|].
  exact (createSale_then_dashboard alice_token bob_token one_line_sale shop
           shop_after_one_line shop_after_one_line sale_1_of_one_line _
           eq_refl Hrun Hst eq_refl eq_refl).
Defined.

(** ** Listings *)

Lemma Sorted_weaken {A : Type} (R R' : A -> A -> Prop) (l : list A) :
  (forall a b, R a b -> R' a b) -> Sorted R l -> Sorted R' l.
Proof.
  intros H Hs. induction Hs as [|a l Hs IH Hd]; constructor; [exact IH|].
  destruct Hd as [|b l Hb]; constructor. apply H, Hb.
Qed.

Lemma filter_none {A : Type} (f : A -> bool) (l : list A) :
  (forall x, In x l -> f x = false) -> List.filter f l = [].
Proof.
  induction l as [|x l IH]; intros H; simpl; [reflexivity|].
  rewrite (H x (or_introl eq_refl)). apply IH. intros; apply H; right; assumption.
Qed.

(** On a key, a selection by the key's value is the row [find] finds. *)
Lemma filter_keyed (k : option Z) (us : list user_row) :
  NoDup (map u_id us) ->
  List.filter (fun u => bool_decide (k = Some (u_id u))) us =
  match List.find (fun u => bool_decide (k = Some (u_id u))) us with
  | Some u => [u]
  | None => []
  end.
Proof.
  induction us as [|u us IH]; intros Hnd; simpl; [reflexivity|].
  inversion Hnd as [|? ? Hnotin Hnd']; subst.
  destruct (bool_decide (k = Some (u_id u))) eqn:E; [|apply IH, Hnd'].
  f_equal. apply filter_none. intros v Hv.
  apply bool_decide_eq_true in E. apply bool_decide_eq_false. intros Hk.
  apply Hnotin. rewrite E in Hk. injection Hk as ->. apply in_map, Hv.
Qed.

(** With ids as the users' key, the LEFT JOIN gives one row per sale. *)
Lemma left_join_user_keyed (us : list user_row) (s : sale_row) :
  NoDup (map u_id us) ->
  left_join_user us s =
  [ {| sl_sale := s;
       sl_user_name :=
         u_full_name <$>
         List.find (fun u => bool_decide (s_user_id s = Some (u_id u))) us |} ].
Proof.
  intros Hnd. unfold left_join_user. rewrite (filter_keyed _ _ Hnd).
  destruct (List.find _ us); reflexivity.
Qed.

Lemma flat_map_left_join (us : list user_row) (ss : list sale_row) :
  NoDup (map u_id us) ->
  flat_map (left_join_user us) ss =
  map (fun s => {| sl_sale := s;
                   sl_user_name :=
                     u_full_name <$>
                     List.find (fun u => bool_decide (s_user_id s = Some (u_id u)))
                               us |}) ss.
Proof.
  intros Hnd. induction ss as [|s ss IH]; simpl; [reflexivity|].
  rewrite (left_join_user_keyed _ _ Hnd), IH. reflexivity.
Qed.

Lemma getSales_run (caller : jwt_payload) (w : world) :
  getSales caller w =
  match sales (db_tables (w_db w)), users (db_tables (w_db w)) with
  | None, _ =>
      (Resolved {| lr_status := 500;
                   lr_body := LError (Some false) (message (UndefinedTable "sales")) |},
       w)
  | Some _, None =>
      (Resolved {| lr_status := 500;
                   lr_body := LError (Some false) (message (UndefinedTable "users")) |},
       w)
  | Some ss, Some us =>
      (Resolved {| lr_status := 200;
                   lr_body := LSales (order_by sale_newer
                                        (flat_map (left_join_user us) ss)) |}, w)
  end.
Proof.
  unfold getSales. unfold_M. unfold select_sales_with_user.
  destruct (sales (db_tables (w_db w))); simpl;
    [destruct (users (db_tables (w_db w))); simpl|];
    rewrite set_db_same; reflexivity.
Qed.

Lemma sale_newer_total (x y : sale_listing) :
  sale_newer x y = false -> sale_newer y x = true.
Proof. unfold sale_newer. intros H. apply Z.leb_gt in H. apply Z.leb_le. lia. Qed.

(** X11. GET /api/sales lists every sale exactly once, the most recently
    created first, whoever asks; a sale comes with the full name the users
    table now holds for its user_id, and without a name when it has no
    user.  Nothing changes.  (The users' ids are their key.) *)
Theorem getSales_lists_every_sale
    (caller : jwt_payload) (w : world)
    (ss : list sale_row) (us : list user_row) :
  sales (db_tables (w_db w)) = Some ss ->
  users (db_tables (w_db w)) = Some us ->
  NoDup (map u_id us) ->
  exists rows,
    getSales caller w =
      (Resolved {| lr_status := 200; lr_body := LSales rows |}, w) /\
    Permutation (map sl_sale rows) ss /\
    Sorted (fun x y => s_created_at (sl_sale y) <= s_created_at (sl_sale x)) rows /\
    (forall row, In row rows ->
       sl_user_name row =
         u_full_name <$>
         List.find (fun u => bool_decide (s_user_id (sl_sale row) = Some (u_id u)))
                   us).
Proof.
  intros Hss Hus Hnd. rewrite getSales_run, Hss, Hus.
  eexists. split; [reflexivity|].
  rewrite (flat_map_left_join _ _ Hnd). split; [|split].
  - rewrite order_by_perm, map_map. simpl. rewrite map_id. reflexivity.
  - eapply Sorted_weaken; [|apply (order_by_sorted sale_newer _ sale_newer_total)].
    intros a b Hab. unfold sale_newer in Hab. apply Z.leb_le in Hab. exact Hab.
  - intros row Hin. apply order_by_In, in_map_iff in Hin as (s & <- & _).
    reflexivity.
Qed.

Lemma getSales_lists_every_sale_witness :
  (sales (db_tables (w_db shop_after_one_line)) = Some [sale_1_of_one_line] /\
   users (db_tables (w_db shop_after_one_line)) = Some [alice; bob] /\
   NoDup (map u_id [alice; bob])) /\
  exists rows,
    getSales bob_token shop_after_one_line =
      (Resolved {| lr_status := 200; lr_body := LSales rows |},
       shop_after_one_line) /\
    Permutation (map sl_sale rows) [sale_1_of_one_line] /\
    Sorted (fun x y => s_created_at (sl_sale y) <= s_created_at (sl_sale x)) rows /\
    (forall row, In row rows ->
       sl_user_name row =
         u_full_name <$>
         List.find (fun u => bool_decide (s_user_id (sl_sale row) = Some (u_id u)))
                   [alice; bob]).
Proof.
  assert (Hnd : NoDup (map u_id [alice; bob])).
  { simpl. constructor; [intros [H|[]]; discriminate|].
    constructor; [intros []|constructor]. }
  split; [split; [reflexivity | split; [reflexivity | exact Hnd]]|].
  exact (getSales_lists_every_sale bob_token shop_after_one_line
           [sale_1_of_one_line] [alice; bob] eq_refl eq_refl Hnd).
Defined.

Lemma find_keyed (us : list user_row) (u : user_row) :
  NoDup (map u_id us) -> In u us ->
  List.find (fun v => bool_decide (Some (u_id u) = Some (u_id v))) us = Some u.
Proof.
  induction us as [|v us IH]; intros Hnd Hin; simpl; [destruct Hin|].
  inversion Hnd as [|? ? Hnotin Hnd']; subst.
  destruct Hin as [->|Hin].
  - rewrite bool_decide_eq_true_2 by reflexivity. reflexivity.
  - rewrite bool_decide_eq_false_2; [apply IH; assumption|].
    intros E. injection E as E. apply Hnotin. rewrite <- E. apply in_map, Hin.
Qed.

(** X12. A recorded sale is listed.  After a createSale call answered
    200, GET /api/sales on the state it left lists the sale, under the full
    name the users table holds for the caller's id (not the name in the
    caller's token). *)
Theorem createSale_then_listed
    (caller viewer : jwt_payload) (b : sale_body) (w w' : world)
    (sale : sale_row) (us : list user_row) (u : user_row) :
  w_txn w = None ->
  createSale caller b w =
    (Resolved {| res_status := 200; res_body := BSale sale |}, w') ->
  users (db_tables (w_db w)) = Some us -> NoDup (map u_id us) ->
  In u us -> u_id u = jp_id caller ->
  exists rows,
    getSales viewer w' =
      (Resolved {| lr_status := 200; lr_body := LSales rows |}, w') /\
    In {| sl_sale := sale; sl_user_name := Some (u_full_name u) |} rows.
Proof.
  intros Ht Hsale Hus Hnd Hin Hid.
  destruct (createSale_inv _ _ _ _ _ Ht Hsale)
    as [(items & c & ss & _ & _ & Hss & Hr & Htab & _)
       |[(_ & _ & [[? _]|(msg & ? & _)])|(_ & _ & [?|?] & _)]];
    [|discriminate..].
  injection Hr as ->.
  rewrite getSales_run, Htab, Hus. simpl.
  eexists. split; [reflexivity|].
  apply order_by_In. rewrite (flat_map_left_join _ _ Hnd).
  apply in_map_iff. eexists. split; [|apply in_or_app; right; left; reflexivity].
  f_equal. simpl. rewrite <- Hid, (find_keyed _ _ Hnd Hin). reflexivity.
Qed.

Lemma createSale_then_listed_witness :
  (w_txn shop = None /\
   createSale alice_token one_line_sale shop =
     (Resolved {| res_status := 200; res_body := BSale sale_1_of_one_line |},
      shop_after_one_line) /\
   users (db_tables (w_db shop)) = Some [alice; bob] /\
   NoDup (map u_id [alice; bob]) /\ In alice [alice; bob] /\
   u_id alice = jp_id alice_token) /\
  exists rows,
    getSales bob_token shop_after_one_line =
      (Resolved {| lr_status := 200; lr_body := LSales rows |},
       shop_after_one_line) /\
    In {| sl_sale := sale_1_of_one_line;
          sl_user_name := Some (u_full_name alice) |} rows.
Proof.
  assert (Hrun : createSale alice_token one_line_sale shop =
                 (Resolved {| res_status := 200;
                              res_body := BSale sale_1_of_one_line |},
                  shop_after_one_line))
    by (vm_compute; reflexivity).
  assert (Hnd : NoDup (map u_id [alice; bob])).
  { simpl. constructor; [intros [H|[]]; discriminate|].
    constructor; [intros []|constructor]. }
  split.
  { split; [reflexivity|]. split; [exact Hrun|]. split; [reflexivity|].
    split; [exact Hnd|]. split; [left; reflexivity | reflexivity]. }
  exact (createSale_then_listed alice_token bob_token one_line_sale shop
           shop_after_one_line sale_1_of_one_line [alice; bob] alice
           eq_refl Hrun eq_refl Hnd (or_introl eq_refl) eq_refl).
Defined.

Lemma getUsers_run (caller : jwt_payload) (w : world) :
  getUsers caller w =
  match users (db_tables (w_db w)) with
  | None =>
      (Resolved {| lr_status := 500;
                   lr_body := LError (Some false) (message (UndefinedTable "users")) |},
       w)
  | Some us =>
      (Resolved {| lr_status := 200;
                   lr_body := LUsers (map listed_user (order_by user_newer us)) |}, w)
  end.
Proof.
  unfold getUsers. unfold_M. unfold select_users_newest_first.
  destruct (users (db_tables (w_db w))); simpl; rewrite set_db_same; reflexivity.
Qed.

(** X13. GET /api/users answers every caller, whatever the role in the
    token: 200 with every user of the table exactly once, whatever the
    user's status, the most recently created first.  Nothing changes. *)
Theorem getUsers_lists_everyone
    (caller : jwt_payload) (w : world) (us : list user_row) :
  users (db_tables (w_db w)) = Some us ->
  exists rows,
    getUsers caller w =
      (Resolved {| lr_status := 200; lr_body := LUsers (map listed_user rows) |}, w) /\
    Permutation rows us /\
    Sorted (fun a b => u_created_at b <= u_created_at a) rows.
Proof.
  intros Hus. rewrite getUsers_run, Hus. eexists. split; [reflexivity|].
  split; [apply order_by_perm|].
  eapply Sorted_weaken; [|apply (order_by_sorted user_newer _ user_newer_total)].
  intros a b Hab. unfold user_newer in Hab. apply Z.leb_le in Hab. exact Hab.
Qed.

Lemma getUsers_lists_everyone_witness :
  users (db_tables (w_db shop)) = Some [alice; bob] /\
  exists rows,
    getUsers bob_token shop =
      (Resolved {| lr_status := 200; lr_body := LUsers (map listed_user rows) |},
       shop) /\
    Permutation rows [alice; bob] /\
    Sorted (fun a b => u_created_at b <= u_created_at a) rows.
Proof.
  split; [reflexivity|].
  exact (getUsers_lists_everyone bob_token shop [alice; bob] eq_refl).
Defined.





(** ** Sockets *)

Lemma filter_filter_same {A : Type} (f : A -> bool) (l : list A) :
  List.filter f (List.filter f l) = List.filter f l.
Proof.
  induction l as [|x l IH]; simpl; [reflexivity|].
  destruct (f x) eqn:E; simpl; rewrite ?E, IH; reflexivity.
Qed.

(** X15. What authenticate and then disconnect leave, by the value the
    client announces.  With a user's data, the registry of active users
    is the one before without the socket, and every other connected socket,
    never the socket itself, has received user_online and then user_offline,
    both with the id and name announced.  With another falsy value (false,
    0, the empty string) the others receive a user_online without id or
    name and, at the disconnect, nothing: the registry then reads as having
    no user for the socket.  With no value or null the listener throws a
    TypeError once the value is stored, before anything is sent; nothing
    catches it. *)
Theorem authenticate_then_disconnect
    (socket_id : string) (userData : authenticate_payload) (w : world) :
  let others :=
    List.filter (fun sid => negb (String.eqb sid socket_id)) (w_sockets w) in
  let online userId userName :=
    map (fun sid => (sid, {| ev_name := "user_online";
                             ev_payload := Presence userId userName (w_now w) |}))
        others in
  ~ In socket_id others /\
  match userData with
  | UserData u =>
      exists w1 w',
        on_authenticate socket_id userData w = (Resolved tt, w1) /\
        on_disconnect socket_id w1 = (Resolved tt, w') /\
        w_activeUsers w' = delete socket_id (w_activeUsers w) /\
        w_sockets w' = others /\
        w_delivered w' =
          w_delivered w ++
          online (Some (ud_id u)) (Some (ud_full_name u)) ++
          map (fun sid => (sid, {| ev_name := "user_offline";
                                   ev_payload := Presence (Some (ud_id u))
                                                   (Some (ud_full_name u))
                                                   (w_now w) |}))
              others /\
        db_tables (w_db w') = db_tables (w_db w)
  | Falsy =>
      exists w1 w',
        on_authenticate socket_id userData w = (Resolved tt, w1) /\
        on_disconnect socket_id w1 = (Resolved tt, w') /\
        w_activeUsers w' = delete socket_id (w_activeUsers w) /\
        w_sockets w' = others /\
        w_delivered w' = w_delivered w ++ online None None /\
        db_tables (w_db w') = db_tables (w_db w)
  | Undefined | Null =>
      exists msg w1,
        on_authenticate socket_id userData w = (Rejected (TypeError msg), w1) /\
        w_activeUsers w1 = delete socket_id (w_activeUsers w) /\
        w_sockets w1 = w_sockets w /\
        w_delivered w1 = w_delivered w /\
        db_tables (w_db w1) = db_tables (w_db w)
  end.
Proof.
  intros others online. split.
  { intros Hin. apply filter_In in Hin as (_ & Hne).
    rewrite String.eqb_refl in Hne. discriminate. }
  destruct userData as [| | |u]; subst online;
    unfold on_authenticate, socket_broadcast_emit, deliver, timestamp_now, throw;
    unfold_M; simpl.
  - eexists _, _. split; [reflexivity|]. repeat split.
  - eexists _, _. split; [reflexivity|]. repeat split.
  - eexists _, _. split; [reflexivity|].
    unfold on_disconnect. simpl. rewrite lookup_delete_eq.
    split; [reflexivity|]. simpl. repeat split.
  - eexists _, _. split; [reflexivity|].
    unfold on_disconnect, socket_broadcast_emit, deliver, timestamp_now.
    unfold_M. simpl. rewrite lookup_insert_eq. simpl.
    rewrite filter_filter_same. split; [reflexivity|]. simpl.
    split; [apply delete_insert_eq|]. split; [reflexivity|].
    split; [|reflexivity]. rewrite <- app_assoc. reflexivity.
Qed.

(** A socket that never announced itself disconnects silently: no
    event is sent to anyone and the registry of active users is as it
    was. *)
Lemma on_disconnect_unannounced
    (socket_id : string) (w : world) :
  w_activeUsers w !! socket_id = None ->
  on_disconnect socket_id w =
    (Resolved tt,
     set_sockets
       (List.filter (fun sid => negb (String.eqb sid socket_id)) (w_sockets w)) w).
Proof.
  intros H. unfold on_disconnect. simpl. rewrite H. reflexivity.
Qed.

(** X16. A client's product_updated message is relayed to every
    connected socket but the sender's, as product_updated, with the time
    and, as updatedBy, the full name the sender last announced with
    authenticate; a sender that never announced itself is relayed without a
    name.  The relay touches neither the registry nor the database. *)
Theorem on_product_updated_relays
    (socket_id data : string) (w : world) :
  let others :=
    List.filter (fun sid => negb (String.eqb sid socket_id)) (w_sockets w) in
  (forall first last : user_data,
     let w1 := snd (on_authenticate socket_id last
                      (snd (on_authenticate socket_id first w))) in
     exists w2,
       on_product_updated socket_id data w1 = (Resolved tt, w2) /\
       w_delivered w2 =
         w_delivered w1 ++
         map (fun sid => (sid, {| ev_name := "product_updated";
                                  ev_payload := Relayed data
                                                  (Some (ud_full_name last))
                                                  (w_now w) |}))
             others /\
       w_activeUsers w2 = w_activeUsers w1 /\ w_db w2 = w_db w1) /\
  (w_activeUsers w !! socket_id = None ->
   exists w2,
     on_product_updated socket_id data w = (Resolved tt, w2) /\
     w_delivered w2 =
       w_delivered w ++
       map (fun sid => (sid, {| ev_name := "product_updated";
                                ev_payload := Relayed data None (w_now w) |}))
           others /\
     w_activeUsers w2 = w_activeUsers w /\ w_db w2 = w_db w) /\
  ~ In socket_id others.
Proof.
  intros others. split; [|split].
  - intros first last w1. subst w1.
    unfold on_product_updated, on_authenticate, socket_broadcast_emit, deliver,
      timestamp_now. unfold_M. simpl.
    rewrite lookup_insert_eq. simpl.
    eexists. split; [reflexivity|]. simpl. repeat split.
  - intros Hnone.
    unfold on_product_updated, socket_broadcast_emit, deliver, timestamp_now.
    unfold_M. simpl. rewrite Hnone. simpl.
    eexists. split; [reflexivity|]. simpl. repeat split.
  - intros Hin. apply filter_In in Hin as (_ & Hne).
    rewrite String.eqb_refl in Hne. discriminate.
Qed.

Lemma on_product_updated_relays_witness :
  w_activeUsers shop !! "sock-B" = None /\
  exists w2,
    on_product_updated "sock-B" "cd" shop = (Resolved tt, w2) /\
    w_delivered w2 =
      w_delivered shop ++
      map (fun sid => (sid, {| ev_name := "product_updated";
                               ev_payload := Relayed "cd" None (w_now shop) |}))
          (List.filter (fun sid => negb (String.eqb sid "sock-B")) (w_sockets shop)) /\
    w_activeUsers w2 = w_activeUsers shop /\ w_db w2 = w_db shop.
Proof.
  split; [vm_compute; reflexivity|].
  apply (on_product_updated_relays "sock-B" "cd" shop). vm_compute. reflexivity.
Defined.

(** ** Start-up *)

Lemma null_status_activated_twice (us : list user_row) :
  map null_status_activated (map null_status_activated us) =
  map null_status_activated us.
Proof.
  rewrite map_map. apply map_ext. intros u. unfold null_status_activated.
  destruct (u_status u) eqn:E; [rewrite E; reflexivity | reflexivity].
Qed.

(** What initializeDatabase does when the users table exists. *)
Lemma initializeDatabase_existing
    (bcrypt_hash : string -> Z -> string) (w : world) (us : list user_row) :
  users (db_tables (w_db w)) = Some us ->
  initializeDatabase bcrypt_hash w =
    (Resolved tt,
     set_db {| db_tables := set_users (Some (map null_status_activated us))
                              (db_tables (w_db w));
               db_seqs := db_seqs (w_db w) |} w).
Proof.
  intros Hus. unfold initializeDatabase. unfold_M.
  unfold select_users_columns, alter_users_add_status,
    update_users_null_status_active, select_table_names.
  rewrite Hus. simpl. rewrite Hus. simpl. rewrite Hus. reflexivity.
Qed.



(** X18. initializeDatabase never fails to its caller, whatever the
    database holds: every error is swallowed.  The users table exists
    afterwards, and running initializeDatabase again changes nothing. *)
Theorem initializeDatabase_settles
    (bcrypt_hash : string -> Z -> string) (w : world) :
  exists w1,
    initializeDatabase bcrypt_hash w = (Resolved tt, w1) /\
    is_Some (users (db_tables (w_db w1))) /\
    initializeDatabase bcrypt_hash w1 = (Resolved tt, w1).
Proof.
  destruct (users (db_tables (w_db w))) as [us|] eqn:Hus.
  - rewrite (initializeDatabase_existing _ _ _ Hus).
    eexists. split; [reflexivity|]. split; [eexists; reflexivity|].
    erewrite initializeDatabase_existing by reflexivity.
    simpl. rewrite null_status_activated_twice. reflexivity.
  - assert (H : exists w1 us1,
               initializeDatabase bcrypt_hash w = (Resolved tt, w1) /\
               users (db_tables (w_db w1)) = Some us1 /\
               map null_status_activated us1 = us1).
    { destruct w as [now [[u ps ss its] seqs] txn faults socks active sent].
      simpl in Hus. subst u.
      unfold initializeDatabase. unfold_M.
      unfold select_users_columns, create_table_users, create_table_products,
        create_table_sales, create_table_sale_items, insert_user.
      destruct ps, ss, its; simpl;
        eexists _, _; (split; [reflexivity|]); split; reflexivity. }
    destruct H as (w1 & us1 & Hrun & Hus1 & Hfix).
    exists w1. split; [exact Hrun|]. split; [rewrite Hus1; eexists; reflexivity|].
    rewrite (initializeDatabase_existing _ _ _ Hus1), Hfix.
    rewrite <- Hus1, set_users_same, set_db_same. reflexivity.
Qed.

(** ** Accounts, from registration to login *)

Lemma absent_falsy (x : option string) : absent x -> falsy_string x = true.
Proof. intros [->| ->]; reflexivity. Qed.

(** X19. POST /api/register stores nothing and answers 400: "All fields
    are required" when the full name, the email or the password is missing
    or the empty string, and "User already exists" when all three are given
    and a user with the email is stored. *)
Theorem register_refusals
    (bcrypt_hash : string -> Z -> string) (b : register_body) (w : world) :
  (absent (rb_full_name b) \/ absent (rb_email b) \/ absent (rb_password b) ->
   register bcrypt_hash b w =
     (Resolved {| res_status := 400;
                  res_body := BError None "All fields are required" |}, w)) /\
  (forall fn em pw us u,
     rb_full_name b = Some fn -> fn <> "" ->
     rb_email b = Some em -> em <> "" ->
     rb_password b = Some pw -> pw <> "" ->
     users (db_tables (w_db w)) = Some us -> In u us -> u_email u = em ->
     register bcrypt_hash b w =
       (Resolved {| res_status := 400;
                    res_body := BError None "User already exists" |}, w)).
Proof.
  split.
  - intros H.
    assert (Hf : falsy_string (rb_full_name b) || falsy_string (rb_email b)
                 || falsy_string (rb_password b) = true).
    { destruct H as [H|[H|H]]; apply absent_falsy in H; rewrite H;
        rewrite ?orb_true_r; reflexivity. }
    unfold register. unfold_M. rewrite Hf. reflexivity.
  - intros fn em pw us u Hfn Hfn' Hem Hem' Hpw Hpw' Hus Hin Hu.
    unfold register. unfold_M. unfold select_users_by_email.
    rewrite Hfn, Hem, Hpw, !present_truthy by assumption. simpl.
    rewrite Hus.
    destruct (List.filter (email_is (Some em)) us) as [|v hit] eqn:Hf.
    + exfalso.
      assert (Hin' : In u (List.filter (email_is (Some em)) us)).
      { apply filter_In. split; [exact Hin|]. simpl. apply String.eqb_eq, Hu. }
      rewrite Hf in Hin'. destruct Hin'.
    + simpl. rewrite set_db_same. reflexivity.
Qed.

Lemma register_refusals_witness :
  (absent (rb_full_name {| rb_full_name := Some ""; rb_email := Some "d@x.com";
                           rb_password := Some "pw" |}) \/
   absent (Some "d@x.com") \/ absent (Some "pw")) /\
  register demo_hash {| rb_full_name := Some ""; rb_email := Some "d@x.com";
                        rb_password := Some "pw" |} shop =
    (Resolved {| res_status := 400;
                 res_body := BError None "All fields are required" |}, shop).
Proof.
  split; [left; right; reflexivity|].
  apply (register_refusals demo_hash
           {| rb_full_name := Some ""; rb_email := Some "d@x.com";
              rb_password := Some "pw" |} shop).
  left. right. reflexivity.
Defined.







(** ** More on sales *)

Lemma createSale_all_or_nothing_witness :
  (w_txn shop_reply_lost = None /\
   createSale alice_token one_line_sale shop_reply_lost =
     (Resolved {| res_status := 500;
                  res_body := BError (Some false) (message ConnectionError) |},
      shop_after_lost_reply)) /\
  (db_tables (w_db shop_after_lost_reply) = db_tables (w_db shop_reply_lost) \/
   exists items customer ss,
     sb_items one_line_sale = Some items /\
     (exists given, sb_customer one_line_sale = Some given /\
                    varchar 100 given = Some customer) /\
     sales (db_tables (w_db shop_reply_lost)) = Some ss /\
     db_tables (w_db shop_after_lost_reply) =
       with_sale (recorded_sale alice_token customer items shop_reply_lost) items ss
         (sale_items_id_seq (db_seqs (w_db shop_reply_lost)))
         (db_tables (w_db shop_reply_lost))) /\
  w_delivered shop_after_lost_reply = w_delivered shop_reply_lost.
Proof.
  assert (Hrun : createSale alice_token one_line_sale shop_reply_lost =
                 (Resolved {| res_status := 500;
                              res_body := BError (Some false)
                                            (message ConnectionError) |},
                  shop_after_lost_reply))
    by (vm_compute; reflexivity).
  split; [split; [reflexivity | exact Hrun]|].
  assert (Hfail : forall resp,
             Resolved {| res_status := 500;
                         res_body := BError (Some false) (message ConnectionError) |}
             = Resolved resp -> res_status resp <> 200).
  { intros resp H. injection H as <-. simpl. lia. }
  destruct (createSale_all_or_nothing alice_token one_line_sale
              shop_reply_lost _ _ eq_refl Hrun) as (Htab & Hrest).
  destruct (Hrest Hfail) as (Hdel & _).
  split; [exact Htab | exact Hdel].
Defined.

Lemma createSale_unknown_product_fails_witness :
  (w_txn shop = None /\
   sb_items unknown_product_sale = Some [line 1 3 1000; line 7 1 500] /\
   In (line 7 1 500) [line 1 3 1000; line 7 1 500] /\
   item_product_id (line 7 1 500) = Some 7 /\
   products (db_tables (w_db shop)) = Some [cd_a] /\
   ~ In 7 (map p_id [cd_a])) /\
  (forall resp,
     fst (createSale alice_token unknown_product_sale shop) = Resolved resp ->
     res_status resp <> 200) /\
  db_tables (w_db (snd (createSale alice_token unknown_product_sale shop))) =
    db_tables (w_db shop).
Proof.
  assert (Hno : ~ In 7 (map p_id [cd_a])).
  { simpl. intros [H|[]]. discriminate H. }
  split.
  { split; [reflexivity|]. split; [reflexivity|].
    split; [right; left; reflexivity|]. split; [reflexivity|].
    split; [reflexivity | exact Hno]. }
  exact (createSale_unknown_product_fails alice_token unknown_product_sale shop
           (snd (createSale alice_token unknown_product_sale shop))
           (fst (createSale alice_token unknown_product_sale shop))
           [line 1 3 1000; line 7 1 500] (line 7 1 500) 7 [cd_a]
           eq_refl (surjective_pairing _) eq_refl
           (or_intror (or_introl eq_refl)) eq_refl eq_refl Hno).
Defined.





(** X26. A body without items, or without a customer, is answered 500
    and stores nothing.  Without items the answer carries the TypeError of
    reading reduce of undefined and the state is exactly as before; without
    a customer the INSERT fails on the NOT NULL column, the tables are as
    before, and the sales sequence has moved on by one all the same (when
    the total of the lines is beyond DECIMAL(10,2), the INSERT fails on the
    total first, and the sequence stays). *)
Theorem createSale_incomplete_body
    (caller : jwt_payload) (b : sale_body) (w : world) (ss : list sale_row) :
  w_txn w = None -> w_faults w = [] ->
  sales (db_tables (w_db w)) = Some ss ->
  (sb_items b = None ->
   createSale caller b w =
     (Resolved {| res_status := 500;
                  res_body := BError (Some false)
                    "Cannot read properties of undefined (reading 'reduce')" |},
      w)) /\
  (sb_customer b = None ->
   forall items, sb_items b = Some items ->
   createSale caller b w =
     if numeric_10_2 (items_total items) then
       (Resolved {| res_status := 500;
                    res_body := BError (Some false)
                      (message (NotNullViolation "customer")) |},
        set_db {| db_tables := db_tables (w_db w);
                  db_seqs := set_sales_id_seq (sales_id_seq (db_seqs (w_db w)) + 1)
                               (db_seqs (w_db w)) |} w)
     else
       (Resolved {| res_status := 500;
                    res_body := BError (Some false) (message NumericOverflow) |},
        w)).
Proof.
  intros Ht Hf Hss.
  destruct w as [now [tabs seqs] txn faults lost socks active sent].
  simpl in Ht, Hf, Hss. subst txn faults. split.
  - intros Hi. unfold createSale, pool_connect, client_query_BEGIN,
      client_query_ROLLBACK, client_release, client_call, next_fault,
      defined_items. unfold_M. rewrite Hi. reflexivity.
  - intros Hc items Hitems.
    unfold createSale, pool_connect, client_query_BEGIN, client_query,
      client_query_ROLLBACK, client_release, client_call, next_fault,
      defined_items, insert_sale. unfold_M. rewrite Hitems, Hc. simpl.
    rewrite Hss. simpl.
    destruct (numeric_10_2 (items_total items)); reflexivity.
Qed.

Lemma createSale_incomplete_body_witness :
  (w_txn shop = None /\ w_faults shop = [] /\
   sales (db_tables (w_db shop)) = Some []) /\
  createSale alice_token {| sb_customer := Some "Carl"; sb_items := None;
                            sb_total := Some 5 |} shop =
    (Resolved {| res_status := 500;
                 res_body := BError (Some false)
                   "Cannot read properties of undefined (reading 'reduce')" |},
     shop).
Proof.
  split; [repeat split|].
  apply (createSale_incomplete_body alice_token
           {| sb_customer := Some "Carl"; sb_items := None; sb_total := Some 5 |}
           shop [] eq_refl eq_refl eq_refl).
  reflexivity.
Defined.
